(** * ml-recsys-tools: recommender contracts, rank fusion and hold-out search

    A shallow embedding of the parts of [ml_recsys_tools] that carry the
    behavioural contracts of the recommender base classes
    ([recommenders/recommender_base.py], [recommenders/factorization_base.py]),
    of the combination ensembles ([lightfm_tools/combination_ensembles.py]),
    of the hold-out hyper-parameter search, of the map zoom heuristic
    ([utils/geo.py]) and of the instrumentation decorators
    ([utils/instrumentation.py]).

    Conventions.
    - A pandas frame is a list of rows; a row is a record (or tuple) of the
      columns the code reads.  Row order is kept where the code fixes it and
      is otherwise the order of construction; every statement below is about
      membership and per-row values.
    - User and item identifiers are strings (the code casts them with
      [astype(str)]).
    - Scores, ranks and durations are rationals: the arithmetic the code does
      on them (comparison, reciprocal, sum) is exact in the model, and float
      rounding is outside it.  The zoom heuristic is the exception: its
      coordinates are double-precision numbers with the operations of IEEE
      754, and [numpy.log] is a parameter of the model.
    - A Python dict is a [gmap string V].
    - Code that raises returns in [result]; code that also reads the clock,
      the control file or the logger threads a [world]. *)

From Stdlib Require Import QArith Qminmax Qround Qpower ZArith Lia Lqa Ascii Floats.
From stdpp Require Import gmap strings list sorting pretty.

Local Close Scope Q_scope.
Local Set Warnings "-register-all".
Local Open Scope string_scope.
Local Open Scope nat_scope.

(** * The model *)

(** ** Python values shared by the modules below *)

Module Py.

(** Instances of Python's [Exception] class that the modelled code raises or
    lets through.  [Raised] stands for any other [Exception] subclass coming
    out of a pipeline, a member recommender or the file system.  The signals
    that derive from [BaseException] only ([KeyboardInterrupt], [SystemExit])
    are not exceptions of this type. *)
Inductive py_exception : Type :=
| InterruptedError (msg : string)
| NotImplementedError (msg : string)
| ValueError (msg : string)
| AttributeError (msg : string)
| AssertionError (msg : string)
| FileNotFoundError (path : string)
| Raised (class_name msg : string).

(** The outcome of a call: a value, or a raised exception. *)
Inductive result (A : Type) : Type :=
| Ok (a : A)
| Raise (e : py_exception).
Arguments Ok {A} a.
Arguments Raise {A} e.

#[export] Instance result_ret : MRet result := @Ok.
#[export] Instance result_bind : MBind result := λ A B f r,
  match r with
  | Ok a => f a
  | Raise e => Raise e
  end.

(** Closes a decidable closed goal by evaluating its decision procedure. *)
Ltac by_compute := apply (bool_decide_unpack _); vm_compute; exact I.

(** [needle in hay] on Python strings. *)
Fixpoint str_in (needle hay : string) : bool :=
  String.prefix needle hay
  || match hay with
     | EmptyString => false
     | String _ rest => str_in needle rest
     end.

(** [pandas.unique]: the distinct values in order of first appearance. *)
Definition unique (l : list string) : list string :=
  reverse (remove_dups (reverse l)).

(** [list(x)[:n_cutoff]]; a cutoff of [None] keeps the whole list. *)
Definition cutoff {A} (n_cutoff : option nat) (l : list A) : list A :=
  match n_cutoff with
  | None => l
  | Some n => take n l
  end.

End Py.

(** ** Parameter dictionaries ([BaseDFRecommender]) *)

Module Params.
Section Params.

(** The Python values stored in a parameter dictionary. *)
Context {V : Type}.

(** [_dict_update(d, u)]: [d = d.copy(); if u: d.update(u); return d].
    [u] is [None] when the caller passed no mapping; an empty mapping is
    falsy as well.  [dict.update] lets [u]'s entries win, which is the
    left-biased union [u ∪ d]. *)
Definition _dict_update (d : gmap string V) (u : option (gmap string V))
  : gmap string V :=
  match u with
  | None => d
  | Some m => if decide (m = ∅) then d else m ∪ d
  end.

(** The two dictionaries of a recommender instance. *)
Record recommender := {
  model_params : gmap string V;
  fit_params : gmap string V
}.

Definition _set_model_params (self : recommender) (params : option (gmap string V))
  : recommender :=
  {| model_params := _dict_update (model_params self) params;
     fit_params := fit_params self |}.

Definition _set_fit_params (self : recommender) (params : option (gmap string V))
  : recommender :=
  {| model_params := model_params self;
     fit_params := _dict_update (fit_params self) params |}.

(** [set_params]: its keyword arguments always arrive as a dict. *)
Definition set_params (self : recommender) (params : gmap string V) : recommender :=
  _set_model_params self (Some params).

(** [__init__]: copies of the class defaults, then the two setters. *)
Definition init (default_model_params default_fit_params : gmap string V)
    (model_params fit_params : option (gmap string V)) : recommender :=
  _set_fit_params
    (_set_model_params
       {| model_params := default_model_params; fit_params := default_fit_params |}
       model_params)
    fit_params.

(** [LightFMRecommender.set_params]: [epochs] is popped into the fit
    parameters and [use_sample_weight] into an attribute of its own; what is
    left goes to the base class setter. *)
Record lightfm_recommender := {
  base : recommender;
  use_sample_weight : option V
}.

Definition lightfm_set_params (self : lightfm_recommender) (params : gmap string V)
  : lightfm_recommender :=
  let base1 :=
    match params !! "epochs" with
    | Some e => _set_fit_params (base self) (Some {[ "epochs" := e ]})
    | None => base self
    end in
  let params1 := delete "epochs" params in
  let attr :=
    match params1 !! "use_sample_weight" with
    | Some w => Some w
    | None => use_sample_weight self
    end in
  let params2 := delete "use_sample_weight" params1 in
  {| base := set_params base1 params2; use_sample_weight := attr |}.




(** *** Popping keywords into attributes *)

(** [_pop_set_dict(d, params, pop_params)]: every listed key that [params]
    holds is popped out of [params] and stored in [d]; both dictionaries are
    changed in place, so both are handed back. *)
Definition _pop_set_dict (d params : gmap string V) (pop_params : list string)
  : gmap string V * gmap string V :=
  foldl (λ acc p,
           match acc.2 !! p with
           | Some v => (<[p := v]> acc.1, delete p acc.2)
           | None => acc
           end) (d, params) pop_params.






End Params.

(** *** Instances for the examples *)



End Params.

(** ** Fitting a [LightFMRecommender] *)

Module LightFMFit.
Import Py Params.

Section lightfm_fit.
Context {V : Type}.

(** The fit of a [LightFMRecommender].  [M] are the models of the
    [lightfm] package, [Obs] the training observations and [Data] what
    [_prep_for_fit] derives from them (the matrix builder, the training frame
    and matrix, and the sample weights). *)
Context {M Obs Data : Type}.

(** The constructor [LightFM], called with the model parameters as its
    keywords. *)
Variable LightFM : gmap string V → result M.
(** The data attributes set by [_prep_for_fit], for a value of
    [use_sample_weight]. *)
Variable prepare : Obs → option V → result Data.
(** [model.fit] and [model.fit_partial], called with the training matrix,
    the sample weights and the fit parameters as keywords; they return the
    model, trained. *)
Variable model_fit : M → option Data → gmap string V → result M.
Variable model_fit_partial : M → option Data → gmap string V → result M.

Record lightfm := {
  lf_params : lightfm_recommender (V:=V);
  external_features_mat : V;
  lf_data : option Data;
  lf_model : option M
}.

Definition lf_fit_params (self : lightfm) : gmap string V :=
  fit_params (base (lf_params self)).

Definition with_fit_params (self : lightfm) (fp : gmap string V) : lightfm_recommender :=
  {| base := {| model_params := model_params (base (lf_params self));
                fit_params := fp |};
     use_sample_weight := use_sample_weight (lf_params self) |}.

(** [_prep_for_fit], with the keywords it is given. *)
Definition _prep_for_fit (self : lightfm) (train_obs : Obs) (fit_params : gmap string V)
  : result lightfm :=
  data ← prepare train_obs (use_sample_weight (lf_params self));
  let fp := <["item_features" := external_features_mat self]> (lf_fit_params self) in
  model ← LightFM (model_params (base (lf_params self)));
  Ok {| lf_params := with_fit_params self (_dict_update fp (Some fit_params));
        external_features_mat := external_features_mat self;
        lf_data := Some data;
        lf_model := Some model |}.

(** [fit], with the keywords it is given. *)
Definition fit (self : lightfm) (train_obs : Obs) (fit_params : gmap string V)
  : result lightfm :=
  self1 ← _prep_for_fit self train_obs fit_params;
  match lf_model self1 with
  | None => Raise (AttributeError "'NoneType' object has no attribute 'fit'")
  | Some model =>
      model' ← model_fit model (lf_data self1) (lf_fit_params self1);
      Ok {| lf_params := lf_params self1;
            external_features_mat := external_features_mat self1;
            lf_data := lf_data self1;
            lf_model := Some model' |}
  end.

(** [fit_partial(train_obs, epochs)]. *)
Definition fit_partial (self : lightfm) (train_obs : Obs) (epochs : V)
  : result lightfm :=
  let fit_params := _dict_update (lf_fit_params self) (Some {[ "epochs" := epochs ]}) in
  match lf_model self with
  | None => fit self train_obs fit_params
  | Some model =>
      model' ← model_fit_partial model (lf_data self) fit_params;
      Ok {| lf_params := lf_params self;
            external_features_mat := external_features_mat self;
            lf_data := lf_data self;
            lf_model := Some model' |}
  end.

End lightfm_fit.

(** *** Instances for the examples *)

(** A [lightfm] package for the examples: parameter values are numbers, a
    model is the number of epochs it has been trained for, and the prepared
    data are the observations. *)
Definition LightFM_example (model_params : gmap string nat) : result nat := Ok 0.

Definition prepare_example (train_obs : string) (use_sample_weight : option nat)
  : result string := Ok train_obs.

Definition model_fit_example (model : nat) (data : option string)
    (fit_params : gmap string nat) : result nat :=
  Ok (model + default 0 (fit_params !! "epochs")).

Definition unfitted_example : lightfm (V:=nat) (M:=nat) (Data:=string) :=
  {| lf_params := {| base := {| model_params := ∅;
                                fit_params := {[ "epochs" := 100; "item_features" := 0 ]} |};
                     use_sample_weight := None |};
     external_features_mat := 7;
     lf_data := None;
     lf_model := None |}.

(** The instance after a first [fit_partial] for 10 epochs on ["obs"]. *)
Definition first_partial_example : lightfm (V:=nat) (M:=nat) (Data:=string) :=
  {| lf_params := {| base := {| model_params := ∅;
                                fit_params := {[ "epochs" := 10; "item_features" := 0 ]} |};
                     use_sample_weight := None |};
     external_features_mat := 7;
     lf_data := Some "obs";
     lf_model := Some 10 |}.

Definition fitted_example : lightfm (V:=nat) (M:=nat) (Data:=string) :=
  {| lf_params := lf_params unfitted_example;
     external_features_mat := 7;
     lf_data := Some "first";
     lf_model := Some 100 |}.

(** The instance after a further [fit_partial] for 5 epochs, called with
    other observations. *)
Definition later_partial_example : lightfm (V:=nat) (M:=nat) (Data:=string) :=
  {| lf_params := lf_params unfitted_example;
     external_features_mat := 7;
     lf_data := Some "first";
     lf_model := Some 105 |}.

End LightFMFit.

(** ** Result frames and the sparse recommender base class *)

Module Frames.
Import Py.

(** One row of a flat result frame: [(user, item, prediction)] for
    recommendations, [(item_source, item, prediction)] for similarities. *)
Record flat_row := FlatRow { src : string; tgt : string; score : Q }.

(** One row of a lists frame: a source with its targets and their scores. *)
Record lists_row := ListsRow { lsrc : string; ltgts : list string; lscores : list Q }.

(** One training interaction.  The model takes the default column names,
    under which [_user_col], [uid_source_col] and the attribute [userid] read
    by [_separate_heavy_users] are one column, and [_item_col] and
    [iid_source_col] another.  The rating is the weight the interaction
    matrix is built from; it is [None] where the column holds a null (NaN). *)
Record train_row := TrainRow { userid : string; itemid : string; rating : option Q }.

Inductive frame_kind := Recommendations | Similarities.

Inductive results_df :=
| ListsDF (rows : list lists_row)
| FlatDF (rows : list flat_row).

(** The pair [(s, t)] occurs in a result frame. *)
Definition contains_pair (df : results_df) (s t : string) : Prop :=
  match df with
  | FlatDF rows => ∃ r, r ∈ rows ∧ src r = s ∧ tgt r = t
  | ListsDF rows => ∃ r, r ∈ rows ∧ lsrc r = s ∧ t ∈ ltgts r
  end.

(** [numpy.repeat(v, n)]: every element [n] times, in place. *)
Definition np_repeat {A} (n : nat) (v : list A) : list A := v ≫= replicate n.

(** [mat.shape[1]] of a two-dimensional array given by its rows. *)
Definition shape1 {A} (mat : list (list A)) : nat :=
  match mat with
  | [] => 0
  | row :: _ => length row
  end.

(** [pandas.DataFrame] from three columns: they must be equally long. *)
Definition data_frame3 {A B C R} (mk : A → B → C → R)
    (c1 : list A) (c2 : list B) (c3 : list C) : result (list R) :=
  if decide (length c1 = length c2 ∧ length c2 = length c3)
  then Ok (zip_with (λ a bc, mk a bc.1 bc.2) c1 (zip c2 c3))
  else Raise (ValueError "arrays must all be same length").

(** [numpy.concatenate] of a list of arrays: it refuses the empty list. *)
Definition np_concatenate {A} (arrays : list (list A)) : result (list A) :=
  match arrays with
  | [] => Raise (ValueError "need at least one array to concatenate")
  | _ => Ok (concat arrays)
  end.

(** [_format_results_df]. *)
Definition _format_results_df (source_vec : list string)
    (target_ids_mat : list (list string)) (scores_mat : list (list Q))
    (results_format : string) : result (frame_kind * results_df) :=
  kind ← (if str_in "recommendations" results_format then Ok Recommendations
          else if str_in "similarities" results_format then Ok Similarities
          else Raise (NotImplementedError ("results_format: " +:+ results_format)));
  if str_in "lists" results_format then
    rows ← data_frame3 ListsRow source_vec target_ids_mat scores_mat;
    Ok (kind, ListsDF rows)
  else if str_in "flat" results_format then
    let n_rec := shape1 target_ids_mat in
    targets ← np_concatenate target_ids_mat;
    scores ← np_concatenate scores_mat;
    rows ← data_frame3 FlatRow (np_repeat n_rec source_vec) targets scores;
    Ok (kind, FlatDF rows)
  else Raise (NotImplementedError ("results_format: " +:+ results_format)).

(** [sort_values(prediction, ascending=False)]. *)
Definition score_ge (r1 r2 : flat_row) : Prop := (score r2 <= score r1)%Q.

#[export] Instance score_ge_dec : RelDecision score_ge.
Proof.
  intros r1 r2. unfold score_ge.
  destruct (Qlt_le_dec (score r1) (score r2)) as [H|H].
  - right. by apply Qlt_not_le.
  - by left.
Defined.

Definition sort_values_desc (df : list flat_row) : list flat_row :=
  merge_sort score_ge df.

(** The order [groupby] puts the group keys in. *)
Definition str_le (s1 s2 : string) : Prop := String.leb s1 s2 = true.

#[export] Instance str_le_dec : RelDecision str_le.
Proof. intros s1 s2. unfold str_le. apply _. Defined.

Definition group_keys (df : list flat_row) : list string :=
  merge_sort str_le (unique (src <$> df)).

(** [_flat_df_to_lists] with the prediction as sort column, the source as
    group column and [item, prediction] as target columns, which is how
    [_recos_flat_to_lists] and [_simil_flat_to_lists] call it. *)
Definition _flat_df_to_lists (df : list flat_row) (n_cutoff : option nat)
  : list lists_row :=
  let sorted := sort_values_desc df in
  (λ g,
     let rows := filter (λ r, src r = g) sorted in
     ListsRow g (cutoff n_cutoff (tgt <$> rows)) (cutoff n_cutoff (score <$> rows)))
  <$> group_keys sorted.

(** [_remove_self_similarities]. *)
Definition _remove_self_similarities (flat_df : list flat_row) : list flat_row :=
  filter (λ r, src r ≠ tgt r) flat_df.

(** The left merge of one recommendation row with the training frame on
    [(user, item)]: a copy per matching interaction carrying its rating (a
    null where the interaction's rating is one), or one copy with a null
    rating when nothing matches. *)
Definition left_merge_row (train_df : list train_row) (r : flat_row)
  : list (flat_row * option Q) :=
  match filter (λ t, userid t = src r ∧ itemid t = tgt r) train_df with
  | [] => [(r, None)]
  | matches => (λ t, (r, rating t)) <$> matches
  end.

(** [_remove_training_from_df]: keep the rows whose merged rating is null. *)
Definition _remove_training_from_df (train_df : list train_row)
    (flat_df : list flat_row) : list flat_row :=
  fst <$> filter (λ p, p.2 = None) (flat_df ≫= left_merge_row train_df).

(** [Series.value_counts]: every distinct value with its number of
    occurrences, most frequent first. *)
Definition count_ge (a b : string * nat) : Prop := b.2 ≤ a.2.

#[export] Instance count_ge_dec : RelDecision count_ge.
Proof. intros a b. unfold count_ge. apply _. Defined.

Definition train_count (l : list string) (u : string) : nat :=
  length (filter (λ x, x = u) l).

Definition value_counts (l : list string) : list (string * nat) :=
  merge_sort count_ge ((λ u, (u, train_count l u)) <$> unique l).

(** The state of a fitted sparse recommender that the code below reads:
    the training frame and the cached per-user interaction counts. *)
Record recommender := {
  train_df : list train_row;
  user_train_counts : option (list (string * nat))
}.

Definition all_users (self : recommender) : list string :=
  unique (userid <$> train_df self).

Definition all_items (self : recommender) : list string :=
  unique (itemid <$> train_df self).

(** [_filter_array]: [array[numpy.isin(array, filter_array)]]. *)
Definition _filter_array (array filter_array : list string) : list string :=
  filter (λ x, x ∈ filter_array) array.

Definition remove_unseen_users (self : recommender) (user_ids : list string) :=
  _filter_array user_ids (all_users self).

Definition remove_unseen_items (self : recommender) (item_ids : list string) :=
  _filter_array item_ids (all_items self).

(** [_separate_heavy_users]: the counts are computed once and cached on the
    instance.  The maximum of an empty selection is NaN in pandas; it is [0]
    here, and the width computed from it is never passed on, since the heavy
    group is then empty. *)
Definition _separate_heavy_users (self : recommender) (user_ids : list string)
    (threshold : nat) : (list string * list string * nat) * recommender :=
  let counts :=
    match user_train_counts self with
    | Some c => c
    | None => value_counts (userid <$> train_df self)
    end in
  let user_counts := filter (λ p, p.1 ∈ user_ids) counts in
  let heavy_user_counts := filter (λ p, threshold ≤ p.2) user_counts in
  let heavy_users_max := max_list (snd <$> heavy_user_counts) in
  let heavy_users := fst <$> heavy_user_counts in
  let normal_users := fst <$> filter (λ p, p.2 < threshold) user_counts in
  ((heavy_users, normal_users, heavy_users_max),
   {| train_df := train_df self; user_train_counts := Some counts |}).

(** [_check_item_ids_args]. *)
Definition _check_item_ids_args (self : recommender)
    (item_ids target_item_ids : option (list string))
  : list string * option (list string) :=
  (match item_ids with
   | None => all_items self
   | Some ids => remove_unseen_items self ids
   end,
   remove_unseen_items self <$> target_item_ids).

(** [pandas.concat] of a list of frames; an empty list is an error. *)
Definition pd_concat (dfs : list (list flat_row)) : result (list flat_row) :=
  match dfs with
  | [] => Raise (ValueError "No objects to concatenate")
  | _ => Ok (concat dfs)
  end.

(** Calls in sequence, stopping at the first that raises. *)
Fixpoint map_result {A B} (f : A → result B) (l : list A) : result (list B) :=
  match l with
  | [] => Ok []
  | a :: l' => b ← f a; bs ← map_result f l'; Ok (b :: bs)
  end.

(** The arguments of one call of [get_recommendations]. *)
Record call := {
  c_user_ids : option (list string);
  c_item_ids : option (list string);
  c_n_rec : nat;
  c_n_rec_unfilt : nat;
  c_exclude_training : bool;
  c_results_format : string
}.

Section get_recommendations.

(** The abstract [_get_recommendations_flat_unfilt(user_ids, item_ids,
    n_rec_unfilt)] of the concrete recommender. *)
Variable _get_recommendations_flat_unfilt :
  list string → list string → nat → result (list flat_row).

(** The user groups of [get_recommendations] with the candidate width asked
    for each: the [zip] of the two groups with the two widths, without the
    empty groups. *)
Definition unfilt_requests (heavy_users normal_users : list string)
    (heavy_users_max n_rec_unfilt : nat) : list (list string * nat) :=
  filter (λ p, p.1 ≠ [])
    [(heavy_users, n_rec_unfilt + heavy_users_max); (normal_users, n_rec_unfilt)].

(** The resolved user ids of a call. *)
Definition requested_users (self : recommender) (user_ids : option (list string))
  : list string :=
  match user_ids with
  | Some ids => remove_unseen_users self ids
  | None => all_users self
  end.

Definition requested_items (self : recommender) (item_ids : option (list string))
  : list string :=
  match item_ids with
  | Some ids => remove_unseen_items self ids
  | None => all_items self
  end.

(** The calls that [get_recommendations] makes to the abstract method: the
    heavy users (threshold 50) with the widened window, the normal users with
    the plain one. *)
Definition recommendation_requests (self : recommender)
    (user_ids : option (list string)) (n_rec_unfilt : nat)
  : list (list string * nat) * recommender :=
  let '((heavy_users, normal_users, heavy_users_max), self') :=
    _separate_heavy_users self (requested_users self user_ids) 50 in
  (unfilt_requests heavy_users normal_users heavy_users_max n_rec_unfilt, self').

(** [get_recommendations]: the result, and the instance with its cache. *)
Definition get_recommendations (self : recommender)
    (user_ids item_ids : option (list string)) (n_rec n_rec_unfilt : nat)
    (exclude_training : bool) (results_format : string)
  : result results_df * recommender :=
  let items := requested_items self item_ids in
  let '(requests, self') := recommendation_requests self user_ids n_rec_unfilt in
  (reco_dfs ← map_result
      (λ p, _get_recommendations_flat_unfilt p.1 items p.2) requests;
   recos_flat ← pd_concat reco_dfs;
   let recos_flat :=
     if exclude_training then _remove_training_from_df (train_df self) recos_flat
     else recos_flat in
   if decide (results_format = "flat") then Ok (FlatDF recos_flat)
   else Ok (ListsDF (_flat_df_to_lists recos_flat (Some n_rec))),
   self').

(** The instances [get_recommendations] is called on: the instance as
    [_prep_for_fit] leaves it, with the training frame assigned and the cached
    counts reset to [None], and then as any number of earlier calls of
    [get_recommendations], each with arguments of its own, have left it. *)
Definition fitted (train_df : list train_row) : recommender :=
  {| train_df := train_df; user_train_counts := None |}.

Definition serve (self : recommender) (c : call) : recommender :=
  (get_recommendations self (c_user_ids c) (c_item_ids c) (c_n_rec c)
     (c_n_rec_unfilt c) (c_exclude_training c) (c_results_format c)).2.

Definition served (train_df : list train_row) (earlier : list call) : recommender :=
  foldl serve (fitted train_df) earlier.

End get_recommendations.

(** *** Instances for the examples, and the state of the count cache *)

(** A member for the examples: every requested user is proposed the first
    [n] requested items, each at score 1/2. *)
Definition propose_first (user_ids item_ids : list string) (n : nat)
  : result (list flat_row) :=
  Ok (user_ids ≫= λ u, (λ i, FlatRow u i (1 # 2)) <$> take n item_ids).

Definition two_users : recommender :=
  {| train_df := [TrainRow "u1" "a" (Some 1%Q); TrainRow "u1" "b" (Some 1%Q);
                  TrainRow "u2" "a" (Some 1%Q)];
     user_train_counts := None |}.

(** A training frame whose only interaction has a null rating. *)
Definition null_rated : recommender :=
  {| train_df := [TrainRow "u1" "a" None]; user_train_counts := None |}.

(** The instance's cache of the per-user counts is empty or up to date, as
    it is after fitting. *)
Definition counts_fresh (self : recommender) : Prop :=
  user_train_counts self = None
  ∨ user_train_counts self = Some (value_counts (userid <$> train_df self)).

(** A training frame with one heavy user (50 interactions) and one normal
    user (a single interaction). *)
Definition heavy_and_normal : recommender :=
  {| train_df := replicate 50 (TrainRow "h" "i" (Some 1%Q)) ++ [TrainRow "n" "i" (Some 1%Q)];
     user_train_counts := None |}.

(** *** Lists frames and flat frames *)

(** [_recos_lists_to_flat]: the width is read off the first row
    ([iloc[0]] of an empty frame is an [IndexError]), the users are repeated
    that many times each, and the item and prediction lists are
    concatenated. *)
Definition _recos_lists_to_flat (recos_lists_df : list lists_row)
  : result (list flat_row) :=
  match recos_lists_df with
  | [] => Raise (Raised "IndexError" "single positional indexer is out-of-bounds")
  | first :: _ =>
      let n_recos := length (ltgts first) in
      data_frame3 FlatRow
        (np_repeat n_recos (lsrc <$> recos_lists_df))
        (concat (ltgts <$> recos_lists_df))
        (concat (lscores <$> recos_lists_df))
  end.

(** The rows of a lists frame laid out one pair per row. *)
Definition flattened (rows : list lists_row) : list flat_row :=
  rows ≫= λ row, zip_with (FlatRow (lsrc row)) (ltgts row) (lscores row).

(** The pair of a recommendation row is an interaction of the training
    frame. *)
Definition in_training (train_df : list train_row) (r : flat_row) : Prop :=
  Exists (λ t, userid t = src r ∧ itemid t = tgt r) train_df.

(** The training interactions of the pair of a recommendation row that have
    a null rating. *)
Definition null_rated_matches (train_df : list train_row) (r : flat_row)
  : list train_row :=
  filter (λ t, rating t = None)
    (filter (λ t, userid t = src r ∧ itemid t = tgt r) train_df).

(** No rating of the training frame is null. *)
Definition ratings_present (train_df : list train_row) : Prop :=
  Forall (λ t, rating t ≠ None) train_df.

(** All the lists of a lists frame have the length [n]. *)
Definition rectangular (n : nat) (rows : list lists_row) : Prop :=
  Forall (λ row, length (ltgts row) = n ∧ length (lscores row) = n) rows.

(** The lists frame is laid out as [_flat_df_to_lists] lays one out: the
    sources in ascending order without repetition, and the scores of every
    row in strictly descending order. *)
Definition str_lt (s1 s2 : string) : Prop := str_le s1 s2 ∧ s1 ≠ s2.

Definition best_first (rows : list lists_row) : Prop :=
  StronglySorted str_lt (lsrc <$> rows)
  ∧ Forall (λ row, StronglySorted (λ a b, (b < a)%Q) (lscores row)) rows.

(** *** The evaluation reports *)

Section eval_on_test.

(** The test frames, the rank and interaction matrices and the rows of a
    report are those of the evaluation helpers, which are not part of the
    sources at hand; [mean_scores_report_on_ranks] is called with one rank
    matrix, one dataset and one name, and answers a report frame. *)
Context {test_df ranks sp_mat report_row : Type}.
Variable mean_scores_report_on_ranks :
  ranks → sp_mat → string → result (list report_row).

(** What [test_dfs] may be: a single frame, or a sequence of frames. *)
Inductive test_frames : Type :=
| OneFrame (df : test_df)
| FrameList (dfs : list test_df).

(** [pandas.concat] of the reports. *)
Definition concat_reports (report_dfs : list (list report_row))
  : result (list report_row) :=
  match report_dfs with
  | [] => Raise (ValueError "No objects to concatenate")
  | _ => Ok (concat report_dfs)
  end.

(** [_eval_on_test_by_ranking_LFM]. *)
Definition _eval_on_test_by_ranking_LFM
    (train_ranks_func : unit → result (ranks * sp_mat))
    (test_tanks_func : test_df → result (ranks * sp_mat))
    (test_dfs : test_frames) (test_names : list string) (prefix : string)
    (include_train : bool) : result (list report_row) :=
  let test_dfs :=
    match test_dfs with
    | OneFrame df => [df]
    | FrameList dfs => dfs
    end in
  train_reports ←
    (if include_train then
       rs ← train_ranks_func ();
       report ← mean_scores_report_on_ranks rs.1 rs.2 (prefix +:+ "train");
       Ok [report]
     else Ok []);
  test_reports ←
    map_result
      (λ p, rs ← test_tanks_func p.1;
            mean_scores_report_on_ranks rs.1 rs.2 (prefix +:+ p.2 +:+ "test"))
      (zip test_dfs test_names);
  concat_reports (train_reports ++ test_reports).

End eval_on_test.

Arguments test_frames : clear implicits.
Arguments OneFrame {test_df} df.
Arguments FrameList {test_df} dfs.

End Frames.

(** ** Similar items of a factorization recommender *)

Module Factorization.
Import Py Frames.

(** What [get_similar_items] hands to [most_similar].  The representations
    and biases are those of [_get_item_factors(mode=embeddings_mode)] and the
    encoder is the instance's, so the mode stands for them here. *)
Record most_similar_request := {
  source_ids : list string;
  target_ids : option (list string);
  n : nat;
  simil_mode : string;
  embeddings_mode : option string
}.

Section get_similar_items.

(** [utils.similarity.most_similar], which is not part of the sources at
    hand: for every source id a row of best ids and a row of their scores. *)
Variable most_similar :
  most_similar_request → result (list (list string) * list (list Q)).

(** The request of a call to [get_similar_items]: one more neighbour than
    asked for when the query item itself is to be removed. *)
Definition similar_items_request (self : recommender)
    (item_ids target_item_ids : option (list string)) (n_simil : nat)
    (remove_self : bool) (embeddings_mode : option string) (simil_mode : string)
  : most_similar_request :=
  let '(item_ids, target_item_ids) :=
    _check_item_ids_args self item_ids target_item_ids in
  {| source_ids := item_ids;
     target_ids := target_item_ids;
     n := if remove_self then n_simil + 1 else n_simil;
     simil_mode := simil_mode;
     embeddings_mode := embeddings_mode |}.

(** The rows of a flat frame (a lists frame has none to give). *)
Definition flat_rows (df : results_df) : list flat_row :=
  match df with
  | FlatDF rows => rows
  | ListsDF _ => []
  end.

(** [FactorizationRecommender.get_similar_items]. *)
Definition get_similar_items (self : recommender)
    (item_ids target_item_ids : option (list string)) (n_simil : nat)
    (remove_self : bool) (embeddings_mode : option string) (simil_mode : string)
    (results_format : string) : result results_df :=
  let request :=
    similar_items_request self item_ids target_item_ids n_simil remove_self
      embeddings_mode simil_mode in
  best ← most_similar request;
  formatted ← _format_results_df (source_ids request) best.1 best.2 "similarities_flat";
  let simil_df := flat_rows formatted.2 in
  let simil_df := if remove_self then _remove_self_similarities simil_df else simil_df in
  if str_in "lists" results_format
  then Ok (ListsDF (_flat_df_to_lists simil_df (Some n_simil)))
  else Ok (FlatDF simil_df).

End get_similar_items.

(** *** Instances for the examples *)

(** An answer of [most_similar] for the examples: every item of a two-item
    catalogue is closest to itself, then to the other item. *)
Definition closest_is_self (request : most_similar_request)
  : result (list (list string) * list (list Q)) :=
  Ok ((λ s, take (n request) [s; if decide (s = "a") then "b" else "a"])
        <$> source_ids request,
      (λ _, take (n request) [1%Q; (1 # 2)%Q]) <$> source_ids request).

Definition two_items : recommender :=
  {| train_df := [TrainRow "u1" "a" (Some 1%Q); TrainRow "u1" "b" (Some 1%Q)];
     user_train_counts := None |}.

(** *** Similar users *)

(** The lists frame of a source vector and two matrices, row by row. *)
Definition zip3 (sv : list string) (ids : list (list string)) (scores : list (list Q))
  : list lists_row :=
  zip_with (λ a bc, ListsRow a bc.1 bc.2) sv (zip ids scores).

(** The row [r] is an answer of [most_similar]: its target and its score
    stand at one place of the row of best ids and of the row of best scores
    that belong to its source. *)
Definition answered (source_ids : list string) (best_ids : list (list string))
    (best_scores : list (list Q)) (r : flat_row) : Prop :=
  ∃ k j ts xs,
    source_ids !! k = Some (src r)
    ∧ best_ids !! k = Some ts ∧ best_scores !! k = Some xs
    ∧ ts !! j = Some (tgt r) ∧ xs !! j = Some (score r).

Section get_similar_users.

(** [most_similar] on the user factors with the user encoder, and
    [_check_user_ids_args], which the sources at hand do not hold: it
    resolves the two arguments to the user ids to query and the user ids to
    search. *)
Variable most_similar :
  most_similar_request → result (list (list string) * list (list Q)).
Variable _check_user_ids_args :
  recommender → option (list string) → option (list string)
  → list string * option (list string).

Definition similar_users_request (self : recommender)
    (user_ids target_user_ids : option (list string)) (n_simil : nat)
    (simil_mode : string) : most_similar_request :=
  let '(user_ids, target_user_ids) :=
    _check_user_ids_args self user_ids target_user_ids in
  {| source_ids := user_ids;
     target_ids := target_user_ids;
     n := n_simil;
     simil_mode := simil_mode;
     embeddings_mode := None |}.

(** [FactorizationRecommender.get_similar_users]: the source column of the
    flat frame is renamed to the user column, which the rows here do not
    name, and the result is always a lists frame. *)
Definition get_similar_users (self : recommender)
    (user_ids target_user_ids : option (list string)) (n_simil : nat)
    (remove_self : bool) (simil_mode : string) : result results_df :=
  let request := similar_users_request self user_ids target_user_ids n_simil simil_mode in
  best ← most_similar request;
  formatted ← _format_results_df (source_ids request) best.1 best.2 "similarities_flat";
  let simil_df := flat_rows formatted.2 in
  let simil_df := if remove_self then _remove_self_similarities simil_df else simil_df in
  Ok (ListsDF (_flat_df_to_lists simil_df (Some n_simil))).

End get_similar_users.

(** A [_check_user_ids_args] for the examples: the ids given, or all the
    users. *)
Definition check_all (self : recommender) (ids target_ids : option (list string))
  : list string * option (list string) :=
  (default (all_users self) ids, target_ids).

(** Every user of [two_users] is closest to itself, then to the other. *)
Definition users_closest_to_self (request : most_similar_request)
  : result (list (list string) * list (list Q)) :=
  Ok ([["u1"; "u2"]; ["u2"; "u1"]], [[1%Q; (1 # 2)%Q]; [1%Q; (1 # 2)%Q]]).

End Factorization.

(** ** Combination ensembles *)

Module Ensembles.
Import Py Frames.

#[export] Instance Qlt_rel_dec : RelDecision Qlt.
Proof.
  intros x y. destruct (Qlt_le_dec x y) as [H|H]; [by left|].
  right. by apply Qle_not_lt.
Defined.

#[export] Instance Qeq_rel_dec : RelDecision Qeq := Qeq_dec.

(** *** Rank fusion ([CombinedRankEnsemble]) *)

(** [groupby(group)[score].rank(ascending=False)] for one row of a frame:
    pandas ranks from 1 and gives tied scores the average of their places,
    that is, the number of strictly better rows of the group plus half of
    one more than the number of rows tied with this one (itself included). *)
Definition rank_desc (df : list flat_row) (r : flat_row) : Q :=
  let group := filter (λ r', src r' = src r) df in
  let better := length (filter (λ r', (score r < score r')%Q) group) in
  let tied := length (filter (λ r', (score r' == score r)%Q) group) in
  (inject_Z (Z.of_nat better) + (inject_Z (Z.of_nat tied) + 1) / 2)%Q.

(** A member's frame once its scores are replaced by ranks. *)
Record rank_row := RankRow { rk_group : string; rk_item : string; rk_rank : Q }.

Definition rank_frame (df : list flat_row) : list rank_row :=
  (λ r, RankRow (src r) (tgt r) (rank_desc df r)) <$> df.

(** A row of the merged frame: the key and one rank per member merged so
    far, null where the member has no row for the key. *)
Record merged_row := MergedRow {
  m_group : string;
  m_item : string;
  m_ranks : list (option Q)
}.

Definition same_key (m : merged_row) (x : rank_row) : Prop :=
  m_group m = rk_group x ∧ m_item m = rk_item x.

(** A left row with one more rank column, and a right row under [n_cols]
    null left columns. *)
Definition with_rank (l : merged_row) (rank : option Q) : merged_row :=
  MergedRow (m_group l) (m_item l) (m_ranks l ++ [rank]).

Definition right_only (n_cols : nat) (x : rank_row) : merged_row :=
  MergedRow (rk_group x) (rk_item x) (replicate n_cols None ++ [Some (rk_rank x)]).

(** [pandas.merge(left, right, on=[group, item], how='outer')], where [left]
    has [n_cols] rank columns: every left row is paired with each right row
    of its key, or with a null when there is none; the right rows whose key
    no left row has follow, with nulls in the left columns.  (pandas returns
    the rows ordered by key.) *)
Definition outer_merge (n_cols : nat) (left : list merged_row)
    (right : list rank_row) : list merged_row :=
  (left ≫= λ l,
     match filter (same_key l) right with
     | [] => [with_rank l None]
     | matches => (λ x, with_rank l (Some (rk_rank x))) <$> matches
     end)
  ++ (right_only n_cols <$> filter (λ x, Forall (λ l, ¬ same_key l x) left) right).

(** The loop over the members: [merged_df] is [None] before the first. *)
Fixpoint merge_members (i : nat) (merged_df : option (list merged_row))
    (dfs : list (list flat_row)) : option (list merged_row) :=
  match dfs with
  | [] => merged_df
  | df :: rest =>
      let ranked := rank_frame df in
      let merged_df' :=
        match merged_df with
        | None => right_only 0 <$> ranked
        | Some merged => outer_merge i merged ranked
        end in
      merge_members (S i) (Some merged_df') rest
  end.

(** [fillna(fill_val)] on the rank columns of a row. *)
Definition fillna (fill_val : Q) (ranks : list (option Q)) : list Q :=
  default fill_val <$> ranks.

(** The frames the loop works on.  With [multithreaded] the thread pool maps
    the members first and [pool.map] hands the frames back in the order of
    the members; the loop then reads [dfs[i]] and otherwise calls the
    member.  A pool of no threads is refused. *)
Definition member_frames (calc_funcs : list (unit → list flat_row))
    (multithreaded : bool) : result (list (list flat_row)) :=
  dfs ← (if multithreaded then
           if decide (calc_funcs = [])
           then Raise (ValueError "Number of processes must be at least 1")
           else Ok ((λ f, f ()) <$> calc_funcs)
         else Ok []);
  Ok (imap (λ i func,
              match dfs with
              | [] => func ()
              | _ => default [] (dfs !! i)
              end) calc_funcs).

(** [calc_dfs_and_combine_scores]. *)
Definition calc_dfs_and_combine_scores (calc_funcs : list (unit → list flat_row))
    (combine_func : list Q → Q) (fill_val : Q) (multithreaded : bool)
  : result (list flat_row) :=
  frames ← member_frames calc_funcs multithreaded;
  match merge_members 0 None frames with
  | None => Raise (AttributeError "'NoneType' object has no attribute 'fillna'")
  | Some merged_df =>
      Ok ((λ m, FlatRow (m_group m) (m_item m)
                  (combine_func (Qinv <$> fillna fill_val (m_ranks m))))
          <$> merged_df)
  end.

Definition Qsum (xs : list Q) : Q := foldr Qplus 0%Q xs.

Definition Qlen (xs : list Q) : Q := inject_Z (Z.of_nat (length xs)).

(** [numpy.mean], [numpy.max], [numpy.min] and [scipy.stats.hmean] along a
    row (a row of the merged frame is never empty). *)
Definition np_mean (xs : list Q) : Q := (Qsum xs / Qlen xs)%Q.

Definition np_max (xs : list Q) : Q :=
  match xs with
  | [] => 0%Q
  | x :: xs' => foldr Qmax x xs'
  end.

Definition np_min (xs : list Q) : Q :=
  match xs with
  | [] => 0%Q
  | x :: xs' => foldr Qmin x xs'
  end.

Definition hmean (xs : list Q) : Q := (Qlen xs / Qsum (Qinv <$> xs))%Q.

Section rank_ensemble.

(** [scipy.stats.gmean]: a geometric mean is not rational in general, so the
    function is left to the library. *)
Variable gmean : list Q → Q.

(** [rank_combination_function]. *)
Definition rank_combination_function (mode : string) : result (list Q → Q) :=
  if decide (mode = "mean") then Ok np_mean
  else if decide (mode = "max") then Ok np_max
  else if decide (mode = "min") then Ok np_min
  else if decide (mode = "gmean") then Ok gmean
  else if decide (mode = "hmean") then Ok hmean
  else Raise (ValueError ("Unknown rank_combination_mode: " +:+ mode)).

(** A [CombinedRankEnsemble]: its members' unfiltered methods (fitted
    recommenders, called with the users, the items and the width), the
    configured fill value and the combination mode.  A member that raises
    makes the whole call raise; the members here are those that return. *)
Record rank_ensemble := {
  recommenders : list (list string → list string → nat → list flat_row);
  fill_na_val : option Q;
  rank_combination_mode : string
}.

(** [self.fill_na_val if self.fill_na_val else (n_rec_unfilt + 1)]: a fill
    value of [None] or of zero is falsy. *)
Definition fill_val_of (fill_na_val : option Q) (n_rec_unfilt : nat) : Q :=
  match fill_na_val with
  | Some v => if decide (v == 0)%Q then inject_Z (Z.of_nat (n_rec_unfilt + 1)) else v
  | None => inject_Z (Z.of_nat (n_rec_unfilt + 1))
  end.

Definition rank_calc_funcs (self : rank_ensemble) (user_ids item_ids : list string)
    (n_rec_unfilt : nat) : list (unit → list flat_row) :=
  (λ rec (_ : unit), rec user_ids item_ids n_rec_unfilt) <$> recommenders self.

(** [CombinedRankEnsemble._get_recommendations_flat_unfilt]. *)
Definition rank_get_recommendations_flat_unfilt (self : rank_ensemble)
    (user_ids item_ids : list string) (n_rec_unfilt : nat)
  : result (list flat_row) :=
  combine_func ← rank_combination_function (rank_combination_mode self);
  calc_dfs_and_combine_scores
    (rank_calc_funcs self user_ids item_ids n_rec_unfilt)
    combine_func
    (fill_val_of (fill_na_val self) n_rec_unfilt)
    false.

End rank_ensemble.

(** *** The cascade ([CascadeEnsemble]) *)

(** A row with the two encoded columns of the matrix builder. *)
Record encoded_row := EncodedRow { row : flat_row; uid : nat; iid : nat }.

Section cascade.

(** The label encoders of the second member's matrix builder, and the
    pointwise [predict] of its fitted model on encoded indices. *)
Variable uid_encoder iid_encoder : string → option nat.
Variable predict : nat → nat → Q.

(** Modelled from the spec: [InteractionMatrixBuilder.add_encoded_cols] is
    not part of the sources at hand.  The builder holds a user and an item
    label encoder, and an identifier the encoders have not seen is
    unencodable: the two encoded columns are added row by row, and an unseen
    identifier is an error. *)
Definition add_encoded_cols (df : list flat_row) : result (list encoded_row) :=
  map_result
    (λ r,
       match uid_encoder (src r), iid_encoder (tgt r) with
       | Some u, Some i => Ok (EncodedRow r u i)
       | _, _ => Raise (ValueError "y contains previously unseen labels")
       end) df.

(** [LightFMRecommender.predict_on_df]: the prediction column is overwritten
    with the model's prediction for the row's encoded pair, and the encoded
    columns are dropped again. *)
Definition predict_on_df (df : list flat_row) : result (list flat_row) :=
  encoded ← add_encoded_cols df;
  Ok ((λ e, FlatRow (src (row e)) (tgt (row e)) (predict (uid e) (iid e)))
      <$> (encoded : list encoded_row)).

(** The second member's prediction for one pair. *)
Definition pointwise_prediction (user item : string) : option Q :=
  u ← uid_encoder user; i ← iid_encoder item; Some (predict u i).

(** [CascadeEnsemble.__init__] asserts that there are two members. *)
Definition cascade_init {R} (recommenders : list R) : result (R * R) :=
  match recommenders with
  | [first; second] => Ok (first, second)
  | _ => Raise (AssertionError "only 2 recommenders supported")
  end.

(** [CascadeEnsemble._get_recommendations_flat_unfilt], with the first
    member's unfiltered method. *)
Definition cascade_get_recommendations_flat_unfilt
    (first : list string → list string → nat → result (list flat_row))
    (user_ids item_ids : list string) (n_rec_unfilt : nat)
  : result (list flat_row) :=
  recos_df ← first user_ids item_ids n_rec_unfilt;
  predict_on_df recos_df.

End cascade.

(** Two members for the examples: the first proposes two items per user at
    scores 9 and 8; the second knows user [u1] and items [a] and [b] and
    predicts the sum of the two encoded indices. *)
Definition first_stage (user_ids item_ids : list string) (n : nat)
  : result (list flat_row) :=
  Ok (user_ids ≫= λ u, [FlatRow u "a" 9; FlatRow u "b" 8]).

Definition second_uid (user : string) : option nat :=
  if decide (user = "u1") then Some 0 else None.

Definition second_iid (item : string) : option nat :=
  if decide (item = "a") then Some 0 else if decide (item = "b") then Some 1 else None.

Definition second_predict (u i : nat) : Q := inject_Z (Z.of_nat (u + i)).

(** *** Rank fusion: what is stated of the merged and the fused frame *)

(** The frame [df] has a row for the pair [(g, i)]. *)
Definition has_key (df : list flat_row) (g i : string) : Prop :=
  ∃ r, r ∈ df ∧ src r = g ∧ tgt r = i.

(** What the loop keeps true of the merged frame after the members [done]. *)
Record merged_inv (done : list (list flat_row)) (merged : list merged_row) : Prop := {
  inv_length : ∀ m, m ∈ merged → length (m_ranks m) = length done;
  inv_keys : ∀ g i,
    (∃ m, m ∈ merged ∧ m_group m = g ∧ m_item m = i)
    ↔ ∃ df, df ∈ done ∧ has_key df g i;
  inv_missing : ∀ m k df,
    m ∈ merged → done !! k = Some df → ¬ has_key df (m_group m) (m_item m) →
    m_ranks m !! k = Some None;
  inv_present : ∀ m k df,
    m ∈ merged → done !! k = Some df → has_key df (m_group m) (m_item m) →
    ∃ r, r ∈ df ∧ src r = m_group m ∧ tgt r = m_item m
         ∧ m_ranks m !! k = Some (Some (rank_desc df r))
}.

(** The fused frame [out] of the member frames [frames] under the fill rank
    [fill]: its pairs are those of the member frames, and the score of every
    row is [combine_func] of the reciprocals of one rank per member, which is
    [fill] for a member without the pair and the pandas rank of a row of the
    member's frame for a member with it. *)
Definition fused_with_fill (fill : Q) (frames : list (list flat_row))
    (combine_func : list Q → Q) (out : list flat_row) : Prop :=
  (∀ g i, (∃ o, o ∈ out ∧ src o = g ∧ tgt o = i) ↔ ∃ df, df ∈ frames ∧ has_key df g i)
  ∧ ∀ o, o ∈ out →
      ∃ ranks,
        length ranks = length frames
        ∧ score o = combine_func (Qinv <$> ranks)
        ∧ ∀ k df, frames !! k = Some df →
            (¬ has_key df (src o) (tgt o) →
             ranks !! k = Some fill ∧ (Qinv <$> ranks) !! k = Some (/ fill)%Q)
            ∧ (has_key df (src o) (tgt o) →
               ∃ r, r ∈ df ∧ src r = src o ∧ tgt r = tgt o
                    ∧ ranks !! k = Some (rank_desc df r)).

(** *** The fused frame of a [CombinedRankEnsemble] *)

Section rank_fusion.

Variable gmean : list Q → Q.

(** The member frames of a call. *)
Definition rank_member_frames (self : rank_ensemble) (user_ids item_ids : list string)
    (n_rec_unfilt : nat) : list (list flat_row) :=
  (λ rec, rec user_ids item_ids n_rec_unfilt) <$> recommenders self.

(** The fill rank as the specification words it: whatever the ensemble's
    configuration, a member without a pair enters the pair's fused score
    with the rank [n_rec_unfilt + 1]. *)
Definition fills_with_window_plus_one (self : rank_ensemble)
    (user_ids item_ids : list string) (n_rec_unfilt : nat) : Prop :=
  ∀ out,
    rank_get_recommendations_flat_unfilt gmean self user_ids item_ids n_rec_unfilt
    = Ok out →
    ∃ combine_func,
      rank_combination_function gmean (rank_combination_mode self) = Ok combine_func
      ∧ fused_with_fill (inject_Z (Z.of_nat (n_rec_unfilt + 1)))
          (rank_member_frames self user_ids item_ids n_rec_unfilt) combine_func out.

End rank_fusion.

(** Two members for the examples, and the ensemble of both under the mean of
    the reciprocal ranks.  The first member ranks [a] first and ties [b] and
    [c]; the second knows [b] and [d] only. *)
Definition likes_abc (user_ids item_ids : list string) (n : nat) : list flat_row :=
  [FlatRow "u" "a" 3; FlatRow "u" "b" 2; FlatRow "u" "c" 2].

Definition likes_bd (user_ids item_ids : list string) (n : nat) : list flat_row :=
  [FlatRow "u" "b" 1; FlatRow "u" "d" 5].

Definition fused_pair (fill_na_val : option Q) : rank_ensemble :=
  {| recommenders := [likes_abc; likes_bd];
     fill_na_val := fill_na_val;
     rank_combination_mode := "mean" |}.

(** A stand-in for [scipy.stats.gmean] where the mode is not [gmean]. *)
Definition no_gmean (xs : list Q) : Q := 0%Q.

(** *** What is stated of the fused scores *)

(** The ranks that enter the fused score of the row [o]: one per member
    frame, the fill rank for a member without the pair and the rank of a row
    of the member's frame for a member with it. *)
Definition member_ranks (fill : Q) (frames : list (list flat_row)) (o : flat_row)
    (ranks : list Q) : Prop :=
  length ranks = length frames
  ∧ ∀ k df, frames !! k = Some df →
      (¬ has_key df (src o) (tgt o) → ranks !! k = Some fill)
      ∧ (has_key df (src o) (tgt o) →
         ∃ r, r ∈ df ∧ src r = src o ∧ tgt r = tgt o
              ∧ ranks !! k = Some (rank_desc df r)).

(** The ensemble of the two example members under another mode. *)
Definition fused_pair_by (mode : string) : rank_ensemble :=
  {| recommenders := [likes_abc; likes_bd];
     fill_na_val := None;
     rank_combination_mode := mode |}.

(** The pair a row of a flat frame is about. *)
Definition pair_of (r : flat_row) : string * string := (src r, tgt r).

(** The keys of a merged row and of a ranked row. *)
Definition m_key (m : merged_row) : string * string := (m_group m, m_item m).
Definition rk_key (x : rank_row) : string * string := (rk_group x, rk_item x).

End Ensembles.

(** ** The hold-out search ([RecoBayesSearchHoldOut]) *)

Module Search.
Import Py.

Inductive log_record {values : Type} : Type :=
| LogWarn (msg : string)
| LogException (e : py_exception)
| LogError (v : values).
Arguments log_record : clear implicits.

(** What the search sees of the outside: the seconds it has slept, the
    first-line-bearing content of the control file at every second ([None]
    while the file does not exist), and the logger's records. *)
Record world {values : Type} := {
  clock : nat;
  control_file : nat → option string;
  log : list (log_record values)
}.
Arguments world : clear implicits.

Section search.

Context {values pipeline report : Type}.

Definition add_log (r : log_record values) (w : world values) : world values :=
  {| clock := clock w; control_file := control_file w; log := log w ++ [r] |}.

(** [time.sleep(1)]. *)
Definition sleep1 (w : world values) : world values :=
  {| clock := S (clock w); control_file := control_file w; log := log w |}.

(** [f.readline()]: the text up to the first newline, newline included. *)
Fixpoint readline (content : string) : string :=
  match content with
  | EmptyString => EmptyString
  | String c rest =>
      if Ascii.eqb c "010"%char then String c EmptyString
      else String c (readline rest)
  end.

(** The busy wait of the [pause] branch: sleep a second, read the first
    line again, until it no longer holds [pause].  Opening a file that has
    gone in the meantime raises.  [None] when the fuel runs out first. *)
Fixpoint wait_while_paused (fuel : nat) (file : string) (w : world values)
  : option (result string * world values) :=
  match fuel with
  | 0 => None
  | S fuel' =>
      let w1 := sleep1 w in
      match control_file w1 (clock w1) with
      | None => Some (Raise (FileNotFoundError file), w1)
      | Some content =>
          let message := readline content in
          if str_in "pause" message then wait_while_paused fuel' file w1
          else Some (Ok message, w1)
      end
  end.

(** [_check_interrupt].  The test for the file and the read that follows
    see the file at the same instant.  The fuel bounds the seconds of pause
    and the re-checks after a pause; the other branches need none.  (The
    quotation marks around the keyword are left out of the message texts.) *)
Fixpoint _check_interrupt (fuel : nat) (interrupt_message_file : option string)
    (w : world values) : option (result unit * world values) :=
  match interrupt_message_file with
  | None => Some (Ok (), w)
  | Some file =>
      match control_file w (clock w) with
      | None => Some (Ok (), w)
      | Some content =>
          let message := readline content in
          if str_in "stop" message then
            Some (Raise (InterruptedError ("interrupted by stop message in " +:+ file)), w)
          else if str_in "pause" message then
            let w1 := add_log (LogWarn ("Paused by pause message in " +:+ file)) w in
            match fuel with
            | 0 => None
            | S fuel' =>
                match wait_while_paused fuel' file w1 with
                | None => None
                | Some (Raise e, w2) => Some (Raise e, w2)
                | Some (Ok _, w2) => _check_interrupt fuel' interrupt_message_file w2
                end
            end
          else if str_in "update" message then
            Some (Raise (NotImplementedError "not yet implemented"),
                  add_log (LogWarn ("Updating HP space due to update message in "
                                    +:+ file)) w)
          else Some (Ok (), w)
      end
  end.

(** One row of [all_metrics]. *)
Record trial_record := {
  trial_report : report;
  trial_values : values;
  target_loss : Q;
  time_taken : Z
}.

(** The search object, as far as a trial touches it. *)
Record search := {
  metric : string;
  interrupt_message_file : option string;
  all_metrics : list trial_record
}.

(** The pipeline operations of a trial, each of which may raise and may
    take time and log: [init_pipeline(values)], [pipeline.fit(training)],
    [pipeline.eval_on_test_by_ranking(validation, include_train=False)] and
    the lookup [report_df.loc['test', metric]]. *)
Variable init_pipeline : values → world values → result pipeline * world values.
Variable fit : pipeline → world values → result unit * world values.
Variable eval_on_test_by_ranking :
  pipeline → world values → result report * world values.
Variable report_metric : report → string → result Q.

(** [_record_all_metrics]. *)
Definition _record_all_metrics (self : search) (r : trial_record) : search :=
  {| metric := metric self;
     interrupt_message_file := interrupt_message_file self;
     all_metrics := all_metrics self ++ [r] |}.

(** The body of the [try] of [objective_func]: the loss with the search
    object after it, or the exception that came out, and the world
    either way. *)
Definition trial (fuel : nat) (self : search) (v : values) (w : world values)
  : option (result (Q * search) * world values) :=
  match _check_interrupt fuel (interrupt_message_file self) w with
  | None => None
  | Some (Raise e, w0) => Some (Raise e, w0)
  | Some (Ok _, w0) =>
      match init_pipeline v w0 with
      | (Raise e, w1) => Some (Raise e, w1)
      | (Ok p, w1) =>
          let start := clock w1 in
          match fit p w1 with
          | (Raise e, w2) => Some (Raise e, w2)
          | (Ok _, w2) =>
              match eval_on_test_by_ranking p w2 with
              | (Raise e, w3) => Some (Raise e, w3)
              | (Ok report_df, w3) =>
                  match report_metric report_df (metric self) with
                  | Raise e => Some (Raise e, w3)
                  | Ok m =>
                      let loss := (1 - m)%Q in
                      let record :=
                        {| trial_report := report_df; trial_values := v;
                           target_loss := loss;
                           time_taken := Z.of_nat (clock w3) - Z.of_nat start |} in
                      Some (Ok (loss, _record_all_metrics self record), w3)
                  end
              end
          end
      end
  end.

(** [objective_func]: the [except Exception] clause logs the exception and
    the values and answers the loss 1.0; the search object is then as it
    was.  Every [py_exception] is an instance of [Exception]. *)
Definition objective_func (fuel : nat) (self : search) (v : values) (w : world values)
  : option (Q * search * world values) :=
  match trial fuel self v w with
  | None => None
  | Some (Ok (loss, self'), w') => Some (loss, self', w')
  | Some (Raise e, w') =>
      Some (1%Q, self, add_log (LogError v) (add_log (LogException e) w'))
  end.

(** The world after the [except] clause has logged the exception [e] of a
    trial with the values [v]. *)
Definition logged_failure (e : py_exception) (v : values) (w : world values)
  : world values :=
  add_log (LogError v) (add_log (LogException e) w).

End search.

(** *** Instances for the examples *)

(** The newline character. *)
Definition nl : string := String "010"%char EmptyString.

(** A control file that never changes. *)
Definition fixed_world (content : option string) : world unit :=
  {| clock := 0; control_file := λ _, content; log := [] |}.

(** A control file that says [pause] for two seconds and is deleted in the
    third. *)
Definition paused_for_two : world unit :=
  {| clock := 0;
     control_file := λ t, if decide (t < 2) then Some "pause" else None;
     log := [] |}.

(** A trial for the examples: the values are a number of epochs, the
    pipeline is instantiated from any of them, fitting takes as many seconds
    and fails for more than 100 epochs, and the report is the metric. *)
Definition init_example (epochs : nat) (w : world nat) : result nat * world nat :=
  (Ok epochs, w).

Definition fit_example (epochs : nat) (w : world nat) : result unit * world nat :=
  let w' := {| clock := clock w + epochs; control_file := control_file w; log := log w |} in
  if decide (100 < epochs) then (Raise (Raised "MemoryError" ""), w') else (Ok (), w').

Definition eval_example (epochs : nat) (w : world nat) : result Q * world nat :=
  (Ok (3 # 4)%Q, w).

Definition metric_example (report : Q) (metric : string) : result Q := Ok report.

Definition search_example : search (values:=nat) (report:=Q) :=
  {| metric := "AUC"; interrupt_message_file := None; all_metrics := [] |}.

Definition quiet : world nat := {| clock := 0; control_file := λ _, None; log := [] |}.

Definition search_with_control_file : search (values:=nat) (report:=Q) :=
  {| metric := "AUC"; interrupt_message_file := Some "ctl"; all_metrics := [] |}.

Definition told_to_stop : world nat :=
  {| clock := 0; control_file := λ _, Some "stop"; log := [] |}.

(** *** The summary of the trials *)

Section summary.

Context {values report : Type}.

(** [sort_values('target_loss')]. *)
Definition loss_le (a b : trial_record (values:=values) (report:=report)) : Prop :=
  (target_loss a <= target_loss b)%Q.

#[export] Instance loss_le_dec : RelDecision loss_le.
Proof.
  intros a b. unfold loss_le.
  destruct (Qlt_le_dec (target_loss b) (target_loss a)) as [H|H].
  - right. by apply Qlt_not_le.
  - by left.
Defined.

(** [best_results_summary(res_bo, percentile)]: the recorded trials by
    ascending loss.  Neither argument is read.  Before any trial is recorded
    [all_metrics] is a frame without columns, and sorting it by
    [target_loss] is a [KeyError]. *)
Definition best_results_summary {res} (self : search (values:=values) (report:=report))
    (res_bo : res) (percentile : Q) : result (list trial_record) :=
  match all_metrics self with
  | [] => Raise (Raised "KeyError" "target_loss")
  | rows => Ok (merge_sort loss_le rows)
  end.

(** The world [k] seconds on, with the lines [warnings] logged. *)
Definition later (k : nat) (warnings : list (log_record values)) (w : world values)
  : world values :=
  {| clock := clock w + k; control_file := control_file w; log := log w ++ warnings |}.

End summary.

(** The example search after its first trial, of 10 epochs. *)
Definition first_trial_recorded : search (values:=nat) (report:=Q) :=
  {| metric := "AUC"; interrupt_message_file := None;
     all_metrics := [{| trial_report := (3 # 4)%Q; trial_values := 10;
                        target_loss := (1 - (3 # 4))%Q;
                        time_taken := 10 |}] |}.

(** A control file that says [pause] for three seconds and [go on] from
    then on. *)
Definition paused_for_three : world unit :=
  {| clock := 0;
     control_file := λ t, if decide (t < 3) then Some "pause" else Some "go on";
     log := [] |}.

End Search.

(** ** The map zoom heuristic ([ItemsGeoMap]) *)

Module Geo.
Import Py.

(** An item of the geo-tagged frame: its two location columns, in degrees,
    as the double-precision numbers that the columns hold. *)
Record item := Item { lat : float; long : float }.

(** [int(x)] on a number: the fraction is cut off, toward zero. *)
Definition py_int (x : Q) : Z := (Qnum x ÷ Z.pos (Qden x))%Z.

(** The number that a double-precision value stands for; an infinity and
    NaN stand for none. *)
Definition float_value (x : float) : option Q :=
  match Prim2SF x with
  | S754_zero _ => Some 0%Q
  | S754_finite s m e => Some (inject_Z (cond_Zopp s (Z.pos m)) * 2 ^ e)%Q
  | S754_infinity _ | S754_nan => None
  end.

(** [int(x)] on a double-precision value: the number it stands for with the
    fraction cut off; NaN is a [ValueError] and an infinity an
    [OverflowError]. *)
Definition float_to_int (x : float) : result Z :=
  match float_value x with
  | Some v => Ok (py_int v)
  | None =>
      if is_nan x then Raise (ValueError "cannot convert float NaN to integer")
      else Raise (Raised "OverflowError" "cannot convert float infinity to integer")
  end.

(** The minimum and the maximum of a column, which is what [apply] makes of
    [numpy.min] and [numpy.max]: NaN entries are skipped, and a column
    without any other entry gives NaN. *)
Definition col_min (xs : list float) : float :=
  foldl (λ acc x, if is_nan x then acc
                  else if is_nan acc then x
                  else if (x <? acc)%float then x else acc) nan xs.

Definition col_max (xs : list float) : float :=
  foldl (λ acc x, if is_nan x then acc
                  else if is_nan acc then x
                  else if (acc <? x)%float then x else acc) nan xs.

Section zoom.

(** [numpy.log] on double-precision numbers; its values are those of the
    platform's mathematical library. *)
Variable np_log : float → float.

(** [gm_heuristic(min_deg, max_deg)].  The product [1000 * 360] of integers
    is exact; the subtraction, the two divisions, the logarithms and their
    quotient are double-precision operations.  A difference that is NaN is
    not greater than zero. *)
Definition gm_heuristic (min_deg max_deg : float) : result Z :=
  if (0 <? max_deg - min_deg)%float
  then float_to_int (np_log (1000 * 360 / (max_deg - min_deg) / 256) / np_log 2)%float
  else Ok 14%Z.

(** [_zoom_heuristic]. *)
Definition _zoom_heuristic (df_items : list item) : result Z :=
  let lats := lat <$> df_items in
  let longs := long <$> df_items in
  zoom_level_lat ← gm_heuristic (col_min lats) (col_max lats);
  zoom_level_long ← gm_heuristic (col_min longs) (col_max longs);
  Ok (Z.min zoom_level_lat zoom_level_long).

End zoom.

(** [1000 * 360 / range / 256] as a number. *)
Definition tiles (range : Q) : Q := (1000 * 360 / range / 256)%Q.

(** [k] is the floor of the binary logarithm of [x]. *)
Definition is_floor_log2 (x : Q) (k : Z) : Prop := (2 ^ k <= x ∧ x < 2 ^ (k + 1))%Q.

(** The zoom of one axis as the specification words it: 14 for a zero range,
    the floor of [log2 (1000 * 360 / range / 256)] for any other, the range
    being the difference of the largest and the smallest number of the
    column. *)
Definition axis_as_specified (xs : list float) (zoom : Z) : Prop :=
  match float_value (col_min xs), float_value (col_max xs) with
  | Some lo, Some hi =>
      ((hi - lo == 0)%Q → zoom = 14%Z)
      ∧ (¬ (hi - lo == 0)%Q → is_floor_log2 (tiles (hi - lo)) zoom)
  | _, _ => True
  end.

(** The zoom of an item set as the specification words it. *)
Definition zoom_as_specified (np_log : float → float) (df_items : list item) : Prop :=
  ∃ zoom_lat zoom_long,
    axis_as_specified (lat <$> df_items) zoom_lat
    ∧ axis_as_specified (long <$> df_items) zoom_long
    ∧ _zoom_heuristic np_log df_items = Ok (Z.min zoom_lat zoom_long).

(** *** Instances for the examples *)

(** The values of [numpy.log] at the three arguments that the examples
    meet, 2, 1406.25 and 1023.9999999999999: the doubles nearest to the
    logarithms, 0.6931471805599453, 7.24868186595273 and 6.931471805599453.
    The table holds no other argument and answers NaN there. *)
Definition np_log_observed (x : float) : float :=
  if (x =? 2)%float then 0x1.62e42fefa39efp-1%float
  else if (x =? 0x1.5f9p+10)%float then 0x1.cfea67585803dp+2%float
  else if (x =? 0x1.fffffffffffffp+9)%float then 0x1.bb9d3beb8c86bp+2%float
  else nan.

(** Two items on the equator at the latitudes 0.0 and 1.3732910156250002:
    [1000 * 360 / 1.3732910156250002 / 256] is 1023.9999999999999 in double
    precision. *)
Definition below_a_power_of_two : list item :=
  [Item 0 0; Item 0x1.5f90000000001p+0 0].

(** *** The colours of the markers *)

(** [colorsys.hsv_to_rgb] of the Python standard library. *)
Definition hsv_to_rgb (h s v : Q) : Q * Q * Q :=
  if Qeq_bool s 0 then (v, v, v)
  else
    let i := py_int (h * 6) in
    let f := (h * 6 - inject_Z i)%Q in
    let p := (v * (1 - s))%Q in
    let q := (v * (1 - s * f))%Q in
    let t := (v * (1 - s * (1 - f)))%Q in
    match (i mod 6)%Z with
    | 0%Z => (v, t, p)
    | 1%Z => (q, v, p)
    | 2%Z => (p, v, t)
    | 3%Z => (p, q, v)
    | 4%Z => (t, p, v)
    | _ => (v, p, q)
    end.

(** [get_n_spaced_colors(n)]: [n] hues at equal distances, fully saturated
    and of value 0.8, as triples of integers; the arithmetic is exact here. *)
Definition get_n_spaced_colors (n : nat) : list (Z * Z * Z) :=
  (λ x, let '(r, g, b) :=
          hsv_to_rgb (inject_Z (Z.of_nat x) * 1 / inject_Z (Z.of_nat n)) 1 (4 # 5) in
        (py_int (r * 255), py_int (g * 255), py_int (b * 255)))
  <$> seq 0 n.

End Geo.

(** ** The instrumentation decorators *)

Module Instrumentation.
Import Py.

(** A Python value, as far as [variable_info] looks into it: a value with a
    [shape] attribute, a tuple, another value with a length, any other value
    with its text, each with the text of its type where that is printed; or
    a value on which one of these inspections raises.  The class [list] is
    one: it has the attribute [__len__] of its instances, and [len(list)] is
    a [TypeError]. *)
Inductive py_value : Type :=
| Shaped (type_str shape_str : string)
| Tuple (elems : list py_value)
| Sized (type_str : string) (len : nat)
| Plain (type_str repr : string)
| Uninspectable (e : py_exception).

(** [variable_info]: the elements of a short tuple are described from left
    to right, and what the first of them raises is raised. *)
Fixpoint variable_info (result : py_value) : Py.result string :=
  match result with
  | Shaped type_str shape_str => Ok (type_str +:+ ", " +:+ "shape: " +:+ shape_str)
  | Tuple elems =>
      if decide (length elems ≤ 3)
      then
        infos ← (fix infos (l : list py_value) : Py.result (list string) :=
                   match l with
                   | [] => Ok []
                   | el :: l' =>
                       info ← variable_info el;
                       rest ← infos l';
                       Ok (info :: rest)
                   end) elems;
        Ok ("<class 'tuple'>" +:+ ", " +:+ "tuple: (" +:+ String.concat "," infos +:+ ")")
      else Ok ("<class 'tuple'>" +:+ ", " +:+ "len: " +:+ pretty (length elems))
  | Sized type_str len => Ok (type_str +:+ ", " +:+ "len: " +:+ pretty len)
  | Plain type_str repr =>
      Ok (type_str +:+ ", " +:+ String.substring 0 50 repr +:+ "...")
  | Uninspectable e => Raise e
  end.

(** What an attribute of a module is: a class (with its [__name__]) or
    something else. *)
Inductive module_attr : Type :=
| ClassAttr (class_name : string)
| OtherAttr.

(** A callable under a decorator: a Python function with its names and the
    namespace of the module [inspect.getmodule] finds for it ([None] when it
    finds none), or another callable with its [__objclass__], if any.  A
    bound method is looked up through its function. *)
Inductive callable_kind : Type :=
| PyFunction (module : option (gmap string module_attr))
| OtherCallable (objclass : option string).

Record callable := {
  name : string;
  qualname : string;
  kind : callable_kind
}.

(** [s.split(sep, 1)[0]]: the text before the first [sep]. *)
Fixpoint before_first (sep s : string) : string :=
  if String.prefix sep s then EmptyString
  else match s with
       | EmptyString => EmptyString
       | String c rest => String c (before_first sep rest)
       end.

(** The text before the last [c], when [c] occurs at all. *)
Fixpoint before_last (c : ascii) (s : string) : option string :=
  match s with
  | EmptyString => None
  | String a rest =>
      match before_last c rest with
      | Some p => Some (String a p)
      | None => if Ascii.eqb a c then Some EmptyString else None
      end
  end.

(** [s.rsplit('.', 1)[0]]. *)
Definition rsplit_dot_head (s : string) : string :=
  default s (before_last "."%char s).

(** [get_class_that_defined_method], giving the class's name: the owner of
    the qualified name is looked up as one attribute of the module, and
    [getattr] raises when the module has no such attribute. *)
Definition get_class_that_defined_method (meth : callable)
  : result (option string) :=
  match kind meth with
  | PyFunction module =>
      let owner := rsplit_dot_head (before_first ".<locals>" (qualname meth)) in
      match module with
      | None =>
          Raise (AttributeError
                   ("'NoneType' object has no attribute '" +:+ owner +:+ "'"))
      | Some namespace =>
          match namespace !! owner with
          | None => Raise (AttributeError ("module has no attribute '" +:+ owner +:+ "'"))
          | Some (ClassAttr cls) => Ok (Some cls)
          | Some OtherAttr => Ok None
          end
      end
  | OtherCallable objclass => Ok objclass
  end.

(** [class_name]. *)
Definition class_name (fn : callable) : result string :=
  cls ← get_class_that_defined_method fn;
  Ok (match cls with
      | Some c => c +:+ "."
      | None => EmptyString
      end).

(** One line of the logger, with the formatted parts kept apart. *)
Inductive log_line : Type :=
| TimeAndShape (indent : nat) (fn_str : string) (elapsed : Q) (ret_str : string)
    (cur_mem peak_mem : Q)
| Timer (fn_name : string) (duration : Q).

(** What a decorated call sees of the outside: the clock of [time.time()],
    the memory percentage of [virtual_memory()], the highest percentage the
    monitor's background thread has sampled, the depth of the call stack
    ([None] when [inspect.stack()] fails with its [IndexError]), and the
    logger's lines. *)
Record world := {
  now : Q;
  memory : Q;
  sampled_peak : Q;
  stack : option nat;
  log : list log_line
}.

Definition add_log (l : log_line) (w : world) : world :=
  {| now := now w; memory := memory w; sampled_peak := sampled_peak w;
     stack := stack w; log := log w ++ [l] |}.

(** [MIN_TIME_TO_LOG]. *)
Definition MIN_TIME_TO_LOG : Q := 1%Q.

(** [get_stack_depth]. *)
Definition get_stack_depth (w : world) : nat := default 0 (stack w).

(** [MaxMemoryMonitor.stop()]: the current percentage, and the peak, which
    starts at 0 and is measured once more on stopping. *)
Definition monitor_stop (w : world) : Q * Q :=
  (memory w, Qmax (Qmax 0 (sampled_peak w)) (memory w)).

Section decorators.

(** The wrapped function: what it is as a callable, and what calling it on
    the arguments does. *)
Variable fn : callable.
Variable call : list py_value → world → result py_value * world.

(** [log_time_and_shape(fn)], the function [inner]. *)
Definition log_time_and_shape (args : list py_value) (w : world)
  : result py_value * world :=
  let start := now w in
  match call args w with
  | (Raise e, w1) => (Raise e, w1)
  | (Ok result, w1) =>
      let elapsed := (now w1 - start)%Q in
      let '(cur_mem, peak_mem) := monitor_stop w1 in
      match variable_info result with
      | Raise e => (Raise e, w1)
      | Ok ret_str =>
          let stack_depth := get_stack_depth w1 in
          match class_name fn with
          | Raise e => (Raise e, w1)
          | Ok cls_str =>
              let fn_str := cls_str +:+ name fn in
              let msg :=
                TimeAndShape stack_depth fn_str elapsed ret_str cur_mem peak_mem in
              (Ok result,
               if Qle_bool MIN_TIME_TO_LOG elapsed then add_log msg w1 else w1)
          end
      end
  end.

(** [timer_deco(fn)], the function [inner]. *)
Definition timer_deco (args : list py_value) (w : world)
  : result py_value * world :=
  let start := now w in
  match call args w with
  | (Raise e, w1) => (Raise e, w1)
  | (Ok result, w1) =>
      let duration := (now w1 - start)%Q in
      (Ok result, add_log (Timer (name fn) duration) w1)
  end.

End decorators.

(** *** Instances for the examples *)

(** A module with a class [Outer] that holds a class [Inner], and the method
    [meth] of [Inner], which returns 1 after two seconds. *)
Definition module_with_outer : gmap string module_attr :=
  {[ "Outer" := ClassAttr "Outer" ]}.

Definition nested_meth : callable :=
  {| name := "meth"; qualname := "Outer.Inner.meth";
     kind := PyFunction (Some module_with_outer) |}.

Definition outer_meth : callable :=
  {| name := "meth"; qualname := "Outer.meth";
     kind := PyFunction (Some module_with_outer) |}.

Definition returns_one (args : list py_value) (w : world) : result py_value * world :=
  (Ok (Plain "<class 'int'>" "1"),
   {| now := (now w + 2)%Q; memory := memory w; sampled_peak := sampled_peak w;
      stack := stack w; log := log w |}).

Definition at_rest : world :=
  {| now := 0%Q; memory := 40%Q; sampled_peak := 41%Q; stack := Some 3; log := [] |}.

(** The class [list] as a value, and a function that returns it after two
    seconds. *)
Definition list_class : py_value :=
  Uninspectable (Raised "TypeError" "object of type 'type' has no len()").

Definition returns_list_class (args : list py_value) (w : world)
  : result py_value * world :=
  (Ok list_class,
   {| now := (now w + 2)%Q; memory := memory w; sampled_peak := sampled_peak w;
      stack := stack w; log := log w |}).

(** *** The named parameters of a class hierarchy *)

Section collect.

(** The default values of parameters, compared with [=]; [empty_str] is the
    empty string that stands in for a missing default. *)
Context {V : Type} `{EqDecision V}.
Variable empty_str : V.

(** [inspect.Parameter.kind]. *)
Inductive param_kind : Type :=
| POSITIONAL_ONLY
| POSITIONAL_OR_KEYWORD
| VAR_POSITIONAL
| KEYWORD_ONLY
| VAR_KEYWORD.

#[export] Instance param_kind_eq_dec : EqDecision param_kind.
Proof. solve_decision. Defined.

(** A parameter of a signature; the default is [None] where
    [inspect.Parameter.empty] stands. *)
Record parameter : Type := {
  p_name : string;
  p_kind : param_kind;
  p_default : option V
}.

#[export] Instance parameter_eq_dec : EqDecision parameter.
Proof. solve_decision. Defined.

(** A class, as far as the function looks at it: its [__name__] and the
    parameters of the signature of its [__init__]. *)
Record py_class : Type := {
  cls_name : string;
  init_signature : list parameter
}.

#[export] Instance py_class_eq_dec : EqDecision py_class.
Proof. solve_decision. Defined.

Definition named_params (c : py_class) : list parameter :=
  filter (λ p, p_name p ≠ "self" ∧ p_kind p ≠ VAR_KEYWORD ∧ p_kind p ≠ VAR_POSITIONAL)
    (init_signature c).

(** The dict comprehension over the named parameters: a later entry of the
    same name would replace an earlier one. *)
Definition defaults_of (named : list parameter) : gmap string V :=
  foldl (λ d p, <[p_name p := default empty_str (p_default p)]> d) ∅ named.

(** [collect_named_init_params(cls, skip_empty, ignore_classes)], on the
    method resolution order of [cls]. *)
Definition collect_named_init_params (mro : list py_class) (skip_empty : bool)
    (ignore_classes : list py_class) : gmap string (gmap string V) :=
  foldl (λ params c,
           if decide (c ∈ ignore_classes) then params
           else
             let named := named_params c in
             if skip_empty && bool_decide (named = []) then params
             else <[cls_name c := defaults_of named]> params)
    ∅ mro.

End collect.

(** A class hierarchy for the examples. *)
Definition object_class : py_class (V:=string) :=
  {| cls_name := "object";
     init_signature := [{| p_name := "self"; p_kind := POSITIONAL_OR_KEYWORD;
                           p_default := None |};
                        {| p_name := "args"; p_kind := VAR_POSITIONAL; p_default := None |};
                        {| p_name := "kwargs"; p_kind := VAR_KEYWORD; p_default := None |}] |}.

Definition base_class : py_class (V:=string) :=
  {| cls_name := "Base";
     init_signature := [{| p_name := "self"; p_kind := POSITIONAL_OR_KEYWORD;
                           p_default := None |};
                        {| p_name := "user_col"; p_kind := POSITIONAL_OR_KEYWORD;
                           p_default := Some "userid" |};
                        {| p_name := "model_params"; p_kind := POSITIONAL_OR_KEYWORD;
                           p_default := None |}] |}.

Definition sub_class : py_class (V:=string) :=
  {| cls_name := "Sub";
     init_signature := [{| p_name := "self"; p_kind := POSITIONAL_OR_KEYWORD;
                           p_default := None |};
                        {| p_name := "kwargs"; p_kind := VAR_KEYWORD; p_default := None |}] |}.

End Instrumentation.

(** * Properties of the model *)

(** ** Lists and cutoffs *)

Module PyFacts.
Import Py.

Lemma elem_of_unique (x : string) (l : list string) : x ∈ unique l ↔ x ∈ l.
Proof.
  unfold unique. by rewrite elem_of_reverse, elem_of_remove_dups, elem_of_reverse.
Qed.

(** Reading [dfs[i]] back while walking the list that [dfs] was mapped from. *)
Lemma imap_read_back {A B} (g : A → B) (d : B) (l : list A) :
  imap (λ i a, match g <$> l with
               | [] => g a
               | _ => default d ((g <$> l) !! i)
               end) l = g <$> l.
Proof.
  apply list_eq. intros i. rewrite list_lookup_imap, !list_lookup_fmap.
  destruct (l !! i) as [a|] eqn:Ha; [|done]. simpl. f_equal.
  by destruct (g <$> l).
Qed.

Lemma cutoff_length {A} (n : nat) (l : list A) : length (cutoff (Some n) l) ≤ n.
Proof. simpl. rewrite length_take. lia. Qed.

Lemma elem_of_cutoff {A} (c : option nat) (l : list A) (x : A) :
  x ∈ cutoff c l → x ∈ l.
Proof.
  destruct c as [n|]; simpl; [|done].
  intros H. rewrite <- (take_drop n l). apply elem_of_app. by left.
Qed.

End PyFacts.

(** ** Parameter dictionaries are merged, not replaced *)

Module ParamsFacts.
Import Params.
Section ParamsFacts.

Context {V : Type}.

Lemma _dict_update_lookup (d u : gmap string V) k :
  _dict_update d (Some u) !! k = from_option Some (d !! k) (u !! k).
Proof.
  unfold _dict_update.
  destruct (decide (u = ∅)) as [->|_].
  - by rewrite lookup_empty.
  - rewrite lookup_union. destruct (u !! k), (d !! k); done.
Qed.


Lemma _dict_update_None (d : gmap string V) : _dict_update d None = d.
Proof. reflexivity. Qed.

(** The update never drops a key of the stored dictionary. *)
Lemma _dict_update_keeps_keys (d : gmap string V) u k :
  is_Some (d !! k) → is_Some (_dict_update d u !! k).
Proof.
  destruct u as [u|]; [|done].
  rewrite _dict_update_lookup. intros [v ->]. destruct (u !! k); eauto.
Qed.


Lemma _pop_set_dict_moves (d params : gmap string V)
    (pop_params : list string) (k : string) :
  let '(d', params') := _pop_set_dict d params pop_params in
  (k ∈ pop_params →
     params' !! k = None ∧ d' !! k = from_option Some (d !! k) (params !! k))
  ∧ (k ∉ pop_params → params' !! k = params !! k ∧ d' !! k = d !! k).
Proof.
  unfold _pop_set_dict. revert d params.
  induction pop_params as [|p pop_params IH]; intros d params.
  - cbn. split; [by intros ?%elem_of_nil|done].
  - cbn [foldl]. cbn [fst snd].
    set (d1 := match params !! p with Some v => <[p:=v]> d | None => d end).
    set (params1 := match params !! p with Some v => delete p params | None => params end).
    replace (match params !! p with
             | Some v => (<[p:=v]> d, delete p params)
             | None => (d, params)
             end) with (d1, params1) by (subst d1 params1; by destruct (params !! p)).
    specialize (IH d1 params1).
    destruct (foldl _ (d1, params1) pop_params) as [d' params'].
    assert (params1 !! k = if decide (k = p) then None else params !! k) as Hp1.
    { subst params1. destruct (decide (k = p)) as [->|Hne].
      - destruct (params !! p) eqn:Hp; [by rewrite lookup_delete_eq|done].
      - destruct (params !! p); [by rewrite lookup_delete_ne|done]. }
    assert (d1 !! k = if decide (k = p) then from_option Some (d !! k) (params !! k)
                      else d !! k) as Hd1.
    { subst d1. destruct (decide (k = p)) as [->|Hne].
      - destruct (params !! p) eqn:Hp; [by rewrite lookup_insert_eq|done].
      - destruct (params !! p); [by rewrite lookup_insert_ne|done]. }
    destruct IH as [IHin IHout]. split.
    + intros Hin. destruct (decide (k ∈ pop_params)) as [Hk|Hk].
      * destruct (IHin Hk) as [-> ->]. split; [done|].
        rewrite Hp1, Hd1. by destruct (decide (k = p)).
      * destruct (IHout Hk) as [-> ->].
        apply elem_of_cons in Hin as [->|Hin]; [|done].
        rewrite Hp1, Hd1. by rewrite !decide_True.
    + intros Hout. apply not_elem_of_cons in Hout as [Hne Hout].
      destruct (IHout Hout) as [-> ->]. rewrite Hp1, Hd1. by rewrite !decide_False.
Qed.





(** *** Keywords that are not model parameters *)

(** X15. [_pop_set_dict] moves the listed keys: a listed key is not in the
    parameters that are handed back, and the target dictionary holds the
    value the parameters had for it (or what it held, when they had none);
    every other key is as it was in both. *)
Theorem pop_set_dict_moves_the_named_keys (d params : gmap string V)
    (pop_params : list string) (k : string) :
  let '(d', params') := _pop_set_dict d params pop_params in
  (k ∈ pop_params →
     params' !! k = None ∧ d' !! k = from_option Some (d !! k) (params !! k))
  ∧ (k ∉ pop_params → params' !! k = params !! k ∧ d' !! k = d !! k).
Proof. apply _pop_set_dict_moves. Qed.

(** X16. [LightFMRecommender.set_params] routes its keywords: [epochs] to
    the fit parameters and nothing else there, [use_sample_weight] to the
    attribute, and every other keyword to the model parameters, which get
    neither of the two. *)
Theorem lightfm_set_params_routes (self : lightfm_recommender (V:=V))
    (params : gmap string V) (k : string) :
  let self' := lightfm_set_params self params in
  fit_params (base self') !! k
  = (if decide (k = "epochs")
     then from_option Some (fit_params (base self) !! k) (params !! k)
     else fit_params (base self) !! k)
  ∧ model_params (base self') !! k
    = (if decide (k = "epochs" ∨ k = "use_sample_weight")
       then model_params (base self) !! k
       else from_option Some (model_params (base self) !! k) (params !! k))
  ∧ use_sample_weight self'
    = from_option Some (use_sample_weight self) (params !! "use_sample_weight").
Proof.
  unfold lightfm_set_params, set_params, _set_model_params, _set_fit_params.
  cbn zeta. repeat split.
  - destruct (params !! "epochs") as [e|] eqn:He; cbn [base model_params fit_params].
    + rewrite _dict_update_lookup.
      destruct (decide (k = "epochs")) as [->|Hne].
      * by rewrite lookup_singleton_eq, He.
      * by rewrite lookup_singleton_ne.
    + destruct (decide (k = "epochs")) as [->|Hne]; [by rewrite He|done].
  - destruct (params !! "epochs") as [e|] eqn:He; cbn [base model_params fit_params];
      rewrite _dict_update_lookup;
      (destruct (decide (k = "epochs" ∨ k = "use_sample_weight")) as [[->| ->]|Hne];
       [by rewrite lookup_delete_ne, lookup_delete_eq
       |by rewrite lookup_delete_eq
       |rewrite !lookup_delete_ne by (intros <-; apply Hne; auto); done]).
  - cbn [use_sample_weight]. rewrite lookup_delete_ne by done.
    by destruct (params !! "use_sample_weight").
Qed.

End ParamsFacts.


End ParamsFacts.

(** ** Fitting a [LightFMRecommender] in steps *)

Module LightFMFitFacts.
Import Py Params ParamsFacts LightFMFit.

Section fit_facts.
Context {V M Obs Data : Type}.
Context (LightFM : gmap string V → result M).
Context (prepare : Obs → option V → result Data).
Context (model_fit model_fit_partial : M → option Data → gmap string V → result M).

Local Abbreviation fit_partial' := (fit_partial LightFM prepare model_fit model_fit_partial).

Lemma _dict_update_epochs (fp : gmap string V) (epochs : V) :
  _dict_update fp (Some {[ "epochs" := epochs ]}) = <["epochs" := epochs]> fp.
Proof.
  unfold _dict_update. rewrite decide_False.
  - by rewrite insert_union_singleton_l.
  - intros Hempty. apply (f_equal (λ m, m !! "epochs")) in Hempty.
    by rewrite lookup_singleton_eq, lookup_empty in Hempty.
Qed.

(** X17. A first [fit_partial] (no model yet) fits through [fit] with a
    copy of the stored fit parameters: the model is fitted with the
    parameters that are then stored, which hold the new [epochs], keep every
    other stored entry, and hold for [item_features] the entry stored before
    the call where there was one, the external features matrix only
    otherwise. *)
Theorem first_fit_partial_keeps_the_stored_item_features
    (self self' : lightfm (V:=V) (M:=M) (Data:=Data)) (train_obs : Obs) (epochs : V) :
  lf_model self = None →
  fit_partial' self train_obs epochs = Ok self' →
  ∃ data model0 model,
    prepare train_obs (use_sample_weight (lf_params self)) = Ok data
    ∧ LightFM (model_params (base (lf_params self))) = Ok model0
    ∧ model_fit model0 (Some data) (lf_fit_params self') = Ok model
    ∧ lf_model self' = Some model
    ∧ lf_data self' = Some data
    ∧ lf_fit_params self' !! "epochs" = Some epochs
    ∧ lf_fit_params self' !! "item_features"
      = Some (default (external_features_mat self)
                (lf_fit_params self !! "item_features"))
    ∧ ∀ k, k ≠ "epochs" → k ≠ "item_features" →
        lf_fit_params self' !! k = lf_fit_params self !! k.
Proof.
  intros Hnone. unfold fit_partial. rewrite Hnone, _dict_update_epochs.
  unfold fit, _prep_for_fit, lf_fit_params, with_fit_params.
  set (fp := fit_params (base (lf_params self))).
  set (fp' := _dict_update (<["item_features" := external_features_mat self]> fp)
                (Some (<["epochs" := epochs]> fp))).
  assert (∀ k, fp' !! k
               = from_option Some
                   ((<["item_features" := external_features_mat self]> fp) !! k)
                   ((<["epochs" := epochs]> fp) !! k)) as Hlookup
    by (intros k; apply _dict_update_lookup).
  clearbody fp'.
  destruct (prepare _ _) as [data|e]; [|done]. cbn [mbind result_bind].
  destruct (LightFM _) as [model0|e]; [|done].
  cbn [mbind result_bind lf_model lf_params lf_data base fit_params].
  destruct (model_fit model0 _ _) as [model|e] eqn:Hfit; [|done].
  cbn [mbind result_bind]. intros [= <-].
  exists data, model0, model.
  cbn [lf_params lf_model lf_data base fit_params model_params external_features_mat].
  repeat split; try done.
  - by rewrite Hlookup, lookup_insert_eq.
  - rewrite Hlookup, lookup_insert_eq, lookup_insert_ne by done.
    by destruct (fp !! "item_features").
  - intros k Hk1 Hk2. rewrite Hlookup, !lookup_insert_ne by done.
    by destruct (fp !! k).
Qed.

(** X18. A [fit_partial] on a fitted instance trains the model on the
    stored data with the stored fit parameters and the given [epochs],
    whatever observations it is called with, and stores neither the epochs
    nor new data. *)
Theorem later_fit_partial_trains_on_the_stored_data
    (self self' : lightfm (V:=V) (M:=M) (Data:=Data)) (train_obs : Obs) (epochs : V)
    (model : M) :
  lf_model self = Some model →
  fit_partial' self train_obs epochs = Ok self' →
  lf_params self' = lf_params self
  ∧ lf_data self' = lf_data self
  ∧ ∃ model',
      model_fit_partial model (lf_data self) (<["epochs" := epochs]> (lf_fit_params self))
      = Ok model'
      ∧ lf_model self' = Some model'.
Proof.
  intros Hmodel. unfold fit_partial. rewrite Hmodel, _dict_update_epochs.
  destruct (model_fit_partial _ _ _) as [model'|e]; [|done].
  cbn [mbind result_bind]. intros [= <-]. eauto.
Qed.

End fit_facts.

(** X17 at the example instance. *)
Lemma first_fit_partial_keeps_the_stored_item_features_witness :
  ∃ data model0 model,
    prepare_example "obs" (use_sample_weight (lf_params unfitted_example)) = Ok data
    ∧ LightFM_example (model_params (base (lf_params unfitted_example))) = Ok model0
    ∧ model_fit_example model0 (Some data) (lf_fit_params first_partial_example)
      = Ok model
    ∧ lf_model first_partial_example = Some model
    ∧ lf_data first_partial_example = Some data
    ∧ lf_fit_params first_partial_example !! "epochs" = Some 10
    ∧ lf_fit_params first_partial_example !! "item_features"
      = Some (default (external_features_mat unfitted_example)
                (lf_fit_params unfitted_example !! "item_features"))
    ∧ ∀ k, k ≠ "epochs" → k ≠ "item_features" →
        lf_fit_params first_partial_example !! k = lf_fit_params unfitted_example !! k.
Proof.
  apply (first_fit_partial_keeps_the_stored_item_features
           LightFM_example prepare_example model_fit_example model_fit_example
           unfitted_example first_partial_example "obs" 10).
  - reflexivity.
  - vm_compute. reflexivity.
Defined.

(** X18 at the example instance. *)
Lemma later_fit_partial_trains_on_the_stored_data_witness :
  lf_params (later_partial_example) = lf_params fitted_example
  ∧ lf_data later_partial_example = lf_data fitted_example
  ∧ ∃ model',
      model_fit_example 100 (lf_data fitted_example)
        (<["epochs" := 5]> (lf_fit_params fitted_example)) = Ok model'
      ∧ lf_model later_partial_example = Some model'.
Proof.
  apply (later_fit_partial_trains_on_the_stored_data
           LightFM_example prepare_example model_fit_example model_fit_example
           fitted_example later_partial_example "second" 5 100).
  - reflexivity.
  - vm_compute. reflexivity.
Defined.

End LightFMFitFacts.

(** ** Recommendations: training exclusion and heavy users *)

Module FramesFacts.
Import Py PyFacts Frames.

(** *** Facts about the frame operations *)

Lemma elem_of_remove_training (train_df : list train_row) (flat_df : list flat_row) r :
  r ∈ _remove_training_from_df train_df flat_df ↔
  r ∈ flat_df
  ∧ ((∀ t, t ∈ train_df → ¬ (userid t = src r ∧ itemid t = tgt r))
     ∨ ∃ t, t ∈ train_df ∧ userid t = src r ∧ itemid t = tgt r ∧ rating t = None).
Proof.
  unfold _remove_training_from_df. rewrite list_elem_of_fmap. split.
  - intros ([r' o] & -> & Hin). apply list_elem_of_filter in Hin as [Hnull Hin].
    simpl in Hnull. subst o. apply list_elem_of_bind in Hin as (r0 & Hm & Hr0).
    unfold left_merge_row in Hm.
    destruct (filter _ train_df) as [|t0 ms] eqn:Hf.
    + apply list_elem_of_singleton in Hm. injection Hm as ->. split; [done|].
      left. intros t Ht Hkey.
      assert (t ∈ filter (λ t, userid t = src r0 ∧ itemid t = tgt r0) train_df) as Hin
        by (by apply list_elem_of_filter).
      rewrite Hf in Hin. by apply elem_of_nil in Hin.
    + apply list_elem_of_fmap in Hm as (t & Heq & Ht). injection Heq as -> Hnull.
      split; [done|]. right. exists t.
      rewrite <- Hf in Ht. apply list_elem_of_filter in Ht as [[? ?] ?]. done.
  - intros [Hin Hcases]. exists (r, None). split; [done|].
    apply list_elem_of_filter. split; [done|].
    apply list_elem_of_bind. exists r. split; [|done].
    unfold left_merge_row.
    destruct (filter _ train_df) as [|t0 ms] eqn:Hf; [by left|].
    destruct Hcases as [Hno|(t & Ht & Hu & Hi & Hnull)].
    + assert (t0 ∈ filter (λ t, userid t = src r ∧ itemid t = tgt r) train_df) as Ht0
        by (rewrite Hf; by left).
      apply list_elem_of_filter in Ht0 as [Hkey Ht0]. by destruct (Hno t0).
    + apply list_elem_of_fmap. exists t. split; [by rewrite Hnull|].
      rewrite <- Hf. by apply list_elem_of_filter.
Qed.

Lemma elem_of_sort_values_desc (df : list flat_row) r :
  r ∈ sort_values_desc df ↔ r ∈ df.
Proof. unfold sort_values_desc. by rewrite merge_sort_Permutation. Qed.

Lemma elem_of_group_keys (df : list flat_row) g :
  g ∈ group_keys df ↔ ∃ r, r ∈ df ∧ src r = g.
Proof.
  unfold group_keys. rewrite merge_sort_Permutation, elem_of_unique, list_elem_of_fmap.
  split; intros (r & H1 & H2); eauto.
Qed.

(** A target listed for a source comes from a row of the flat frame. *)
Lemma flat_df_to_lists_pair (df : list flat_row) c row t :
  row ∈ _flat_df_to_lists df c → t ∈ ltgts row →
  ∃ r, r ∈ df ∧ src r = lsrc row ∧ tgt r = t.
Proof.
  unfold _flat_df_to_lists. intros Hrow Ht.
  apply list_elem_of_fmap in Hrow as (g & -> & _). simpl in *.
  apply elem_of_cutoff in Ht. apply list_elem_of_fmap in Ht as (r & -> & Hr).
  apply list_elem_of_filter in Hr as [Hg Hr].
  rewrite elem_of_sort_values_desc in Hr. eauto.
Qed.

(** No list of a lists frame is longer than the cutoff. *)
Lemma flat_df_to_lists_length (df : list flat_row) n row :
  row ∈ _flat_df_to_lists df (Some n) →
  length (ltgts row) ≤ n ∧ length (lscores row) ≤ n.
Proof.
  unfold _flat_df_to_lists. intros Hrow.
  apply list_elem_of_fmap in Hrow as (g & -> & _).
  split; apply cutoff_length.
Qed.

Lemma contains_pair_lists (df : list flat_row) c s t :
  contains_pair (ListsDF (_flat_df_to_lists df c)) s t →
  contains_pair (FlatDF df) s t.
Proof.
  simpl. intros (row & Hrow & <- & Ht).
  destruct (flat_df_to_lists_pair _ _ _ _ Hrow Ht) as (r & ? & ? & ?). eauto.
Qed.

(** A sequence of calls succeeds when each does. *)
Lemma map_result_Ok {A B} (f : A → result B) (l : list A) (out : list B) :
  map_result f l = Ok out ↔ Forall2 (λ a b, f a = Ok b) l out.
Proof.
  revert out. induction l as [|a l IH]; intros out; simpl.
  - split; [intros [= <-]; constructor | by inversion 1].
  - split.
    + destruct (f a) as [b|e] eqn:Ha; [|done]. cbn [mbind result_bind].
      destruct (map_result f l) as [bs|e]; [|done]. cbn [mbind result_bind].
      intros [= <-]. constructor; [done|]. by apply IH.
    + inversion 1 as [|? b ? bs Ha Hl]; subst. rewrite Ha. cbn [mbind result_bind].
      apply IH in Hl. by rewrite Hl.
Qed.

(** What a successful call returns, in terms of the concatenated candidates. *)
Lemma get_recommendations_Ok unfilt self user_ids item_ids n_rec n_rec_unfilt
    exclude_training results_format df :
  (get_recommendations unfilt self user_ids item_ids n_rec n_rec_unfilt
     exclude_training results_format).1 = Ok df →
  ∃ recos_flat,
    let kept :=
      if exclude_training then _remove_training_from_df (train_df self) recos_flat
      else recos_flat in
    df = if decide (results_format = "flat") then FlatDF kept
         else ListsDF (_flat_df_to_lists kept (Some n_rec)).
Proof.
  unfold get_recommendations.
  destruct (recommendation_requests _ _ _) as [requests self'].
  cbn [fst].
  destruct (map_result _ _) as [reco_dfs|e]; [|done]. cbn.
  destruct (pd_concat reco_dfs) as [recos_flat|e]; [|done]. cbn.
  intros Hdf. exists recos_flat. cbn.
  destruct (decide (results_format = "flat")); by injection Hdf as <-.
Qed.

(** A successful call has made every request, and each has returned. *)
Lemma get_recommendations_requests unfilt self user_ids item_ids n_rec n_rec_unfilt
    exclude_training results_format df :
  (get_recommendations unfilt self user_ids item_ids n_rec n_rec_unfilt
     exclude_training results_format).1 = Ok df →
  Forall (λ p, ∃ frame, unfilt p.1 (requested_items self item_ids) p.2 = Ok frame)
    (recommendation_requests self user_ids n_rec_unfilt).1.
Proof.
  unfold get_recommendations.
  destruct (recommendation_requests _ _ _) as [requests self'].
  cbn [fst].
  destruct (map_result _ requests) as [reco_dfs|e] eqn:Hcalls; [|done]. intros _.
  apply map_result_Ok in Hcalls. clear -Hcalls.
  induction Hcalls; constructor; eauto.
Qed.

(** *** Training exclusion *)

(** X29. With [exclude_training=True] and a training frame whose ratings
    are all present, no pair of the training frame is in the result of
    [get_recommendations], whatever the concrete recommender scored and in
    either result format; with [exclude_training=False] and the same other
    inputs such a pair can be in the result. *)
Theorem training_excluded_from_recommendations :
  (∀ unfilt self user_ids item_ids n_rec n_rec_unfilt results_format df t,
     ratings_present (train_df self) →
     t ∈ train_df self →
     (get_recommendations unfilt self user_ids item_ids n_rec n_rec_unfilt
        true results_format).1 = Ok df →
     ¬ contains_pair df (userid t) (itemid t))
  ∧ (∃ df_excl df_incl,
       (get_recommendations propose_first two_users None None 10 5 true "lists").1
       = Ok df_excl
       ∧ (get_recommendations propose_first two_users None None 10 5 false "lists").1
         = Ok df_incl
       ∧ ¬ contains_pair df_excl "u1" "a"
       ∧ contains_pair df_incl "u1" "a").
Proof.
  assert (∀ unfilt self user_ids item_ids n_rec n_rec_unfilt results_format df t,
     ratings_present (train_df self) →
     t ∈ train_df self →
     (get_recommendations unfilt self user_ids item_ids n_rec n_rec_unfilt
        true results_format).1 = Ok df →
     ¬ contains_pair df (userid t) (itemid t)) as Hexcl.
  { intros unfilt self user_ids item_ids n_rec n_rec_unfilt fmt df t Hpresent Ht Hdf Hpair.
    apply get_recommendations_Ok in Hdf as (recos_flat & Hdf). cbn zeta in Hdf.
    assert (contains_pair (FlatDF (_remove_training_from_df (train_df self) recos_flat))
              (userid t) (itemid t)) as (r & Hr & Hu & Hi).
    { destruct (decide (fmt = "flat")); subst df; [done|].
      by eapply contains_pair_lists. }
    apply elem_of_remove_training in Hr as [_ [Hno|(t' & Ht' & _ & _ & Hnull)]].
    - by apply (Hno t Ht).
    - eapply Forall_forall in Hpresent; [|exact Ht']. done. }
  split; [exact Hexcl|].
  eexists _, _. split; [vm_compute; reflexivity|].
  split; [vm_compute; reflexivity|]. split.
  - apply (Hexcl propose_first two_users None None 10 5 "lists" _
             (TrainRow "u1" "a" (Some 1%Q))).
    + repeat constructor; done.
    + apply list_elem_of_here.
    + vm_compute; reflexivity.
  - simpl. eexists. split; [apply list_elem_of_here|]. split; [done|].
    apply list_elem_of_here.
Qed.

(** C1, at the input where the code departs from it: the user [u1] has one
    training interaction, with the item [a], and its rating is null.  The
    left merge gives the recommended row [(u1, a)] that null rating, the
    filter on null ratings keeps the row, and the pair is in the result of
    [get_recommendations] with [exclude_training=True], in either format. *)
Theorem null_rating_defeats_training_exclusion :
  TrainRow "u1" "a" None ∈ train_df null_rated
  ∧ (get_recommendations propose_first null_rated (Some ["u1"]) None 10 5 true "flat").1
    = Ok (FlatDF [FlatRow "u1" "a" (1 # 2)])
  ∧ (get_recommendations propose_first null_rated (Some ["u1"]) None 10 5 true "lists").1
    = Ok (ListsDF [ListsRow "u1" ["a"] [(1 # 2)%Q]])
  ∧ contains_pair (FlatDF [FlatRow "u1" "a" (1 # 2)]) "u1" "a"
  ∧ contains_pair (ListsDF [ListsRow "u1" ["a"] [(1 # 2)%Q]]) "u1" "a".
Proof.
  split; [apply list_elem_of_here|].
  split; [vm_compute; reflexivity|]. split; [vm_compute; reflexivity|]. split.
  - eexists. split; [apply list_elem_of_here|done].
  - eexists. split; [apply list_elem_of_here|]. split; [done|apply list_elem_of_here].
Qed.

(** *** Heavy users *)

Lemma elem_of_value_counts (l : list string) (p : string * nat) :
  p ∈ value_counts l ↔ p.1 ∈ l ∧ p.2 = train_count l p.1.
Proof.
  unfold value_counts. rewrite merge_sort_Permutation, list_elem_of_fmap.
  split.
  - intros (u & -> & Hu). simpl. split; [by apply elem_of_unique|done].
  - intros [Hu Hc]. exists p.1. rewrite elem_of_unique. split; [|done].
    destruct p; simpl in *; by subst.
Qed.

Lemma requested_users_seen (self : recommender) user_ids u :
  u ∈ requested_users self user_ids → u ∈ userid <$> train_df self.
Proof.
  unfold requested_users, remove_unseen_users, _filter_array, all_users.
  destruct user_ids as [ids|].
  - rewrite list_elem_of_filter, elem_of_unique. tauto.
  - by rewrite elem_of_unique.
Qed.

(** The partition computed by [_separate_heavy_users], by training count. *)
Lemma _separate_heavy_users_spec (self : recommender) user_ids threshold :
  counts_fresh self →
  (∀ u, u ∈ user_ids → u ∈ userid <$> train_df self) →
  let count := train_count (userid <$> train_df self) in
  let '(heavy, normal, hmax) := (_separate_heavy_users self user_ids threshold).1 in
  (∀ u, u ∈ heavy ↔ u ∈ user_ids ∧ threshold ≤ count u)
  ∧ (∀ u, u ∈ normal ↔ u ∈ user_ids ∧ count u < threshold)
  ∧ hmax = max_list (count <$> heavy).
Proof.
  intros Hfresh Hseen count. unfold _separate_heavy_users. cbn [fst].
  set (counts := match user_train_counts self with
                 | Some c => c
                 | None => value_counts (userid <$> train_df self)
                 end).
  assert (counts = value_counts (userid <$> train_df self)) as Hcounts
    by (subst counts; by destruct Hfresh as [-> | ->]).
  assert (∀ p, p ∈ counts ↔ p.1 ∈ userid <$> train_df self ∧ p.2 = count p.1) as Hin
    by (intros p; rewrite Hcounts; apply elem_of_value_counts).
  clearbody counts. repeat apply conj.
  - intros u. rewrite list_elem_of_fmap. split.
    + intros (p & -> & Hp). rewrite !list_elem_of_filter in Hp.
      destruct Hp as (Hth & Hu & Hp). apply Hin in Hp as [_ Hc]. rewrite <- Hc. done.
    + intros [Hu Hth]. exists (u, count u). split; [done|].
      rewrite !list_elem_of_filter. repeat split; try done. apply Hin. split; [|done].
      by apply Hseen.
  - intros u. rewrite list_elem_of_fmap. split.
    + intros (p & -> & Hp). rewrite !list_elem_of_filter in Hp.
      destruct Hp as (Hth & Hu & Hp). apply Hin in Hp as [_ Hc]. rewrite <- Hc. done.
    + intros [Hu Hth]. exists (u, count u). split; [done|].
      rewrite !list_elem_of_filter. repeat split; try done. apply Hin. split; [|done].
      by apply Hseen.
  - f_equal. rewrite <- list_fmap_compose. apply Forall_fmap_ext, Forall_forall.
    intros p Hp. rewrite !list_elem_of_filter in Hp.
    destruct Hp as (_ & _ & Hp). by apply Hin in Hp as [_ Hc].
Qed.

(** An instance that has been fitted and has served calls holds the training
    frame it was fitted on, and its cache of counts is empty or up to date. *)
Lemma served_fresh unfilt (df : list train_row) (earlier : list call) :
  train_df (served unfilt df earlier) = df ∧ counts_fresh (served unfilt df earlier).
Proof.
  unfold served.
  assert (∀ self, train_df self = df → counts_fresh self →
            train_df (foldl (serve unfilt) self earlier) = df
            ∧ counts_fresh (foldl (serve unfilt) self earlier)) as Hgen.
  { induction earlier as [|c earlier IH]; intros self Hdf Hfresh; [done|].
    cbn [foldl]. apply IH.
    - unfold serve, get_recommendations, recommendation_requests, _separate_heavy_users.
      cbn. exact Hdf.
    - unfold serve, get_recommendations, recommendation_requests, _separate_heavy_users.
      cbn. right. cbn. by destruct Hfresh as [-> | ->]. }
  apply Hgen; [done|by left].
Qed.

(** C3. On an instance that has been fitted on a training frame and has
    served any calls since, when the requested users hold both a heavy user
    (at least 50 training interactions) and a normal one,
    [get_recommendations] asks the concrete recommender twice: for exactly the
    heavy users, with the width [n_rec_unfilt] plus the largest training
    count among them, and for exactly the normal users, with the width
    [n_rec_unfilt]; the first width is strictly greater than the second; and
    the result is made of the answers to these two requests and of nothing
    else: it raises what the first of them to raise raises, and is otherwise
    the heavy users' rows followed by the normal users' rows, less the
    training pairs when they are excluded, in the format asked for. *)
Theorem heavy_users_requested_wider unfilt (df : list train_row) (earlier : list call)
    (user_ids item_ids : option (list string)) (n_rec n_rec_unfilt : nat)
    (exclude_training : bool) (results_format : string) :
  let self := served unfilt df earlier in
  let users := requested_users self user_ids in
  let items := requested_items self item_ids in
  let count := train_count (userid <$> df) in
  (∃ u, u ∈ users ∧ 50 ≤ count u) →
  (∃ u, u ∈ users ∧ count u < 50) →
  ∃ heavy normal heavy_users_max,
    (∀ u, u ∈ heavy ↔ u ∈ users ∧ 50 ≤ count u)
    ∧ (∀ u, u ∈ normal ↔ u ∈ users ∧ count u < 50)
    ∧ heavy_users_max = max_list (count <$> heavy)
    ∧ n_rec_unfilt < n_rec_unfilt + heavy_users_max
    ∧ (recommendation_requests self user_ids n_rec_unfilt).1
      = [(heavy, n_rec_unfilt + heavy_users_max); (normal, n_rec_unfilt)]
    ∧ (get_recommendations unfilt self user_ids item_ids n_rec n_rec_unfilt
         exclude_training results_format).1
      = (heavy_df ← unfilt heavy items (n_rec_unfilt + heavy_users_max);
         normal_df ← unfilt normal items n_rec_unfilt;
         let recos_flat := (heavy_df ++ normal_df)%list in
         let recos_flat :=
           if exclude_training then _remove_training_from_df df recos_flat
           else recos_flat in
         Ok (if decide (results_format = "flat") then FlatDF recos_flat
             else ListsDF (_flat_df_to_lists recos_flat (Some n_rec)))).
Proof.
  intros self users items count (uh & Huh & Hch) (un & Hun & Hcn).
  destruct (served_fresh unfilt df earlier) as [Hdf Hfresh]. fold self in Hdf, Hfresh.
  assert (∃ heavy normal,
            (recommendation_requests self user_ids n_rec_unfilt).1
            = [(heavy, n_rec_unfilt + max_list (count <$> heavy));
               (normal, n_rec_unfilt)]
            ∧ (∀ u, u ∈ heavy ↔ u ∈ users ∧ 50 ≤ count u)
            ∧ (∀ u, u ∈ normal ↔ u ∈ users ∧ count u < 50))
    as (heavy & normal & Hrequests & Hheavy & Hnormal).
  { pose proof (_separate_heavy_users_spec self users 50 Hfresh
                  (requested_users_seen self user_ids)) as Hspec.
    cbn zeta in Hspec. rewrite Hdf in Hspec.
    unfold recommendation_requests. fold users.
    destruct (_separate_heavy_users self users 50) as [[[heavy normal] hmax] self'].
    cbn [fst] in *. destruct Hspec as (Hheavy & Hnormal & ->).
    fold count in Hheavy, Hnormal. fold count.
    exists heavy, normal.
    assert (uh ∈ heavy) as Hin_h by (by apply Hheavy).
    assert (un ∈ normal) as Hin_n by (by apply Hnormal).
    repeat apply conj; try done.
    unfold unfilt_requests.
    rewrite filter_cons_True by (simpl; by intros ->; apply elem_of_nil in Hin_h).
    rewrite filter_cons_True by (simpl; by intros ->; apply elem_of_nil in Hin_n).
    done. }
  exists heavy, normal, (max_list (count <$> heavy)).
  split; [done|]. split; [done|]. split; [done|]. split; [|split; [done|]].
  - assert (count uh ≤ max_list (count <$> heavy)).
    { apply max_list_elem_of_le, list_elem_of_fmap. exists uh. split; [done|].
      by apply Hheavy. }
    lia.
  - unfold get_recommendations. fold items.
    destruct (recommendation_requests self user_ids n_rec_unfilt) as [requests self'].
    cbn [fst] in Hrequests. subst requests. cbn [fst map_result].
    destruct (unfilt heavy items _) as [heavy_df|e]; [|done].
    cbn [mbind result_bind fst snd].
    destruct (unfilt normal items _) as [normal_df|e]; [|done].
    cbn [mbind result_bind pd_concat concat]. rewrite app_nil_r, Hdf.
    by destruct (decide (results_format = "flat")).
Qed.

(** C3 at the frame with one heavy and one normal user. *)
Lemma heavy_users_requested_wider_witness :
  ∃ heavy normal heavy_users_max,
    (∀ u, u ∈ heavy ↔
          u ∈ requested_users heavy_and_normal None
          ∧ 50 ≤ train_count (userid <$> train_df heavy_and_normal) u)
    ∧ (∀ u, u ∈ normal ↔
            u ∈ requested_users heavy_and_normal None
            ∧ train_count (userid <$> train_df heavy_and_normal) u < 50)
    ∧ heavy_users_max
      = max_list (train_count (userid <$> train_df heavy_and_normal) <$> heavy)
    ∧ 100 < 100 + heavy_users_max
    ∧ (recommendation_requests heavy_and_normal None 100).1
      = [(heavy, 100 + heavy_users_max); (normal, 100)]
    ∧ (get_recommendations propose_first heavy_and_normal None None 10 100 true
         "flat").1
      = (heavy_df ← propose_first heavy (requested_items heavy_and_normal None)
                      (100 + heavy_users_max);
         normal_df ← propose_first normal (requested_items heavy_and_normal None) 100;
         let recos_flat := (heavy_df ++ normal_df)%list in
         let recos_flat :=
           if true then _remove_training_from_df (train_df heavy_and_normal) recos_flat
           else recos_flat in
         Ok (if decide ("flat" = "flat") then FlatDF recos_flat
             else ListsDF (_flat_df_to_lists recos_flat (Some 10)))).
Proof.
  apply (heavy_users_requested_wider propose_first (train_df heavy_and_normal) []
           None None 10 100 true "flat").
  - exists "h". split.
    + by_compute.
    + by_compute.
  - exists "n". split.
    + by_compute.
    + by_compute.
Defined.

(** The widened request of that example is for 150 candidates. *)
Example heavy_and_normal_requests :
  (recommendation_requests heavy_and_normal None 100).1 = [(["h"], 150); (["n"], 100)].
Proof. vm_compute. reflexivity. Qed.

(** *** What is kept, what is asked for and what is returned *)

Lemma null_ratings_kept (r : flat_row) (matches : list train_row) :
  fst <$> filter (λ p : flat_row * option Q, p.2 = None) ((λ t, (r, rating t)) <$> matches)
  = replicate (length (filter (λ t, rating t = None) matches)) r.
Proof.
  induction matches as [|t matches IH]; [done|].
  rewrite fmap_cons, !filter_cons. cbn [snd].
  destruct (decide (rating t = None)) as [Hnull|Hval]; cbn; by rewrite IH.
Qed.

Lemma left_merge_row_kept train_df r :
  fst <$> filter (λ p, p.2 = None) (left_merge_row train_df r)
  = if decide (in_training train_df r)
    then replicate (length (null_rated_matches train_df r)) r
    else [r].
Proof.
  unfold left_merge_row, in_training, null_rated_matches.
  destruct (filter _ train_df) as [|t0 ms] eqn:Hf.
  - rewrite decide_False; [done|].
    rewrite Exists_exists. intros (t & Ht & Hkey).
    assert (t ∈ filter (λ t, userid t = src r ∧ itemid t = tgt r) train_df) as Hin
      by (by apply list_elem_of_filter).
    rewrite Hf in Hin. by apply elem_of_nil in Hin.
  - rewrite decide_True.
    + apply null_ratings_kept.
    + rewrite Exists_exists. exists t0.
      assert (t0 ∈ filter (λ t, userid t = src r ∧ itemid t = tgt r) train_df) as Ht0
        by (rewrite Hf; by left).
      by apply list_elem_of_filter in Ht0 as [Hkey Ht0].
Qed.

Lemma null_rated_matches_none train_df r :
  ratings_present train_df → null_rated_matches train_df r = [].
Proof.
  intros Hpresent. unfold null_rated_matches.
  destruct (filter (λ t, rating t = None) _) as [|t l] eqn:Hf; [done|].
  assert (t ∈ t :: l) as Ht by (by left). rewrite <- Hf in Ht.
  apply list_elem_of_filter in Ht as [Hnull Ht].
  apply list_elem_of_filter in Ht as [_ Ht].
  eapply Forall_forall in Hpresent; [|exact Ht]. done.
Qed.

(** X6. [_remove_training_from_df] keeps the order of the rows; a row whose
    pair is not an interaction of the training frame is kept once; a row
    whose pair is one is kept once for every training interaction of the pair
    that has a null rating, and so not at all when there is none.  For a
    training frame without null ratings the result is the rows whose pair is
    not in the training frame, once each, however often the training frame
    repeats an interaction. *)
Theorem remove_training_keeps_the_rest (train_df : list train_row) (flat_df : list flat_row) :
  _remove_training_from_df train_df flat_df
  = flat_df ≫= (λ r, if decide (in_training train_df r)
                      then replicate (length (null_rated_matches train_df r)) r
                      else [r])
  ∧ (ratings_present train_df →
     _remove_training_from_df train_df flat_df
     = filter (λ r, ¬ in_training train_df r) flat_df).
Proof.
  assert (_remove_training_from_df train_df flat_df
          = flat_df ≫= (λ r, if decide (in_training train_df r)
                              then replicate (length (null_rated_matches train_df r)) r
                              else [r])) as Hgen.
  { unfold _remove_training_from_df.
    induction flat_df as [|r flat_df IH]; [done|].
    by rewrite !bind_cons, filter_app, fmap_app, IH, left_merge_row_kept. }
  split; [exact Hgen|].
  intros Hpresent. rewrite Hgen. clear Hgen.
  induction flat_df as [|r flat_df IH]; [done|].
  rewrite bind_cons, IH. rewrite null_rated_matches_none by done.
  destruct (decide (in_training train_df r)) as [Hin|Hout].
  - by rewrite filter_cons_False by tauto.
  - by rewrite filter_cons_True.
Qed.

(** A row recommended twice over against a training frame that holds its
    pair three times, twice with a null rating. *)
Example remove_training_null_ratings :
  _remove_training_from_df
    [TrainRow "u" "a" None; TrainRow "u" "a" (Some 1%Q); TrainRow "u" "a" None;
     TrainRow "u" "b" (Some 1%Q)]
    [FlatRow "u" "a" 3; FlatRow "u" "b" 2; FlatRow "u" "c" 1]
  = [FlatRow "u" "a" 3; FlatRow "u" "a" 3; FlatRow "u" "c" 1].
Proof. vm_compute. reflexivity. Qed.

Lemma elem_of_separate_heavy_users self user_ids threshold u :
  let '(heavy, normal, _) := (_separate_heavy_users self user_ids threshold).1 in
  u ∈ (heavy ++ normal)%list → u ∈ user_ids.
Proof.
  unfold _separate_heavy_users. cbn [fst].
  rewrite elem_of_app, !list_elem_of_fmap.
  intros [(p & -> & Hp)|(p & -> & Hp)];
    rewrite !list_elem_of_filter in Hp; tauto.
Qed.

Lemma elem_of_unfilt_requests heavy normal hmax n p :
  p ∈ unfilt_requests heavy normal hmax n →
  p.1 ≠ [] ∧ ((p.1 = heavy ∧ p.2 = n + hmax) ∨ (p.1 = normal ∧ p.2 = n)).
Proof.
  unfold unfilt_requests. rewrite list_elem_of_filter.
  intros [Hne Hp]. split; [done|].
  apply elem_of_cons in Hp as [->|Hp]; [by left|].
  apply list_elem_of_singleton in Hp as ->. by right.
Qed.

(** X7. [get_recommendations] hands the concrete recommender no empty
    group of users, no user that is not in the training frame and no user the
    caller did not ask for; the items it hands on are in the training frame,
    and among the caller's when the caller named any. *)
Theorem requests_only_for_seen_ids (self : recommender)
    (user_ids item_ids : option (list string)) (n_rec_unfilt : nat) :
  (∀ p, p ∈ (recommendation_requests self user_ids n_rec_unfilt).1 →
     p.1 ≠ []
     ∧ ∀ u, u ∈ p.1 →
         u ∈ userid <$> train_df self ∧ ∀ ids, user_ids = Some ids → u ∈ ids)
  ∧ (∀ i, i ∈ requested_items self item_ids →
       i ∈ itemid <$> train_df self ∧ ∀ ids, item_ids = Some ids → i ∈ ids).
Proof.
  split.
  - intros p Hp. unfold recommendation_requests in Hp.
    pose proof (elem_of_separate_heavy_users self (requested_users self user_ids) 50)
      as Hsub.
    destruct (_separate_heavy_users _ _ _) as [[[heavy normal] hmax] self'].
    cbn [fst] in *.
    apply elem_of_unfilt_requests in Hp as [Hne Hp]. split; [done|].
    intros u Hu.
    assert (u ∈ requested_users self user_ids) as Hreq.
    { apply Hsub, elem_of_app. destruct Hp as [[<- _]|[<- _]]; auto. }
    split; [by apply (requested_users_seen self user_ids)|].
    intros ids ->. simpl in Hreq. unfold remove_unseen_users, _filter_array in Hreq.
    by apply list_elem_of_filter in Hreq as [_ ?].
  - intros i. unfold requested_items, remove_unseen_items, _filter_array, all_items.
    destruct item_ids as [ids|].
    + rewrite list_elem_of_filter, elem_of_unique. intros [? ?].
      split; [done|]. by intros ? [= <-].
    + rewrite elem_of_unique. by split.
Qed.

(** X8. When none of the requested users is in the training frame (or the
    training frame is empty), [get_recommendations] raises the [ValueError] of
    [pandas.concat] on an empty list, whatever the concrete recommender. *)
Theorem no_seen_user_raises unfilt (self : recommender)
    (user_ids item_ids : option (list string)) (n_rec n_rec_unfilt : nat)
    (exclude_training : bool) (results_format : string) :
  requested_users self user_ids = [] →
  (get_recommendations unfilt self user_ids item_ids n_rec n_rec_unfilt
     exclude_training results_format).1
  = Raise (ValueError "No objects to concatenate").
Proof.
  intros Hnone. unfold get_recommendations, recommendation_requests.
  pose proof (elem_of_separate_heavy_users self (requested_users self user_ids) 50)
    as Hsub.
  destruct (_separate_heavy_users _ _ _) as [[[heavy normal] hmax] self'].
  cbn [fst] in *. rewrite Hnone in Hsub.
  assert (heavy = []) as ->.
  { destruct heavy as [|u ?]; [done|]. specialize (Hsub u).
    exfalso. eapply elem_of_nil, Hsub. by left. }
  assert (normal = []) as ->.
  { destruct normal as [|u ?]; [done|]. specialize (Hsub u).
    exfalso. eapply elem_of_nil, Hsub. by left. }
  reflexivity.
Qed.

(** X8 for a user that the example training frame does not hold. *)
Lemma no_seen_user_raises_witness :
  (get_recommendations propose_first two_users (Some ["u9"]) None 10 5 true "lists").1
  = Raise (ValueError "No objects to concatenate").
Proof.
  apply (no_seen_user_raises propose_first two_users (Some ["u9"]) None 10 5 true "lists").
  reflexivity.
Defined.

Lemma elem_of_concat {A} (ls : list (list A)) (x : A) :
  x ∈ concat ls ↔ ∃ l, l ∈ ls ∧ x ∈ l.
Proof.
  induction ls as [|l ls IH]; cbn.
  - split; [by intros ?%elem_of_nil|by intros (? & ?%elem_of_nil & _)].
  - rewrite elem_of_app, IH. split.
    + intros [Hx|(l' & ? & ?)]; [exists l|exists l']; split; try done; by constructor.
    + intros (l' & Hl' & Hx). apply elem_of_cons in Hl' as [->|Hl']; eauto.
Qed.

Lemma elem_of_pd_concat (dfs : list (list flat_row)) out r :
  pd_concat dfs = Ok out → r ∈ out → ∃ df, df ∈ dfs ∧ r ∈ df.
Proof.
  intros Hcat Hr. assert (out = concat dfs) as ->
    by (destruct dfs; [discriminate|by injection Hcat]).
  by apply elem_of_concat.
Qed.

(** X9. Every pair in the result of [get_recommendations] is the pair of a
    row that the concrete recommender returned in answer to one of the
    requests made to it. *)
Theorem recommendations_were_proposed unfilt (self : recommender)
    (user_ids item_ids : option (list string)) (n_rec n_rec_unfilt : nat)
    (exclude_training : bool) (results_format : string) (df : results_df)
    (s t : string) :
  (get_recommendations unfilt self user_ids item_ids n_rec n_rec_unfilt
     exclude_training results_format).1 = Ok df →
  contains_pair df s t →
  ∃ p frame r,
    p ∈ (recommendation_requests self user_ids n_rec_unfilt).1
    ∧ unfilt p.1 (requested_items self item_ids) p.2 = Ok frame
    ∧ r ∈ frame ∧ src r = s ∧ tgt r = t.
Proof.
  unfold get_recommendations.
  destruct (recommendation_requests _ _ _) as [requests self'].
  cbn [fst].
  destruct (map_result _ requests) as [reco_dfs|e] eqn:Hcalls; [|done].
  cbn [mbind result_bind].
  destruct (pd_concat reco_dfs) as [recos_flat|e] eqn:Hcat; [|done].
  cbn [mbind result_bind]. intros Hdf Hpair.
  assert (∃ r, r ∈ recos_flat ∧ src r = s ∧ tgt r = t) as (r & Hr & Hs & Ht).
  { assert (contains_pair
              (FlatDF (if exclude_training
                       then _remove_training_from_df (train_df self) recos_flat
                       else recos_flat)) s t) as (r & Hr & Hs & Ht).
    { destruct (decide (results_format = "flat")); injection Hdf as <-; [done|].
      by eapply contains_pair_lists. }
    exists r. split; [|done]. destruct exclude_training; [|done].
    by apply elem_of_remove_training in Hr as [? _]. }
  destruct (elem_of_pd_concat _ _ _ Hcat Hr) as (frame & Hframe & Hrf).
  apply map_result_Ok in Hcalls.
  apply list_elem_of_lookup in Hframe as [k Hk].
  destruct (Forall2_lookup_r _ _ _ _ _ Hcalls Hk) as (p & Hp & Hcall).
  exists p, frame, r. repeat split; try done.
  by eapply list_elem_of_lookup_2.
Qed.

(** X9 at the example frame of two users. *)
Lemma recommendations_were_proposed_witness :
  ∃ p frame r,
    p ∈ (recommendation_requests two_users None 5).1
    ∧ propose_first p.1 (requested_items two_users None) p.2 = Ok frame
    ∧ r ∈ frame ∧ src r = "u1" ∧ tgt r = "b".
Proof.
  apply (recommendations_were_proposed propose_first two_users None None 10 5 false
           "lists"
           (ListsDF [ListsRow "u1" ["a"; "b"] [(1 # 2)%Q; (1 # 2)%Q];
                     ListsRow "u2" ["a"; "b"] [(1 # 2)%Q; (1 # 2)%Q]])).
  - vm_compute. reflexivity.
  - exists (ListsRow "u1" ["a"; "b"] [(1 # 2)%Q; (1 # 2)%Q]).
    split; [apply list_elem_of_here|]. split; [done|].
    apply list_elem_of_further, list_elem_of_here.
Defined.

(** *** Lists frames *)

#[export] Instance score_ge_trans : Transitive score_ge.
Proof. intros x y z Hxy Hyz. unfold score_ge in *. by eapply Qle_trans. Qed.

#[export] Instance score_ge_total : Total score_ge.
Proof.
  intros x y. unfold score_ge.
  destruct (Qlt_le_dec (score x) (score y)) as [H|H]; [right|left]; [|done].
  by apply Qlt_le_weak.
Qed.

Lemma sort_values_desc_sorted (df : list flat_row) :
  StronglySorted score_ge (sort_values_desc df).
Proof. apply StronglySorted_merge_sort; apply _. Qed.

Lemma StronglySorted_filter {A} (R : relation A) (P : A → Prop)
    `{∀ x, Decision (P x)} (l : list A) :
  StronglySorted R l → StronglySorted R (filter P l).
Proof.
  induction 1 as [|x l Hl IH Hx]; [constructor|].
  rewrite filter_cons. destruct (decide (P x)); [|done].
  constructor; [done|]. apply Forall_forall. intros y Hy.
  apply list_elem_of_filter in Hy as [_ Hy]. by eapply Forall_forall in Hx.
Qed.

Lemma StronglySorted_take {A} (R : relation A) (n : nat) (l : list A) :
  StronglySorted R l → StronglySorted R (take n l).
Proof.
  intros Hl. rewrite <- (take_drop n l) in Hl. by apply StronglySorted_app_1_l in Hl.
Qed.

Lemma StronglySorted_lookup {A} (R : relation A) (l : list A) i j x y :
  StronglySorted R l → l !! i = Some x → l !! j = Some y → i < j → R x y.
Proof.
  intros Hl Hi Hj Hij.
  rewrite <- (take_drop j l) in Hl.
  apply (StronglySorted_app_1_elem_of _ _ _ x y) in Hl; [done| |].
  - apply list_elem_of_lookup. exists i. by rewrite lookup_take_lt.
  - apply list_elem_of_lookup. exists 0. by rewrite lookup_drop, Nat.add_0_r.
Qed.

(** The rows of one source, best first. *)
Lemma flat_df_to_lists_row (df : list flat_row) c row :
  row ∈ _flat_df_to_lists df c →
  ∃ rows,
    rows ≡ₚ filter (λ r, src r = lsrc row) df
    ∧ StronglySorted score_ge rows
    ∧ ltgts row = cutoff c (tgt <$> rows)
    ∧ lscores row = cutoff c (score <$> rows).
Proof.
  unfold _flat_df_to_lists. intros Hrow.
  apply list_elem_of_fmap in Hrow as (g & -> & _). cbn.
  eexists. split; [|split; [|done]].
  - unfold sort_values_desc. by rewrite merge_sort_Permutation.
  - apply StronglySorted_filter, sort_values_desc_sorted.
Qed.

(** X10. A row of the lists frame built by [_flat_df_to_lists] with the
    cutoff [n] lists the [n] best rows of its source (all of them when there
    are fewer): the items and the scores are equally long and stand place by
    place for rows of the source, the scores descend, and a row of the source
    that is not listed scores no more than any listed one. *)
Theorem lists_hold_the_best_of_each_source (df : list flat_row) (n : nat)
    (row : lists_row) :
  row ∈ _flat_df_to_lists df (Some n) →
  let group := filter (λ r, src r = lsrc row) df in
  length (ltgts row) = n `min` length group
  ∧ length (lscores row) = length (ltgts row)
  ∧ StronglySorted (λ a b, (b <= a)%Q) (lscores row)
  ∧ (∀ k t s, ltgts row !! k = Some t → lscores row !! k = Some s →
       ∃ r, r ∈ group ∧ tgt r = t ∧ score r = s)
  ∧ (∀ r, r ∈ group →
       (∃ k, ltgts row !! k = Some (tgt r) ∧ lscores row !! k = Some (score r))
       ∨ ∀ s, s ∈ lscores row → (score r <= s)%Q).
Proof.
  intros Hrow group.
  destruct (flat_df_to_lists_row _ _ _ Hrow) as (rows & Hperm & Hsorted & Ht & Hs).
  fold group in Hperm. rewrite Ht, Hs. cbn [cutoff].
  repeat apply conj.
  - by rewrite length_take, length_fmap, Hperm.
  - by rewrite !length_take, !length_fmap.
  - apply StronglySorted_take. by apply (StronglySorted_fmap score score_ge).
  - intros k t s Hkt Hks.
    apply lookup_take_Some in Hkt as [Hkt _]. apply lookup_take_Some in Hks as [Hks _].
    rewrite list_lookup_fmap in Hkt. rewrite list_lookup_fmap in Hks.
    destruct (rows !! k) as [r|] eqn:Hr; [|done].
    injection Hkt as <-. injection Hks as <-.
    exists r. split; [|done]. rewrite <- Hperm. by eapply list_elem_of_lookup_2.
  - intros r Hr. rewrite <- Hperm in Hr.
    apply list_elem_of_lookup in Hr as [j Hj].
    destruct (decide (j < n)) as [Hlt|Hge].
    + left. exists j. by rewrite !lookup_take_lt, !list_lookup_fmap, Hj.
    + right. intros s Hin. apply list_elem_of_lookup in Hin as [k Hk].
      apply lookup_take_Some in Hk as [Hk Hkn]. rewrite list_lookup_fmap in Hk.
      destruct (rows !! k) as [r'|] eqn:Hr'; [|done]. injection Hk as <-.
      apply (StronglySorted_lookup score_ge rows k j r' r); [done..|lia].
Qed.

(** X10 at a source with three rows and the cutoff 2. *)
Lemma lists_hold_the_best_of_each_source_witness :
  let df := [FlatRow "u" "a" 1; FlatRow "u" "b" 3; FlatRow "u" "c" 2] in
  let row := ListsRow "u" ["b"; "c"] [3%Q; 2%Q] in
  let group := filter (λ r, src r = lsrc row) df in
  length (ltgts row) = 2 `min` length group
  ∧ length (lscores row) = length (ltgts row)
  ∧ StronglySorted (λ a b, (b <= a)%Q) (lscores row)
  ∧ (∀ k t s, ltgts row !! k = Some t → lscores row !! k = Some s →
       ∃ r, r ∈ group ∧ tgt r = t ∧ score r = s)
  ∧ (∀ r, r ∈ group →
       (∃ k, ltgts row !! k = Some (tgt r) ∧ lscores row !! k = Some (score r))
       ∨ ∀ s, s ∈ lscores row → (score r <= s)%Q).
Proof.
  apply (lists_hold_the_best_of_each_source
           [FlatRow "u" "a" 1; FlatRow "u" "b" 3; FlatRow "u" "c" 2] 2
           (ListsRow "u" ["b"; "c"] [3%Q; 2%Q])).
  vm_compute. apply list_elem_of_here.
Defined.

#[export] Instance str_le_trans : Transitive str_le.
Proof.
  unfold str_le, String.leb. intros s1.
  induction s1 as [|c1 s1 IH]; intros [|c2 s2] [|c3 s3]; simpl; try done.
  unfold Ascii.compare.
  destruct (N.compare_spec (N_of_ascii c1) (N_of_ascii c2)),
           (N.compare_spec (N_of_ascii c2) (N_of_ascii c3)),
           (N.compare_spec (N_of_ascii c1) (N_of_ascii c3));
    try done; try lia.
  apply IH.
Qed.

#[export] Instance str_le_total : Total str_le.
Proof. intros s1 s2. apply String.leb_total. Qed.

#[export] Instance str_le_antisym : AntiSymm (=) str_le.
Proof. intros s1 s2. apply String.leb_antisym. Qed.

Lemma NoDup_unique (l : list string) : NoDup (unique l).
Proof. unfold unique. rewrite reverse_Permutation. apply NoDup_remove_dups. Qed.

Lemma data_frame3_Ok {A B C R} (mk : A → B → C → R) c1 c2 c3 :
  length c1 = length c2 → length c2 = length c3 →
  data_frame3 mk c1 c2 c3 = Ok (zip_with (λ a bc, mk a bc.1 bc.2) c1 (zip c2 c3)).
Proof. intros H1 H2. unfold data_frame3. by rewrite decide_True. Qed.

Lemma data_frame3_inv {A B C R} (mk : A → B → C → R) c1 c2 c3 rows :
  data_frame3 mk c1 c2 c3 = Ok rows →
  length c1 = length c2 ∧ length c2 = length c3
  ∧ rows = zip_with (λ a bc, mk a bc.1 bc.2) c1 (zip c2 c3).
Proof.
  unfold data_frame3. destruct (decide _) as [[H1 H2]|]; [|done].
  by intros [= <-].
Qed.

Lemma zip_with_replicate_zip {A B C R} (mk : A → B → C → R) a (bs : list B) (cs : list C) :
  length bs = length cs →
  zip_with (λ a bc, mk a bc.1 bc.2) (replicate (length bs) a) (zip bs cs)
  = zip_with (mk a) bs cs.
Proof.
  revert cs. induction bs as [|b bs IH]; intros [|c cs] Hlen; try done.
  cbn. f_equal. apply IH. by injection Hlen.
Qed.

(** The columns of a rectangular lists frame, zipped. *)
Lemma flattened_rect (k : nat) (rows : list lists_row) :
  rectangular k rows →
  zip_with (λ a bc, FlatRow a bc.1 bc.2)
    (np_repeat k (lsrc <$> rows))
    (zip (concat (ltgts <$> rows)) (concat (lscores <$> rows)))
  = flattened rows.
Proof.
  unfold rectangular, flattened, np_repeat.
  induction 1 as [|row rows [Ht Hs] _ IH]; [done|].
  rewrite !fmap_cons, !bind_cons. cbn [concat].
  rewrite zip_with_app by (by rewrite Ht, Hs).
  rewrite zip_with_app by (by rewrite length_replicate, length_zip, Ht, Hs, Nat.min_id).
  rewrite IH. f_equal. rewrite <- Ht. apply zip_with_replicate_zip. by rewrite Ht, Hs.
Qed.

Lemma length_concat_rect {A} (k : nat) (mat : list (list A)) :
  Forall (λ row, length row = k) mat → length (concat mat) = length mat * k.
Proof.
  induction 1 as [|row mat Hrow _ IH]; [done|].
  cbn. rewrite length_app, IH, Hrow. lia.
Qed.

Lemma length_np_repeat {A} (k : nat) (v : list A) :
  length (np_repeat k v) = length v * k.
Proof.
  unfold np_repeat. induction v as [|a v IH]; [done|].
  rewrite bind_cons, length_app, length_replicate, IH. simpl. lia.
Qed.

Lemma np_concatenate_Ok {A} (arrays : list (list A)) :
  arrays ≠ [] → np_concatenate arrays = Ok (concat arrays).
Proof. by destruct arrays. Qed.

(** A rectangular frame is flattened pair by pair. *)
Lemma _recos_lists_to_flat_rect (n : nat) (rows : list lists_row) :
  rows ≠ [] → rectangular n rows →
  _recos_lists_to_flat rows = Ok (flattened rows).
Proof.
  intros Hne Hrect. unfold _recos_lists_to_flat.
  destruct rows as [|first rest]; [done|].
  assert (length (ltgts first) = n) as -> by (by inversion Hrect as [|?? [? ?]]).
  rewrite data_frame3_Ok.
  - by rewrite (flattened_rect n).
  - rewrite length_np_repeat, (length_concat_rect n), !length_fmap; [done|].
    apply Forall_fmap. eapply Forall_impl; [exact Hrect|]. by intros ? [? ?].
  - rewrite !(length_concat_rect n), !length_fmap; [done| |];
      apply Forall_fmap; (eapply Forall_impl; [exact Hrect|]); by intros ? [? ?].
Qed.

Lemma lists_rows_columns (sv : list string) (ts : list (list string))
    (xs : list (list Q)) :
  length sv = length ts → length ts = length xs →
  let rows := zip_with (λ a bc, ListsRow a bc.1 bc.2) sv (zip ts xs) in
  lsrc <$> rows = sv ∧ ltgts <$> rows = ts ∧ lscores <$> rows = xs.
Proof.
  revert ts xs. induction sv as [|s sv IH]; intros [|t ts] [|x xs] H1 H2; try done.
  injection H1 as H1. injection H2 as H2.
  destruct (IH ts xs H1 H2) as (Ha & Hb & Hc). cbn in *.
  by rewrite Ha, Hb, Hc.
Qed.

(** X11. For a non-empty source vector and matrices that make a lists
    frame, the flat format of [_format_results_df] is what
    [_recos_lists_to_flat] makes of its lists format, errors included. *)
Theorem flat_format_flattens_lists_format (source_vec : list string)
    (target_ids_mat : list (list string)) (scores_mat : list (list Q))
    (rows : list lists_row) :
  source_vec ≠ [] →
  _format_results_df source_vec target_ids_mat scores_mat "recommendations_lists"
  = Ok (Recommendations, ListsDF rows) →
  _format_results_df source_vec target_ids_mat scores_mat "recommendations_flat"
  = (flat ← _recos_lists_to_flat rows; Ok (Recommendations, FlatDF flat)).
Proof.
  intros Hne. unfold _format_results_df.
  replace (str_in "recommendations" "recommendations_lists") with true by (by vm_compute).
  replace (str_in "lists" "recommendations_lists") with true by (by vm_compute).
  replace (str_in "recommendations" "recommendations_flat") with true by (by vm_compute).
  replace (str_in "lists" "recommendations_flat") with false by (by vm_compute).
  replace (str_in "flat" "recommendations_flat") with true by (by vm_compute).
  cbn [mbind result_bind].
  destruct (data_frame3 ListsRow _ _ _) as [rows'|e] eqn:Hrows; [|done].
  cbn [mbind result_bind]. intros [= <-].
  apply data_frame3_inv in Hrows as (H1 & H2 & ->).
  destruct (lists_rows_columns source_vec target_ids_mat scores_mat H1 H2)
    as (Hsrc & Htgt & Hsc).
  set (rows := zip_with _ _ _) in *.
  unfold _recos_lists_to_flat.
  destruct rows as [|first rest] eqn:Hr.
  { destruct source_vec; [done|]. discriminate Hsrc. }
  rewrite <- Hr in *. rewrite Hsrc, Htgt, Hsc.
  assert (shape1 target_ids_mat = length (ltgts first)) as ->.
  { rewrite <- Htgt, Hr. done. }
  rewrite !np_concatenate_Ok
    by (intros ->; destruct source_vec; [done|simpl in H1, H2; congruence]).
  cbn [mbind result_bind].
  by destruct (data_frame3 FlatRow _ _ _).
Qed.

(** X11 at two sources with two targets each. *)
Lemma flat_format_flattens_lists_format_witness :
  _format_results_df ["u"; "v"] [["a"; "b"]; ["c"; "d"]] [[2%Q; 1%Q]; [4%Q; 3%Q]]
    "recommendations_flat"
  = (flat ← _recos_lists_to_flat
              [ListsRow "u" ["a"; "b"] [2%Q; 1%Q]; ListsRow "v" ["c"; "d"] [4%Q; 3%Q]];
     Ok (Recommendations, FlatDF flat)).
Proof.
  apply (flat_format_flattens_lists_format ["u"; "v"] [["a"; "b"]; ["c"; "d"]]
           [[2%Q; 1%Q]; [4%Q; 3%Q]]).
  - done.
  - reflexivity.
Defined.

Lemma elem_of_flattened (rows : list lists_row) (r : flat_row) :
  r ∈ flattened rows →
  ∃ row, row ∈ rows ∧ src r = lsrc row
         ∧ r ∈ zip_with (FlatRow (lsrc row)) (ltgts row) (lscores row).
Proof.
  unfold flattened. rewrite list_elem_of_bind. intros (row & Hr & Hrow).
  exists row. split; [done|]. split; [|done].
  apply elem_of_zip_with in Hr as (t & x & -> & _). done.
Qed.

Lemma filter_own_rows (g : string) (ts : list string) (xs : list Q) :
  filter (λ r, src r = g) (zip_with (FlatRow g) ts xs) = zip_with (FlatRow g) ts xs.
Proof.
  revert xs. induction ts as [|t ts IH]; intros [|x xs]; try done.
  cbn [zip_with]. rewrite filter_cons_True by done. by rewrite IH.
Qed.

Lemma filter_other_rows (g g' : string) (ts : list string) (xs : list Q) :
  g' ≠ g → filter (λ r, src r = g) (zip_with (FlatRow g') ts xs) = [].
Proof.
  intros Hne. revert xs. induction ts as [|t ts IH]; intros [|x xs]; try done.
  cbn [zip_with]. rewrite filter_cons_False by done. by rewrite IH.
Qed.

Lemma filter_flattened_absent (g : string) (rows : list lists_row) :
  g ∉ lsrc <$> rows → filter (λ r, src r = g) (flattened rows) = [].
Proof.
  unfold flattened. induction rows as [|row rows IH]; [done|].
  rewrite fmap_cons, not_elem_of_cons. intros [Hne Hnot].
  rewrite bind_cons, filter_app, IH by done.
  rewrite filter_other_rows by done. done.
Qed.

(** The rows of one source in the flattened frame are that source's row. *)
Lemma filter_flattened (rows : list lists_row) (row : lists_row) :
  NoDup (lsrc <$> rows) → row ∈ rows →
  filter (λ r, src r = lsrc row) (flattened rows)
  = zip_with (FlatRow (lsrc row)) (ltgts row) (lscores row).
Proof.
  induction rows as [|row0 rows IH]; [by intros _ ?%elem_of_nil|].
  rewrite fmap_cons, NoDup_cons. intros [Hnot Hnodup] Hrow.
  unfold flattened. rewrite bind_cons, filter_app. fold (flattened rows).
  apply elem_of_cons in Hrow as [->|Hrow].
  - rewrite filter_own_rows, filter_flattened_absent by done. by rewrite app_nil_r.
  - rewrite filter_other_rows, IH; [done..|].
    intros Heq. apply Hnot. rewrite Heq. by apply list_elem_of_fmap_2.
Qed.

Lemma StronglySorted_str_lt_NoDup (l : list string) :
  StronglySorted str_lt l → NoDup l.
Proof.
  induction 1 as [|x l _ IH Hx]; constructor; [|done].
  intros Hin. eapply Forall_forall in Hx; [|done]. by destruct Hx as [_ ?].
Qed.

Lemma StronglySorted_str_lt_le (l : list string) :
  StronglySorted str_lt l → StronglySorted str_le l.
Proof.
  induction 1 as [|x l _ IH Hx]; constructor; [done|].
  eapply Forall_impl; [exact Hx|]. by intros ? [? _].
Qed.

(** Rows with strictly descending scores are sorted, and no two of them
    have the same score. *)
Lemma own_rows_sorted (g : string) (ts : list string) (xs : list Q) :
  StronglySorted (λ a b, (b < a)%Q) xs →
  StronglySorted score_ge (zip_with (FlatRow g) ts xs)
  ∧ ∀ r1 r2, r1 ∈ zip_with (FlatRow g) ts xs → r2 ∈ zip_with (FlatRow g) ts xs →
      (score r1 == score r2)%Q → r1 = r2.
Proof.
  intros Hxs. revert ts. induction Hxs as [|x xs _ IH Hx]; intros [|t ts];
    try (split; [constructor|by intros ?? ?%elem_of_nil]).
  cbn [zip_with]. destruct (IH ts) as [Hsorted Hinj].
  assert (∀ r, r ∈ zip_with (FlatRow g) ts xs → (score r < x)%Q) as Hbelow.
  { intros r Hr. apply elem_of_zip_with in Hr as (t' & x' & -> & _ & Hx').
    by eapply Forall_forall in Hx. }
  split.
  - constructor; [done|]. apply Forall_forall. intros r Hr.
    apply Qlt_le_weak. by apply Hbelow.
  - intros r1 r2 H1 H2 Heq.
    apply elem_of_cons in H1 as [->|H1]; apply elem_of_cons in H2 as [->|H2].
    + done.
    + apply Hbelow in H2. cbn in Heq. rewrite Heq in H2. by apply Qlt_irrefl in H2.
    + apply Hbelow in H1. cbn in Heq. rewrite <- Heq in H1. by apply Qlt_irrefl in H1.
    + by apply Hinj.
Qed.

Lemma zip_with_FlatRow_columns (g : string) (ts : list string) (xs : list Q) :
  length ts = length xs →
  tgt <$> zip_with (FlatRow g) ts xs = ts ∧ score <$> zip_with (FlatRow g) ts xs = xs.
Proof.
  revert xs. induction ts as [|t ts IH]; intros [|x xs] Hlen; try done.
  injection Hlen as Hlen. destruct (IH xs Hlen) as [Ha Hb]. cbn. by rewrite Ha, Hb.
Qed.

(** X12. Round trip: a lists frame with sources in ascending order, lists
    of one positive length [n] and strictly descending scores is flattened by
    [_recos_lists_to_flat], and [_flat_df_to_lists] gives it back from the
    flat frame, for no cutoff and for any cutoff of at least [n]. *)
Theorem lists_flat_lists_round_trip (rows : list lists_row) (n : nat)
    (n_cutoff : option nat) :
  rows ≠ [] → 0 < n → rectangular n rows → best_first rows →
  (∀ m, n_cutoff = Some m → n ≤ m) →
  ∃ flat,
    _recos_lists_to_flat rows = Ok flat
    ∧ _flat_df_to_lists flat n_cutoff = rows.
Proof.
  intros Hne Hn Hrect [Hkeys Hscores] Hcut.
  exists (flattened rows). split; [by apply (_recos_lists_to_flat_rect n)|].
  pose proof (StronglySorted_str_lt_NoDup _ Hkeys) as Hnodup.
  unfold _flat_df_to_lists.
  assert (group_keys (sort_values_desc (flattened rows)) = lsrc <$> rows) as ->.
  { unfold group_keys. apply (StronglySorted_unique str_le).
    - apply StronglySorted_merge_sort; apply _.
    - by apply StronglySorted_str_lt_le.
    - rewrite merge_sort_Permutation.
      apply NoDup_Permutation; [apply NoDup_unique|done|].
      intros g. rewrite elem_of_unique, !list_elem_of_fmap. split.
      + intros (r & -> & Hr). rewrite elem_of_sort_values_desc in Hr.
        apply elem_of_flattened in Hr as (row & Hrow & Hsrc & _). eauto.
      + intros (row & -> & Hrow).
        pose proof Hrow as Hin. eapply Forall_forall in Hin; [|exact Hrect].
        destruct Hin as [Ht Hs]. cbn in Ht, Hs.
        destruct (ltgts row) as [|t ts] eqn:Hts; [cbn in Ht; lia|].
        destruct (lscores row) as [|x xs] eqn:Hxs; [cbn in Hs; lia|].
        exists (FlatRow (lsrc row) t x). split; [done|].
        rewrite elem_of_sort_values_desc. unfold flattened.
        apply list_elem_of_bind. exists row. split; [|done].
        rewrite Hts, Hxs. by left. }
  rewrite <- list_fmap_compose.
  rewrite <- (list_fmap_id rows) at 2.
  apply Forall_fmap_ext, Forall_forall. intros row Hrow. cbn.
  pose proof Hrow as Hlen. eapply Forall_forall in Hlen; [|exact Hrect].
  destruct Hlen as [Ht Hs]. cbn in Ht, Hs.
  pose proof Hrow as Hdesc. eapply Forall_forall in Hdesc; [|exact Hscores].
  cbn in Hdesc.
  destruct (own_rows_sorted (lsrc row) (ltgts row) _ Hdesc) as [Hown Hinj].
  assert (filter (λ r, src r = lsrc row) (sort_values_desc (flattened rows))
          = zip_with (FlatRow (lsrc row)) (ltgts row) (lscores row)) as ->.
  { assert (filter (λ r, src r = lsrc row) (sort_values_desc (flattened rows))
            ≡ₚ zip_with (FlatRow (lsrc row)) (ltgts row) (lscores row)) as Hperm.
    { unfold sort_values_desc. rewrite merge_sort_Permutation.
      by rewrite filter_flattened. }
    apply (StronglySorted_unique_strong score_ge); [|
      apply StronglySorted_filter, sort_values_desc_sorted|done|done].
    intros r1 r2 H1 H2 H12 H21. apply Hinj; [by rewrite <- Hperm|done|].
    unfold score_ge in *. by apply Qle_antisym. }
  destruct (zip_with_FlatRow_columns (lsrc row) (ltgts row) (lscores row)) as [-> ->];
    [congruence|].
  destruct row as [g ts xs]. cbn in *.
  destruct n_cutoff as [m|]; cbn; [|done].
  specialize (Hcut m eq_refl). by rewrite !take_ge by lia.
Qed.

(** X12 at a frame of two sources. *)
Lemma lists_flat_lists_round_trip_witness :
  ∃ flat,
    _recos_lists_to_flat
      [ListsRow "u" ["a"; "b"] [2%Q; 1%Q]; ListsRow "v" ["c"; "d"] [4%Q; 3%Q]]
    = Ok flat
    ∧ _flat_df_to_lists flat (Some 10)
      = [ListsRow "u" ["a"; "b"] [2%Q; 1%Q]; ListsRow "v" ["c"; "d"] [4%Q; 3%Q]].
Proof.
  apply (lists_flat_lists_round_trip
           [ListsRow "u" ["a"; "b"] [2%Q; 1%Q]; ListsRow "v" ["c"; "d"] [4%Q; 3%Q]]
           2 (Some 10)).
  - done.
  - lia.
  - repeat constructor.
  - split.
    + by_compute.
    + repeat constructor.
  - intros m [= <-]. lia.
Defined.

(** *** The two groups of users *)

Lemma NoDup_value_counts (l : list string) : NoDup (value_counts l).*1.
Proof.
  unfold value_counts. rewrite merge_sort_Permutation, <- list_fmap_compose.
  erewrite (list_fmap_ext _ id) by done.
  rewrite list_fmap_id. apply NoDup_unique.
Qed.

(** X13. With an empty or up-to-date cache, [_separate_heavy_users] splits
    the requested users that are in the training frame into the heavy and the
    normal ones: no user is in both or twice, and the users that are not in
    the training frame are in neither.  The counts are cached on the
    instance, and a second call answers the same from the cache. *)
Theorem separate_heavy_users_partition (self : recommender) (user_ids : list string)
    (threshold : nat) :
  counts_fresh self →
  ∃ heavy normal heavy_users_max self',
    _separate_heavy_users self user_ids threshold
    = ((heavy, normal, heavy_users_max), self')
    ∧ NoDup (heavy ++ normal)
    ∧ (∀ u, u ∈ (heavy ++ normal)%list ↔ u ∈ user_ids ∧ u ∈ all_users self)
    ∧ train_df self' = train_df self
    ∧ user_train_counts self' = Some (value_counts (userid <$> train_df self))
    ∧ _separate_heavy_users self' user_ids threshold
      = ((heavy, normal, heavy_users_max), self').
Proof.
  intros Hfresh. unfold _separate_heavy_users.
  set (counts := match user_train_counts self with
                 | Some c => c
                 | None => value_counts (userid <$> train_df self)
                 end).
  assert (counts = value_counts (userid <$> train_df self)) as Hcounts
    by (subst counts; by destruct Hfresh as [-> | ->]).
  eexists _, _, _, _. split; [reflexivity|]. cbn [train_df user_train_counts].
  split; [|split; [|split; [done|split; [by rewrite Hcounts|done]]]].
  - clearbody counts. subst counts.
    set (l := userid <$> train_df self).
    pose proof (NoDup_value_counts l) as Hnd.
    pose proof (NoDup_fmap_1 _ _ Hnd) as Hnd'.
    assert (∀ x y1 y2, (x, y1) ∈ value_counts l → (x, y2) ∈ value_counts l → y1 = y2)
      as Hfun.
    { intros x y1 y2 H1 H2. apply elem_of_value_counts in H1 as [_ H1].
      apply elem_of_value_counts in H2 as [_ H2]. cbn in H1, H2. congruence. }
    apply NoDup_app. repeat split.
    + apply NoDup_fmap_fst; [|by do 2 apply NoDup_filter].
      intros x y1 y2 H1 H2. rewrite !list_elem_of_filter in H1, H2.
      apply (Hfun x); tauto.
    + intros u Hh Hn. apply list_elem_of_fmap in Hh as ([u1 c1] & -> & Hh).
      apply list_elem_of_fmap in Hn as ([u2 c2] & Heq & Hn). cbn in Heq. subst u2.
      rewrite !list_elem_of_filter in Hh, Hn. cbn in *.
      assert (c1 = c2) by (apply (Hfun u1); tauto). lia.
    + apply NoDup_fmap_fst; [|by do 2 apply NoDup_filter].
      intros x y1 y2 H1 H2. rewrite !list_elem_of_filter in H1, H2.
      apply (Hfun x); tauto.
  - intros u. rewrite Hcounts. clear counts Hcounts.
    set (l := userid <$> train_df self).
    rewrite elem_of_app, !list_elem_of_fmap. unfold all_users. rewrite elem_of_unique.
    fold l. split.
    + intros [(p & -> & Hp)|(p & -> & Hp)]; rewrite !list_elem_of_filter in Hp;
        destruct Hp as (_ & Hu & Hp); apply elem_of_value_counts in Hp as [? _]; done.
    + intros [Hu Hl].
      assert ((u, train_count l u) ∈ value_counts l) as Hin
        by (by apply elem_of_value_counts).
      destruct (decide (threshold ≤ train_count l u)) as [Hge|Hlt].
      * left. exists (u, train_count l u). split; [done|].
        by rewrite !list_elem_of_filter.
      * right. exists (u, train_count l u). split; [done|].
        rewrite !list_elem_of_filter. cbn. repeat split; [lia|done..].
Qed.

(** X13 at the frame with one heavy and one normal user, asked for a
    repeated and an unseen user as well. *)
Lemma separate_heavy_users_partition_witness :
  ∃ heavy normal heavy_users_max self',
    _separate_heavy_users heavy_and_normal ["h"; "n"; "x"; "n"] 50
    = ((heavy, normal, heavy_users_max), self')
    ∧ NoDup (heavy ++ normal)
    ∧ (∀ u, u ∈ (heavy ++ normal)%list ↔
            u ∈ ["h"; "n"; "x"; "n"] ∧ u ∈ all_users heavy_and_normal)
    ∧ train_df self' = train_df heavy_and_normal
    ∧ user_train_counts self'
      = Some (value_counts (userid <$> train_df heavy_and_normal))
    ∧ _separate_heavy_users self' ["h"; "n"; "x"; "n"] 50
      = ((heavy, normal, heavy_users_max), self').
Proof.
  apply (separate_heavy_users_partition heavy_and_normal ["h"; "n"; "x"; "n"] 50).
  by left.
Defined.

(** *** The evaluation reports *)

Section eval_on_test_facts.

Context {test_df ranks sp_mat report_row : Type}.
Context (report : ranks → sp_mat → string → result (list report_row)).
Context (train_ranks_func : unit → result (ranks * sp_mat)).
Context (test_tanks_func : test_df → result (ranks * sp_mat)).

(** X14. [_eval_on_test_by_ranking_LFM] evaluates as many test frames as
    there are names: the frames beyond the names are not looked at, so that
    with a single name a list of frames is evaluated as its first frame
    alone.  Without the training report, and with no name or no frame, it
    raises the [ValueError] of [pandas.concat]. *)
Theorem unnamed_test_frames_are_not_evaluated (prefix : string) :
  let eval' := _eval_on_test_by_ranking_LFM report train_ranks_func test_tanks_func in
  (∀ dfs test_names include_train,
     eval' (FrameList dfs) test_names prefix include_train
     = eval' (FrameList (take (length test_names) dfs)) test_names prefix include_train)
  ∧ (∀ df rest name include_train,
       eval' (FrameList (df :: rest)) [name] prefix include_train
       = eval' (OneFrame df) [name] prefix include_train)
  ∧ (∀ dfs, eval' (FrameList dfs) [] prefix false
            = Raise (ValueError "No objects to concatenate"))
  ∧ (∀ test_names, eval' (FrameList []) test_names prefix false
                   = Raise (ValueError "No objects to concatenate")).
Proof.
  cbv zeta. repeat split.
  - intros dfs names it. cbv beta iota zeta delta [_eval_on_test_by_ranking_LFM].
    by rewrite zip_with_take_l.
  - intros df rest name it. cbv beta iota zeta delta [_eval_on_test_by_ranking_LFM].
    cbn [zip_with]. by destruct rest.
  - intros dfs. cbv beta iota zeta delta [_eval_on_test_by_ranking_LFM].
    cbn [mbind result_bind]. by rewrite zip_with_nil_r.
Qed.

End eval_on_test_facts.

End FramesFacts.

(** ** Similar items without the query item *)

Module FactorizationFacts.
Import Py PyFacts Frames FramesFacts Factorization.

(** *** Self-similarities *)

Lemma elem_of_remove_self_similarities (flat_df : list flat_row) r :
  r ∈ _remove_self_similarities flat_df ↔ r ∈ flat_df ∧ src r ≠ tgt r.
Proof. unfold _remove_self_similarities. rewrite list_elem_of_filter. tauto. Qed.

Lemma np_repeat_length {A} (k : nat) (v : list A) :
  length (np_repeat k v) = length v * k.
Proof.
  unfold np_repeat. induction v as [|a v IH]; [done|].
  rewrite bind_cons, length_app, length_replicate, IH. simpl. lia.
Qed.

Lemma concat_length_rect {A} (k : nat) (mat : list (list A)) :
  Forall (λ row, length row = k) mat → length (concat mat) = length mat * k.
Proof.
  induction 1 as [|row mat Hrow _ IH]; [done|].
  cbn. rewrite length_app, IH, Hrow. lia.
Qed.

Lemma shape1_rect {A} (k : nat) (mat : list (list A)) :
  Forall (λ row, length row = k) mat → mat ≠ [] → shape1 mat = k.
Proof. by destruct 1. Qed.

(** A flat frame is built from any pair of rectangular matrices that have a
    row per source. *)
Lemma _format_results_df_flat (source_vec : list string) ids scores k :
  source_vec ≠ [] →
  length ids = length source_vec → length scores = length source_vec →
  Forall (λ row, length row = k) ids → Forall (λ row, length row = k) scores →
  ∃ rows, _format_results_df source_vec ids scores "similarities_flat"
          = Ok (Similarities, FlatDF rows)
          ∧ length rows = length source_vec * k.
Proof.
  intros Hne Hids Hscores Hrect_ids Hrect_scores.
  unfold _format_results_df.
  replace (str_in "recommendations" "similarities_flat") with false by (by vm_compute).
  replace (str_in "similarities" "similarities_flat") with true by (by vm_compute).
  replace (str_in "lists" "similarities_flat") with false by (by vm_compute).
  replace (str_in "flat" "similarities_flat") with true by (by vm_compute).
  cbn [mbind result_bind].
  rewrite !np_concatenate_Ok by (intros ->; by destruct source_vec).
  cbn [mbind result_bind]. unfold data_frame3.
  assert (length (np_repeat (shape1 ids) source_vec) = length source_vec * k) as Hlen.
  { rewrite np_repeat_length. destruct ids as [|row ids].
    - destruct source_vec; [done|discriminate].
    - by rewrite (shape1_rect k). }
  rewrite decide_True.
  - eexists. split; [reflexivity|].
    rewrite length_zip_with, length_zip, Hlen, !(concat_length_rect k), Hids, Hscores by done.
    lia.
  - rewrite Hlen, !(concat_length_rect k), Hids, Hscores by done. done.
Qed.

(** What a successful call with [remove_self=True] returns. *)
Lemma get_similar_items_Ok most_similar self item_ids target_item_ids n_simil
    embeddings_mode simil_mode results_format df :
  get_similar_items most_similar self item_ids target_item_ids n_simil true
    embeddings_mode simil_mode results_format = Ok df →
  ∃ best formatted,
    most_similar (similar_items_request self item_ids target_item_ids n_simil true
                    embeddings_mode simil_mode) = Ok best
    ∧ df = if str_in "lists" results_format
           then ListsDF (_flat_df_to_lists (_remove_self_similarities formatted)
                           (Some n_simil))
           else FlatDF (_remove_self_similarities formatted).
Proof.
  unfold get_similar_items. intros Hdf.
  destruct (most_similar _) as [best|e]; [|done]. cbn [mbind result_bind] in Hdf.
  destruct (_format_results_df _ _ _ _) as [formatted|e]; [|done].
  cbn [mbind result_bind] in Hdf.
  exists best, (flat_rows formatted.2). split; [done|].
  destruct (str_in "lists" results_format); by injection Hdf as <-.
Qed.

(** With a rectangular answer of [most_similar], one row per source, the
    call returns a frame. *)
Lemma get_similar_items_returns most_similar self item_ids target_item_ids n_simil
    remove_self embeddings_mode simil_mode results_format ids scores :
  let request := similar_items_request self item_ids target_item_ids n_simil
                   remove_self embeddings_mode simil_mode in
  most_similar request = Ok (ids, scores) →
  source_ids request ≠ [] →
  length ids = length (source_ids request) →
  length scores = length (source_ids request) →
  Forall (λ row, length row = n request) ids →
  Forall (λ row, length row = n request) scores →
  ∃ df, get_similar_items most_similar self item_ids target_item_ids n_simil
          remove_self embeddings_mode simil_mode results_format = Ok df.
Proof.
  intros request Hbest Hne Hids Hscores Hrect_ids Hrect_scores.
  unfold get_similar_items. fold request. rewrite Hbest. cbn [mbind result_bind fst snd].
  destruct (_format_results_df_flat (source_ids request) ids scores (n request))
    as (rows & -> & _); try done.
  cbn [mbind result_bind]. destruct (str_in "lists" results_format); eauto.
Qed.

(** C7. A call of [get_similar_items] with [remove_self=True] asks
    [most_similar] for [n_simil + 1] neighbours; no pair of an item with
    itself is in what it returns, in either format; and in the lists format
    no queried item has more than [n_simil] neighbours. *)
Theorem similar_items_without_self most_similar self item_ids target_item_ids
    n_simil embeddings_mode simil_mode results_format df :
  get_similar_items most_similar self item_ids target_item_ids n_simil true
    embeddings_mode simil_mode results_format = Ok df →
  let request := similar_items_request self item_ids target_item_ids n_simil true
                   embeddings_mode simil_mode in
  n request = n_simil + 1
  ∧ (∃ best, most_similar request = Ok best)
  ∧ (∀ s, ¬ contains_pair df s s)
  ∧ (str_in "lists" results_format = true →
     ∃ rows, df = ListsDF rows
             ∧ ∀ row, row ∈ rows →
                 (lsrc row ∉ ltgts row)
                 ∧ length (ltgts row) ≤ n_simil ∧ length (lscores row) ≤ n_simil).
Proof.
  intros Hdf request.
  apply get_similar_items_Ok in Hdf as (best & formatted & Hbest & ->).
  fold request in Hbest.
  assert (∀ s, ¬ contains_pair (FlatDF (_remove_self_similarities formatted)) s s)
    as Hflat.
  { intros s (r & Hr & Hs & Ht). apply elem_of_remove_self_similarities in Hr as [_ Hne].
    congruence. }
  repeat apply conj.
  - unfold request, similar_items_request.
    by destruct (_check_item_ids_args self item_ids target_item_ids).
  - eauto.
  - intros s Hs. destruct (str_in "lists" results_format); [|by apply (Hflat s)].
    by apply contains_pair_lists, Hflat in Hs.
  - intros ->. eexists. split; [done|]. intros row Hrow. split.
    + intros Hself. apply (Hflat (lsrc row)).
      eapply contains_pair_lists. simpl. eauto.
    + by apply (flat_df_to_lists_length _ _ _ Hrow).
Qed.

(** C7 at the two-item catalogue, one neighbour asked for. *)
Lemma similar_items_without_self_witness :
  get_similar_items closest_is_self two_items None None 1 true None "cosine" "lists"
  = Ok (ListsDF [ListsRow "a" ["b"] [(1 # 2)%Q]; ListsRow "b" ["a"] [(1 # 2)%Q]])
  ∧ n (similar_items_request two_items None None 1 true None "cosine") = 1 + 1
  ∧ (∀ s, ¬ contains_pair
          (ListsDF [ListsRow "a" ["b"] [(1 # 2)%Q]; ListsRow "b" ["a"] [(1 # 2)%Q]]) s s).
Proof.
  assert (get_similar_items closest_is_self two_items None None 1 true None
            "cosine" "lists"
          = Ok (ListsDF [ListsRow "a" ["b"] [(1 # 2)%Q]; ListsRow "b" ["a"] [(1 # 2)%Q]]))
    as Hrun by (vm_compute; reflexivity).
  split; [exact Hrun|].
  destruct (similar_items_without_self closest_is_self two_items None None 1 None
              "cosine" "lists" _ Hrun) as (Hn & _ & Hnoself & _).
  split; [exact Hn | exact Hnoself].
Defined.

(** *** The answers of [most_similar] *)

Lemma zip3_rectangular (k : nat) sv ids scores :
  Forall (λ row, length row = k) ids → Forall (λ row, length row = k) scores →
  rectangular k (zip3 sv ids scores).
Proof.
  intros Hids. revert sv scores.
  induction Hids as [|t ids Ht _ IH]; intros [|s sv] scores Hscores; try constructor.
  destruct Hscores as [|x scores Hx Hscores]; constructor.
  - done.
  - by apply IH.
Qed.

Lemma zip3_lookup sv ids scores k row :
  zip3 sv ids scores !! k = Some row ↔
  sv !! k = Some (lsrc row) ∧ ids !! k = Some (ltgts row)
  ∧ scores !! k = Some (lscores row).
Proof.
  unfold zip3. rewrite lookup_zip_with_Some. split.
  - intros (s & [t x] & -> & Hs & Hz). apply lookup_zip_with_Some in Hz.
    destruct Hz as (t' & x' & [= <- <-] & Ht & Hx). done.
  - intros (Hs & Ht & Hx). exists (lsrc row), (ltgts row, lscores row).
    split; [by destruct row|]. split; [done|].
    apply lookup_zip_with_Some. eauto.
Qed.

(** No flat frame is made of an answer without rows: [np.concatenate] has
    nothing to concatenate. *)
Lemma similarities_flat_no_rows sv scores :
  _format_results_df sv [] scores "similarities_flat"
  = Raise (ValueError "need at least one array to concatenate").
Proof.
  unfold _format_results_df.
  replace (str_in "recommendations" "similarities_flat") with false by (by vm_compute).
  replace (str_in "similarities" "similarities_flat") with true by (by vm_compute).
  replace (str_in "lists" "similarities_flat") with false by (by vm_compute).
  replace (str_in "flat" "similarities_flat") with true by (by vm_compute).
  done.
Qed.

(** The flat similarities frame of a rectangular answer. *)
Lemma similarities_flat_rect (k : nat) sv ids scores :
  sv ≠ [] →
  length ids = length sv → length scores = length sv →
  Forall (λ row, length row = k) ids → Forall (λ row, length row = k) scores →
  _format_results_df sv ids scores "similarities_flat"
  = Ok (Similarities, FlatDF (flattened (zip3 sv ids scores))).
Proof.
  intros Hne Hids Hscores Hrect_ids Hrect_scores.
  unfold _format_results_df.
  replace (str_in "recommendations" "similarities_flat") with false by (by vm_compute).
  replace (str_in "similarities" "similarities_flat") with true by (by vm_compute).
  replace (str_in "lists" "similarities_flat") with false by (by vm_compute).
  replace (str_in "flat" "similarities_flat") with true by (by vm_compute).
  cbn [mbind result_bind].
  rewrite !np_concatenate_Ok by (intros ->; by destruct sv).
  cbn [mbind result_bind].
  destruct (lists_rows_columns sv ids scores) as (Hsrc & Htgt & Hsc); [congruence..|].
  fold (zip3 sv ids scores) in Hsrc, Htgt, Hsc.
  assert (shape1 ids = k) as Hk.
  { destruct ids as [|row ids']; [by destruct sv|]. by inversion Hrect_ids. }
  rewrite Hk, data_frame3_Ok.
  - cbn [mbind result_bind]. do 3 f_equal.
    rewrite <- (flattened_rect k) by (by apply zip3_rectangular).
    by rewrite Hsrc, Htgt, Hsc.
  - rewrite length_np_repeat, (length_concat_rect k), Hids; done.
  - rewrite !(length_concat_rect k), Hids, Hscores; done.
Qed.

Lemma elem_of_flattened_zip3 sv ids scores r :
  r ∈ flattened (zip3 sv ids scores) ↔ answered sv ids scores r.
Proof.
  unfold flattened, answered. rewrite list_elem_of_bind. split.
  - intros (row & Hr & Hrow). apply list_elem_of_lookup in Hrow as [k Hk].
    apply zip3_lookup in Hk as (Hs & Ht & Hx).
    apply list_elem_of_lookup in Hr as [j Hj].
    apply lookup_zip_with_Some in Hj as (t & x & -> & Htj & Hxj).
    exists k, j, (ltgts row), (lscores row). done.
  - intros (k & j & ts & xs & Hs & Ht & Hx & Htj & Hxj).
    exists (ListsRow (src r) ts xs). split.
    + apply list_elem_of_lookup. exists j. apply lookup_zip_with_Some.
      exists (tgt r), (score r). split; [by destruct r|done].
    + apply list_elem_of_lookup. exists k. by apply zip3_lookup.
Qed.

(** A query that resolves to no item raises in the flat format, whatever
    [most_similar] answers with no row. *)
Lemma similar_items_of_no_item_raise most_similar (self : recommender)
    (item_ids target_item_ids : option (list string)) (n_simil : nat)
    (remove_self : bool) (embeddings_mode : option string)
    (simil_mode results_format : string) (scores : list (list Q)) :
  most_similar (similar_items_request self item_ids target_item_ids n_simil
                  remove_self embeddings_mode simil_mode) = Ok ([], scores) →
  get_similar_items most_similar self item_ids target_item_ids n_simil
    remove_self embeddings_mode simil_mode results_format
  = Raise (ValueError "need at least one array to concatenate").
Proof.
  intros Hbest. unfold get_similar_items. rewrite Hbest.
  cbn [mbind result_bind fst snd]. by rewrite similarities_flat_no_rows.
Qed.

(** X25. For a query that resolves to an item at least and a rectangular
    answer of [most_similar], the flat result of [get_similar_items] holds
    exactly the answers: a row for every place of the answer, with the
    queried item as source and the id and score of that place, less the rows
    of an item with itself when [remove_self] is set. *)
Theorem similar_items_are_the_answers_of_most_similar most_similar (self : recommender)
    (item_ids target_item_ids : option (list string)) (n_simil : nat)
    (remove_self : bool) (embeddings_mode : option string)
    (simil_mode results_format : string) (ids : list (list string))
    (scores : list (list Q)) :
  let request := similar_items_request self item_ids target_item_ids n_simil
                   remove_self embeddings_mode simil_mode in
  most_similar request = Ok (ids, scores) →
  source_ids request ≠ [] →
  length ids = length (source_ids request) →
  length scores = length (source_ids request) →
  Forall (λ row, length row = n request) ids →
  Forall (λ row, length row = n request) scores →
  str_in "lists" results_format = false →
  ∃ rows,
    get_similar_items most_similar self item_ids target_item_ids n_simil
      remove_self embeddings_mode simil_mode results_format = Ok (FlatDF rows)
    ∧ ∀ r, r ∈ rows ↔
           answered (source_ids request) ids scores r
           ∧ (remove_self = true → src r ≠ tgt r).
Proof.
  intros request Hbest Hsome Hids Hscores Hrect_ids Hrect_scores Hflat.
  unfold get_similar_items. fold request. rewrite Hbest. cbn [mbind result_bind fst snd].
  rewrite (similarities_flat_rect (n request)) by done.
  cbn [mbind result_bind snd flat_rows]. rewrite Hflat.
  eexists. split; [reflexivity|]. intros r.
  destruct remove_self.
  - rewrite elem_of_remove_self_similarities, elem_of_flattened_zip3.
    split; [intros [? ?]; split; [done|by intros _]|].
    intros [? Hne]. split; [done|by apply Hne].
  - rewrite elem_of_flattened_zip3.
    split; [intros ?; split; [done|by intros [=]]|by intros [? _]].
Qed.

(** X25 at the two-item catalogue. *)
Lemma similar_items_are_the_answers_of_most_similar_witness :
  ∃ rows,
    get_similar_items closest_is_self two_items None None 1 true None "cosine" "flat"
    = Ok (FlatDF rows)
    ∧ ∀ r, r ∈ rows ↔
           answered
             (source_ids (similar_items_request two_items None None 1 true None "cosine"))
             [["a"; "b"]; ["b"; "a"]] [[1%Q; (1 # 2)%Q]; [1%Q; (1 # 2)%Q]] r
           ∧ (true = true → src r ≠ tgt r).
Proof.
  apply (similar_items_are_the_answers_of_most_similar closest_is_self two_items
           None None 1 true None "cosine" "flat"
           [["a"; "b"]; ["b"; "a"]] [[1%Q; (1 # 2)%Q]; [1%Q; (1 # 2)%Q]]).
  - vm_compute. reflexivity.
  - vm_compute. discriminate.
  - reflexivity.
  - reflexivity.
  - repeat constructor.
  - repeat constructor.
  - reflexivity.
Defined.

Section similar_users_facts.

Context (most_similar : most_similar_request → result (list (list string) * list (list Q))).
Context (_check_user_ids_args :
           recommender → option (list string) → option (list string)
           → list string * option (list string)).

Local Abbreviation users_request := (similar_users_request _check_user_ids_args).
Local Abbreviation similar_users := (get_similar_users most_similar _check_user_ids_args).

(** X26. [get_similar_users] asks [most_similar] for [n_simil] neighbours
    also when the user itself is to be removed (where [get_similar_items]
    asks for one more): no user is listed for itself, no list is longer than
    [n_simil], and a user that [most_similar] answered among its own
    neighbours is left with fewer than [n_simil]. *)
Theorem similar_users_lose_a_place_to_themselves (self : recommender)
    (user_ids target_user_ids : option (list string)) (n_simil : nat)
    (simil_mode : string) (ids : list (list string)) (scores : list (list Q))
    (df : results_df) :
  let request := users_request self user_ids target_user_ids n_simil simil_mode in
  most_similar request = Ok (ids, scores) →
  length ids = length (source_ids request) →
  length scores = length (source_ids request) →
  Forall (λ row, length row = n_simil) ids →
  Forall (λ row, length row = n_simil) scores →
  NoDup (source_ids request) →
  similar_users self user_ids target_user_ids n_simil true simil_mode = Ok df →
  n request = n_simil
  ∧ ∃ rows,
      df = ListsDF rows
      ∧ ∀ row, row ∈ rows →
          (lsrc row ∉ ltgts row)
          ∧ length (ltgts row) ≤ n_simil
          ∧ ∀ k ts, source_ids request !! k = Some (lsrc row) →
                    ids !! k = Some ts → lsrc row ∈ ts →
                    length (ltgts row) < n_simil.
Proof.
  intros request Hbest Hids Hscores Hrect_ids Hrect_scores Hnodup.
  assert (n request = n_simil) as Hn.
  { unfold request, similar_users_request.
    by destruct (_check_user_ids_args self user_ids target_user_ids). }
  unfold get_similar_users. fold request. rewrite Hbest. cbn [mbind result_bind fst snd].
  destruct (decide (source_ids request = [])) as [Hnone|Hsome].
  { rewrite Hnone in Hids. destruct ids; [|done].
    by rewrite similarities_flat_no_rows. }
  rewrite (similarities_flat_rect n_simil) by done.
  cbn [mbind result_bind snd flat_rows]. intros [= <-].
  split; [done|]. eexists. split; [reflexivity|].
  intros row Hrow.
  destruct (flat_df_to_lists_row _ _ _ Hrow) as (rows & Hperm & _ & Ht & _).
  cbn [cutoff] in Ht. repeat split.
  - intros Hself. rewrite Ht in Hself. apply elem_of_take in Hself as (i & Hi & _).
    rewrite list_lookup_fmap in Hi. destruct (rows !! i) as [r|] eqn:Hr; [|done].
    injection Hi as Hi.
    assert (r ∈ rows) as Hin by (by eapply list_elem_of_lookup_2).
    rewrite Hperm in Hin. apply list_elem_of_filter in Hin as [Hsrc Hin].
    apply elem_of_remove_self_similarities in Hin as [_ Hne]. congruence.
  - rewrite Ht, length_take. lia.
  - intros k ts Hk Hts Hself.
    assert (length rows < n_simil) as Hlt; [|rewrite Ht, length_take, length_fmap; lia].
    rewrite Hperm. unfold _remove_self_similarities.
    rewrite list_filter_filter.
    rewrite (list_filter_iff _ (λ r, src r ≠ tgt r ∧ src r = lsrc row)) by (intros; tauto).
    rewrite <- list_filter_filter.
    assert (length scores = length ids) as Hlen by congruence.
    assert (k < length scores) as Hks
      by (rewrite Hlen; by eapply lookup_lt_Some).
    apply lookup_lt_is_Some in Hks as [xs Hxs].
    set (own := ListsRow (lsrc row) ts xs).
    assert (own ∈ zip3 (source_ids request) ids scores) as Hown.
    { apply list_elem_of_lookup. exists k. by apply zip3_lookup. }
    assert (lsrc <$> zip3 (source_ids request) ids scores = source_ids request)
      as Hkeys by (by apply lists_rows_columns; congruence).
    assert (NoDup (lsrc <$> zip3 (source_ids request) ids scores)) as Hnd
      by (by rewrite Hkeys).
    pose proof (filter_flattened _ own Hnd Hown) as Hgroup.
    cbn [lsrc ltgts lscores own] in Hgroup. rewrite Hgroup.
    assert (length ts = n_simil) as Hlts
      by (eapply Forall_forall in Hrect_ids; [done|by eapply list_elem_of_lookup_2]).
    assert (length xs = n_simil) as Hlxs
      by (eapply Forall_forall in Hrect_scores; [done|by eapply list_elem_of_lookup_2]).
    apply list_elem_of_lookup in Hself as [j Hj].
    assert (j < length xs) as Hjx by (rewrite Hlxs, <- Hlts; by eapply lookup_lt_Some).
    apply lookup_lt_is_Some in Hjx as [x Hx].
    assert (length (zip_with (FlatRow (lsrc row)) ts xs) = n_simil) as <-
      by (rewrite length_zip_with; lia).
    apply (length_filter_lt _ _ (FlatRow (lsrc row) (lsrc row) x)); [|cbn; tauto].
    apply list_elem_of_lookup. exists j. apply lookup_zip_with_Some. eauto.
Qed.

End similar_users_facts.

(** X26 at two users, two neighbours asked for. *)
Lemma similar_users_lose_a_place_to_themselves_witness :
  n (similar_users_request check_all two_users None None 2 "cosine") = 2
  ∧ ∃ rows,
      ListsDF [ListsRow "u1" ["u2"] [(1 # 2)%Q]; ListsRow "u2" ["u1"] [(1 # 2)%Q]]
      = ListsDF rows
      ∧ ∀ row, row ∈ rows →
          (lsrc row ∉ ltgts row)
          ∧ length (ltgts row) ≤ 2
          ∧ ∀ k ts,
              source_ids (similar_users_request check_all two_users None None 2 "cosine")
                !! k = Some (lsrc row) →
              [["u1"; "u2"]; ["u2"; "u1"]] !! k = Some ts → lsrc row ∈ ts →
              length (ltgts row) < 2.
Proof.
  apply (similar_users_lose_a_place_to_themselves
           users_closest_to_self check_all two_users None None 2 "cosine"
           [["u1"; "u2"]; ["u2"; "u1"]] [[1%Q; (1 # 2)%Q]; [1%Q; (1 # 2)%Q]]
           (ListsDF [ListsRow "u1" ["u2"] [(1 # 2)%Q];
                     ListsRow "u2" ["u1"] [(1 # 2)%Q]])).
  - reflexivity.
  - reflexivity.
  - reflexivity.
  - repeat constructor.
  - repeat constructor.
  - by_compute.
  - vm_compute. reflexivity.
Defined.

End FactorizationFacts.

(** ** The cascade and the rank fusion *)

Module EnsemblesFacts.
Import Py PyFacts Frames FramesFacts Ensembles.

(** *** The cascade scores with its second member *)

Section cascade_facts.

Context (uid_encoder iid_encoder : string → option nat) (predict : nat → nat → Q).

(** The frame that [predict_on_df] returns has the rows of its argument, in
    their order, each with the pointwise prediction for its pair. *)
Lemma predict_on_df_Ok (df out : list flat_row) :
  predict_on_df uid_encoder iid_encoder predict df = Ok out ↔
  Forall2 (λ r o, src o = src r ∧ tgt o = tgt r
                  ∧ pointwise_prediction uid_encoder iid_encoder predict
                      (src r) (tgt r) = Some (score o)) df out.
Proof.
  unfold predict_on_df, add_encoded_cols, pointwise_prediction.
  revert out. induction df as [|r df IH]; intros out.
  - simpl. split; [intros [= <-]; constructor | by inversion 1].
  - cbn [map_result]. split.
    + destruct (uid_encoder (src r)) as [u|] eqn:Hu; [|done].
      destruct (iid_encoder (tgt r)) as [i|] eqn:Hi; [|done].
      cbn [mbind result_bind option_bind].
      destruct (map_result _ df) as [encoded|e] eqn:Henc; [|done].
      cbn [mbind result_bind]. intros [= <-]. constructor.
      * cbn. by rewrite Hu, Hi.
      * apply IH. by cbn [mbind result_bind].
    + inversion 1 as [|? o ? out' (Hs & Ht & Hp) Hrest]; subst.
      destruct (uid_encoder (src r)) as [u|]; [|done].
      destruct (iid_encoder (tgt r)) as [i|]; [|done].
      cbn in Hp. injection Hp as Hp. cbn [mbind result_bind].
      apply IH in Hrest.
      destruct (map_result _ df) as [encoded|e]; [|done].
      cbn [mbind result_bind] in *. injection Hrest as <-.
      cbn. f_equal. f_equal.
      destruct o; cbn in *; by subst.
Qed.

(** [predict_on_df] reads the pairs of its argument and nothing else. *)
Lemma predict_on_df_pairs (df df' : list flat_row) :
  (λ r, (src r, tgt r)) <$> df' = (λ r, (src r, tgt r)) <$> df →
  predict_on_df uid_encoder iid_encoder predict df'
  = predict_on_df uid_encoder iid_encoder predict df.
Proof.
  unfold predict_on_df, add_encoded_cols.
  revert df'. induction df as [|r df IH]; intros [|r' df'] Hpairs; try done.
  rewrite !fmap_cons in Hpairs. injection Hpairs as Hs Ht Hrest.
  specialize (IH _ Hrest). cbn [map_result]. rewrite Hs, Ht.
  destruct (uid_encoder (src r)) as [u|]; [|done].
  destruct (iid_encoder (tgt r)) as [i|]; [|done].
  cbn [mbind result_bind] in *.
  destruct (map_result _ df') as [enc'|e']; destruct (map_result _ df) as [enc|e];
    cbn [mbind result_bind] in *; try done.
  injection IH as IH. cbn. by rewrite Hs, Ht, IH.
Qed.

(** It returns a frame whenever every identifier is known to the encoders. *)
Lemma predict_on_df_returns (df : list flat_row) :
  Forall (λ r, is_Some (uid_encoder (src r)) ∧ is_Some (iid_encoder (tgt r))) df →
  ∃ out, predict_on_df uid_encoder iid_encoder predict df = Ok out.
Proof.
  induction 1 as [|r df [[u Hu] [i Hi]] _ [out IH]].
  - by exists [].
  - exists (FlatRow (src r) (tgt r) (predict u i) :: out).
    apply predict_on_df_Ok. constructor.
    + cbn. unfold pointwise_prediction. by rewrite Hu, Hi.
    + by apply predict_on_df_Ok.
Qed.

End cascade_facts.

(** C4. What a [CascadeEnsemble] returns has exactly the rows the first
    member proposed, in their order, and the score of each is the second
    member's pointwise prediction for that pair; the first member's scores
    have no part in it, since any frame with the same pairs gives the same
    result. *)
Theorem cascade_scores_from_second_stage
    (uid_encoder iid_encoder : string → option nat) (predict : nat → nat → Q)
    (first : list string → list string → nat → result (list flat_row))
    (user_ids item_ids : list string) (n_rec_unfilt : nat) (out : list flat_row) :
  cascade_get_recommendations_flat_unfilt uid_encoder iid_encoder predict first
    user_ids item_ids n_rec_unfilt = Ok out →
  ∃ recos_df,
    first user_ids item_ids n_rec_unfilt = Ok recos_df
    ∧ Forall2 (λ r o, src o = src r ∧ tgt o = tgt r
                      ∧ pointwise_prediction uid_encoder iid_encoder predict
                          (src r) (tgt r) = Some (score o)) recos_df out
    ∧ ∀ recos_df',
        (λ r, (src r, tgt r)) <$> recos_df' = (λ r, (src r, tgt r)) <$> recos_df →
        predict_on_df uid_encoder iid_encoder predict recos_df' = Ok out.
Proof.
  unfold cascade_get_recommendations_flat_unfilt. intros Hout.
  destruct (first user_ids item_ids n_rec_unfilt) as [recos_df|e]; [|done].
  cbn [mbind result_bind] in Hout. exists recos_df. split; [done|]. split.
  - by apply predict_on_df_Ok.
  - intros recos_df' Hpairs. by rewrite (predict_on_df_pairs _ _ _ _ _ Hpairs).
Qed.

(** C4 at the two example members. *)
Lemma cascade_scores_from_second_stage_witness :
  ∃ recos_df,
    first_stage ["u1"] [] 2 = Ok recos_df
    ∧ Forall2 (λ r o, src o = src r ∧ tgt o = tgt r
                      ∧ pointwise_prediction second_uid second_iid second_predict
                          (src r) (tgt r) = Some (score o))
        recos_df [FlatRow "u1" "a" (0 # 1); FlatRow "u1" "b" (1 # 1)]
    ∧ ∀ recos_df',
        (λ r, (src r, tgt r)) <$> recos_df' = (λ r, (src r, tgt r)) <$> recos_df →
        predict_on_df second_uid second_iid second_predict recos_df'
        = Ok [FlatRow "u1" "a" (0 # 1); FlatRow "u1" "b" (1 # 1)].
Proof.
  apply (cascade_scores_from_second_stage second_uid second_iid second_predict
           first_stage ["u1"] [] 2).
  vm_compute. reflexivity.
Defined.

(** *** Rank fusion: the rows and the ranks of the merged frame *)

Lemma elem_of_rank_frame (df : list flat_row) (x : rank_row) :
  x ∈ rank_frame df ↔
  ∃ r, r ∈ df ∧ x = RankRow (src r) (tgt r) (rank_desc df r).
Proof.
  unfold rank_frame. rewrite list_elem_of_fmap. split; intros (r & ? & ?); eauto.
Qed.

Lemma elem_of_outer_merge n_cols left right m :
  m ∈ outer_merge n_cols left right ↔
  (∃ l, l ∈ left
        ∧ ((m = with_rank l None ∧ ∀ x, x ∈ right → ¬ same_key l x)
           ∨ ∃ x, x ∈ right ∧ same_key l x ∧ m = with_rank l (Some (rk_rank x))))
  ∨ (∃ x, x ∈ right ∧ m = right_only n_cols x ∧ ∀ l, l ∈ left → ¬ same_key l x).
Proof.
  unfold outer_merge. rewrite elem_of_app, list_elem_of_bind, list_elem_of_fmap.
  match goal with
  | |- ?A ∨ ?B ↔ ?A' ∨ ?B' => cut ((A ↔ A') ∧ (B ↔ B')); [tauto|split]
  end.
  - split.
    + intros (l & Hm & Hl). exists l. split; [done|].
      destruct (filter (same_key l) right) as [|x0 xs] eqn:Hf.
      * left. apply list_elem_of_singleton in Hm. split; [done|].
        intros x Hx Hkey.
        assert (x ∈ filter (same_key l) right) as Hin by (by apply list_elem_of_filter).
        rewrite Hf in Hin. by apply elem_of_nil in Hin.
      * right. apply list_elem_of_fmap in Hm as (x & -> & Hx).
        rewrite <- Hf in Hx. apply list_elem_of_filter in Hx as [Hkey Hx]. eauto.
    + intros (l & Hl & Hcase). exists l. split; [|done].
      destruct (filter (same_key l) right) as [|x0 xs] eqn:Hf.
      * destruct Hcase as [[-> _]|(x & Hx & Hkey & _)]; [by left|].
        assert (x ∈ filter (same_key l) right) as Hin by (by apply list_elem_of_filter).
        rewrite Hf in Hin. by apply elem_of_nil in Hin.
      * destruct Hcase as [[_ Hno]|(x & Hx & Hkey & ->)].
        -- assert (x0 ∈ filter (same_key l) right) as Hin by (rewrite Hf; by left).
           apply list_elem_of_filter in Hin as [Hkey Hin]. by destruct (Hno x0).
        -- apply list_elem_of_fmap. exists x. split; [done|].
           rewrite <- Hf. by apply list_elem_of_filter.
  - split.
    + intros (x & -> & Hx). apply list_elem_of_filter in Hx as [Hall Hx].
      exists x. repeat split; try done. intros l Hl.
      by apply (proj1 (Forall_forall _ _) Hall).
    + intros (x & Hx & -> & Hall). exists x. split; [done|].
      apply list_elem_of_filter. split; [|done]. by apply Forall_forall.
Qed.

Lemma merged_inv_nil : merged_inv [] [].
Proof.
  split.
  - intros m Hm. by apply elem_of_nil in Hm.
  - intros g i. split.
    + intros (m & Hm & _). by apply elem_of_nil in Hm.
    + intros (df & Hdf & _). by apply elem_of_nil in Hdf.
  - intros m k df Hm. by apply elem_of_nil in Hm.
  - intros m k df Hm. by apply elem_of_nil in Hm.
Qed.

Lemma with_rank_lookup_old l o k :
  k < length (m_ranks l) → m_ranks (with_rank l o) !! k = m_ranks l !! k.
Proof. intros Hk. simpl. by rewrite lookup_app_l. Qed.

Lemma with_rank_lookup_new l o :
  m_ranks (with_rank l o) !! length (m_ranks l) = Some o.
Proof. simpl. by rewrite list_lookup_middle. Qed.

Lemma right_only_lookup_old n_cols x k :
  k < n_cols → m_ranks (right_only n_cols x) !! k = Some None.
Proof.
  intros Hk. simpl. rewrite lookup_app_l by (by rewrite length_replicate).
  by apply lookup_replicate_2.
Qed.

Lemma right_only_lookup_new n_cols x :
  m_ranks (right_only n_cols x) !! n_cols = Some (Some (rk_rank x)).
Proof. simpl. rewrite list_lookup_middle; [done|]. by rewrite length_replicate. Qed.

Lemma lookup_snoc_cases {A} (l : list A) (a b : A) (k : nat) :
  (l ++ [a])%list !! k = Some b →
  (k < length l ∧ l !! k = Some b) ∨ (k = length l ∧ b = a).
Proof.
  intros Hk. destruct (decide (k < length l)) as [Hlt|Hge].
  - left. split; [done|]. by rewrite lookup_app_l in Hk.
  - right. rewrite lookup_app_r in Hk by lia.
    destruct (k - length l) as [|j] eqn:Hj; simpl in Hk; [|done].
    injection Hk as <-. split; [lia|done].
Qed.

Lemma rank_frame_key (df : list flat_row) x :
  x ∈ rank_frame df →
  ∃ r, r ∈ df ∧ src r = rk_group x ∧ tgt r = rk_item x ∧ rk_rank x = rank_desc df r.
Proof. intros Hx. apply elem_of_rank_frame in Hx as (r & Hr & ->). eauto. Qed.

Lemma has_key_rank_frame (df : list flat_row) g i :
  has_key df g i → ∃ x, x ∈ rank_frame df ∧ rk_group x = g ∧ rk_item x = i.
Proof.
  intros (r & Hr & <- & <-). exists (RankRow (src r) (tgt r) (rank_desc df r)).
  split; [|done]. apply elem_of_rank_frame. eauto.
Qed.

(** One more member keeps the invariant. *)
Lemma outer_merge_inv done merged (df : list flat_row) :
  merged_inv done merged →
  merged_inv (done ++ [df])%list (outer_merge (length done) merged (rank_frame df)).
Proof.
  intros [Hlen Hkeys Hmiss Hpres]. split.
  - intros m Hm. rewrite length_app. simpl.
    apply elem_of_outer_merge in Hm
      as [(l & Hl & [[-> _]|(x & _ & _ & ->)])|(x & _ & -> & _)]; simpl;
      rewrite length_app; simpl; rewrite ?length_replicate, ?(Hlen l Hl); done.
  - intros g i. split.
    + intros (m & Hm & Hg & Hi).
      apply elem_of_outer_merge in Hm
        as [(l & Hl & Hcase)|(x & Hx & -> & _)].
      * assert (m_group l = g ∧ m_item l = i) as [Hg' Hi']
          by (destruct Hcase as [[-> _]|(x & _ & _ & ->)]; done).
        destruct (proj1 (Hkeys g i)) as (df0 & Hdf0 & Hkey); [by eauto|].
        exists df0. split; [|done]. apply elem_of_app. by left.
      * exists df. split; [apply elem_of_app; right; by left|].
        apply rank_frame_key in Hx as (r & Hr & Hs & Ht & _).
        exists r. simpl in *. by subst.
    + intros (df0 & Hdf0 & Hkey). apply elem_of_app in Hdf0 as [Hdf0|Hdf0].
      * destruct (proj2 (Hkeys g i)) as (l & Hl & Hg & Hi); [by eauto|].
        destruct (decide (Exists (same_key l) (rank_frame df))) as [Hex|Hno].
        -- apply Exists_exists in Hex as (x & Hx & Hsame).
           exists (with_rank l (Some (rk_rank x))). split; [|done].
           apply elem_of_outer_merge. left. exists l. split; [done|]. right. eauto.
        -- exists (with_rank l None). split; [|done].
           apply elem_of_outer_merge. left. exists l. split; [done|]. left.
           split; [done|]. intros x Hx Hsame. apply Hno, Exists_exists. eauto.
      * apply list_elem_of_singleton in Hdf0 as ->.
        apply has_key_rank_frame in Hkey as (x & Hx & Hg & Hi).
        destruct (decide (Exists (λ l, same_key l x) merged)) as [Hex|Hno].
        -- apply Exists_exists in Hex as (l & Hl & Hsame).
           exists (with_rank l (Some (rk_rank x))). split.
           ++ apply elem_of_outer_merge. left. exists l. split; [done|]. right. eauto.
           ++ destruct Hsame as [Hsg Hsi]. simpl. by rewrite Hsg, Hsi.
        -- exists (right_only (length done) x). split; [|done].
           apply elem_of_outer_merge. right. exists x. repeat split; try done.
           intros l Hl Hsame. apply Hno, Exists_exists. eauto.
  - intros m k df0 Hm Hk Hnokey.
    apply elem_of_outer_merge in Hm as [(l & Hl & Hcase)|(x & Hx & -> & _)].
    + assert (m_group m = m_group l ∧ m_item m = m_item l) as [Hg Hi]
        by (destruct Hcase as [[-> _]|(x & _ & _ & ->)]; done).
      rewrite Hg, Hi in Hnokey.
      apply lookup_snoc_cases in Hk as [[Hlt Hk]|[-> ->]].
      * assert (m_ranks m !! k = m_ranks l !! k) as ->.
        { destruct Hcase as [[-> _]|(x & _ & _ & ->)];
            apply with_rank_lookup_old; by rewrite (Hlen l Hl). }
        by apply (Hmiss l k df0).
      * rewrite <- (Hlen l Hl).
        destruct Hcase as [[-> _]|(x & Hx & [Hsg Hsi] & ->)];
          [apply with_rank_lookup_new|].
        destruct Hnokey. apply rank_frame_key in Hx as (r & Hr & Hs & Ht & _).
        exists r. by rewrite Hsg, Hsi.
    + apply lookup_snoc_cases in Hk as [[Hlt Hk]|[-> ->]].
      * by apply right_only_lookup_old.
      * destruct Hnokey. apply rank_frame_key in Hx as (r & Hr & Hs & Ht & _).
        by exists r.
  - intros m k df0 Hm Hk Hkey.
    apply elem_of_outer_merge in Hm as [(l & Hl & Hcase)|(x & Hx & -> & Hnol)].
    + assert (m_group m = m_group l ∧ m_item m = m_item l) as [Hg Hi]
        by (destruct Hcase as [[-> _]|(x & _ & _ & ->)]; done).
      rewrite Hg, Hi in *.
      apply lookup_snoc_cases in Hk as [[Hlt Hk]|[-> ->]].
      * assert (m_ranks m !! k = m_ranks l !! k) as ->.
        { destruct Hcase as [[-> _]|(x & _ & _ & ->)];
            apply with_rank_lookup_old; by rewrite (Hlen l Hl). }
        by apply (Hpres l k df0).
      * rewrite <- (Hlen l Hl).
        destruct Hcase as [[-> Hno]|(x & Hx & [Hsg Hsi] & ->)].
        -- apply has_key_rank_frame in Hkey as (x & Hx & Hxg & Hxi).
           by destruct (Hno x Hx).
        -- rewrite with_rank_lookup_new.
           apply rank_frame_key in Hx as (r & Hr & Hs & Ht & ->).
           exists r. by rewrite Hsg, Hsi.
    + apply lookup_snoc_cases in Hk as [[Hlt Hk]|[-> ->]].
      * destruct (proj2 (Hkeys (rk_group x) (rk_item x))) as (l & Hl & Hg & Hi).
        { exists df0. split; [|done]. by eapply list_elem_of_lookup_2. }
        by destruct (Hnol l Hl).
      * rewrite right_only_lookup_new.
        apply rank_frame_key in Hx as (r & Hr & Hs & Ht & ->). by exists r.
Qed.

Lemma outer_merge_first (right : list rank_row) :
  outer_merge 0 [] right = right_only 0 <$> right.
Proof.
  unfold outer_merge. simpl. f_equal.
  induction right as [|x right IH]; [done|].
  rewrite filter_cons_True by constructor. by rewrite IH.
Qed.

Lemma merge_members_Some dfs done merged :
  merged_inv done merged →
  ∃ merged', merge_members (length done) (Some merged) dfs = Some merged'
             ∧ merged_inv (done ++ dfs)%list merged'.
Proof.
  revert done merged. induction dfs as [|df dfs IH]; intros done merged Hinv.
  - exists merged. by rewrite app_nil_r.
  - cbn [merge_members].
    destruct (IH (done ++ [df])%list _ (outer_merge_inv done merged df Hinv))
      as (merged' & Hrun & Hinv').
    exists merged'. rewrite length_app in Hrun. simpl in Hrun.
    replace (length done + 1) with (S (length done)) in Hrun by lia.
    split; [done|]. by rewrite <- app_assoc in Hinv'.
Qed.

(** The loop returns a merged frame for any members, one at least, and the
    invariant holds of it; with no member [merged_df] stays [None]. *)
Lemma merge_members_spec (frames : list (list flat_row)) :
  frames ≠ [] →
  ∃ merged, merge_members 0 None frames = Some merged ∧ merged_inv frames merged.
Proof.
  destruct frames as [|df dfs]; [done|]. intros _.
  cbn [merge_members]. rewrite <- outer_merge_first.
  pose proof (outer_merge_inv [] [] df merged_inv_nil) as Hinv.
  apply (merge_members_Some dfs) in Hinv. simpl in Hinv. done.
Qed.

Lemma member_frames_Ok (calc_funcs : list (unit → list flat_row)) multithreaded :
  calc_funcs ≠ [] →
  member_frames calc_funcs multithreaded = Ok ((λ f, f ()) <$> calc_funcs).
Proof.
  intros Hne. unfold member_frames. destruct multithreaded.
  - rewrite decide_False by done. cbn [mbind result_bind]. f_equal.
    apply (imap_read_back (λ f, f ()) [] calc_funcs).
  - cbn [mbind result_bind]. f_equal.
    apply list_eq. intros i. rewrite list_lookup_imap, list_lookup_fmap.
    by destruct (calc_funcs !! i).
Qed.

Lemma member_frames_nil multithreaded out :
  member_frames [] multithreaded = Ok out → out = [].
Proof.
  unfold member_frames. destruct multithreaded.
  - by rewrite decide_True.
  - cbn. by intros [= <-].
Qed.

Lemma calc_dfs_and_combine_scores_Ok calc_funcs combine_func fill_val multithreaded out :
  calc_dfs_and_combine_scores calc_funcs combine_func fill_val multithreaded = Ok out →
  calc_funcs ≠ []
  ∧ fused_with_fill fill_val ((λ f, f ()) <$> calc_funcs) combine_func out.
Proof.
  unfold calc_dfs_and_combine_scores. intros Hout.
  destruct (decide (calc_funcs = [])) as [->|Hne].
  { destruct (member_frames [] multithreaded) as [frames|e] eqn:Hf; [|done].
    apply member_frames_nil in Hf as ->. done. }
  split; [done|]. rewrite (member_frames_Ok _ _ Hne) in Hout.
  cbn [mbind result_bind] in Hout.
  set (frames := (λ f, f ()) <$> calc_funcs) in *.
  destruct (merge_members_spec frames) as (merged & Hrun & [Hlen Hkeys Hmiss Hpres]).
  { subst frames. intros Hnil. by apply fmap_nil_inv in Hnil. }
  rewrite Hrun in Hout. injection Hout as <-. split.
  - intros g i. rewrite <- Hkeys. split.
    + intros (o & Ho & Hg & Hi). apply list_elem_of_fmap in Ho as (m & -> & Hm). eauto.
    + intros (m & Hm & Hg & Hi). eexists. split; [by apply list_elem_of_fmap_2|done].
  - intros o Ho. apply list_elem_of_fmap in Ho as (m & -> & Hm). simpl.
    exists (fillna fill_val (m_ranks m)). unfold fillna.
    split; [by rewrite length_fmap, (Hlen m Hm)|]. split; [done|].
    intros k df Hk. split.
    + intros Hno. rewrite !list_lookup_fmap, (Hmiss m k df Hm Hk Hno). done.
    + intros Hkey. destruct (Hpres m k df Hm Hk Hkey) as (r & Hr & Hs & Ht & Hrank).
      exists r. by rewrite list_lookup_fmap, Hrank.
Qed.

(** The result does not depend on the use of the thread pool. *)
Lemma calc_dfs_and_combine_scores_pool calc_funcs combine_func fill_val mt mt' :
  calc_funcs ≠ [] →
  calc_dfs_and_combine_scores calc_funcs combine_func fill_val mt
  = calc_dfs_and_combine_scores calc_funcs combine_func fill_val mt'.
Proof.
  intros Hne. unfold calc_dfs_and_combine_scores.
  by rewrite !(member_frames_Ok _ _ Hne).
Qed.

(** With a member at least, the call returns a frame. *)
Lemma calc_dfs_and_combine_scores_returns calc_funcs combine_func fill_val mt :
  calc_funcs ≠ [] →
  ∃ out, calc_dfs_and_combine_scores calc_funcs combine_func fill_val mt = Ok out.
Proof.
  intros Hne. unfold calc_dfs_and_combine_scores.
  rewrite (member_frames_Ok _ _ Hne). cbn [mbind result_bind].
  destruct (merge_members_spec ((λ f, f ()) <$> calc_funcs)) as (merged & -> & _).
  { intros Hnil. by apply fmap_nil_inv in Hnil. }
  eauto.
Qed.

(** *** Rank fusion: the fill rank of a [CombinedRankEnsemble] *)

Section rank_fusion_facts.

Variable gmean : list Q → Q.

Lemma rank_calc_funcs_frames self user_ids item_ids n_rec_unfilt :
  (λ f, f ()) <$> rank_calc_funcs self user_ids item_ids n_rec_unfilt
  = rank_member_frames self user_ids item_ids n_rec_unfilt.
Proof. unfold rank_calc_funcs, rank_member_frames. by rewrite <- list_fmap_compose. Qed.

(** What a successful call of the ensemble returns. *)
Lemma rank_fusion_fill_rank_aux (self : rank_ensemble)
    (user_ids item_ids : list string) (n_rec_unfilt : nat) (out : list flat_row) :
  rank_get_recommendations_flat_unfilt gmean self user_ids item_ids n_rec_unfilt
  = Ok out →
  ∃ combine_func,
    rank_combination_function gmean (rank_combination_mode self) = Ok combine_func
    ∧ fused_with_fill (fill_val_of (fill_na_val self) n_rec_unfilt)
        (rank_member_frames self user_ids item_ids n_rec_unfilt) combine_func out.
Proof.
  unfold rank_get_recommendations_flat_unfilt. intros Hout.
  destruct (rank_combination_function gmean _) as [combine_func|e]; [|done].
  cbn [mbind result_bind] in Hout. exists combine_func. split; [done|].
  destruct (calc_dfs_and_combine_scores_Ok _ _ _ _ _ Hout) as [Hne Hfused].
  by rewrite rank_calc_funcs_frames in Hfused.
Qed.

(** C2, as amended. The fused frame of a [CombinedRankEnsemble] is the same
    with and without the thread pool; its pairs are exactly the pairs of the
    member frames; and a member without a pair enters the pair's fused score
    with the fill rank (and its reciprocal), never with nothing or zero. The
    fill rank is the configured [fill_na_val] when that is set and not zero,
    and [n_rec_unfilt + 1] otherwise. *)
Theorem rank_fusion_fill_rank (self : rank_ensemble)
    (user_ids item_ids : list string) (n_rec_unfilt : nat) (out : list flat_row) :
  rank_get_recommendations_flat_unfilt gmean self user_ids item_ids n_rec_unfilt
  = Ok out →
  ∃ combine_func,
    rank_combination_function gmean (rank_combination_mode self) = Ok combine_func
    ∧ (∀ multithreaded,
         calc_dfs_and_combine_scores
           (rank_calc_funcs self user_ids item_ids n_rec_unfilt) combine_func
           (fill_val_of (fill_na_val self) n_rec_unfilt) multithreaded = Ok out)
    ∧ fused_with_fill (fill_val_of (fill_na_val self) n_rec_unfilt)
        (rank_member_frames self user_ids item_ids n_rec_unfilt) combine_func out
    ∧ (fill_na_val self = None →
       fill_val_of (fill_na_val self) n_rec_unfilt
       = inject_Z (Z.of_nat (n_rec_unfilt + 1)))
    ∧ (∀ v, fill_na_val self = Some v →
         fill_val_of (fill_na_val self) n_rec_unfilt
         = if decide (v == 0)%Q then inject_Z (Z.of_nat (n_rec_unfilt + 1)) else v).
Proof.
  unfold rank_get_recommendations_flat_unfilt. intros Hout.
  destruct (rank_combination_function gmean _) as [combine_func|e]; [|done].
  cbn [mbind result_bind] in Hout. exists combine_func. split; [done|].
  destruct (calc_dfs_and_combine_scores_Ok _ _ _ _ _ Hout) as [Hne Hfused].
  rewrite rank_calc_funcs_frames in Hfused.
  split; [|split; [done|split]].
  - intros mt. by rewrite (calc_dfs_and_combine_scores_pool _ _ _ mt false).
  - by intros ->.
  - by intros v ->.
Qed.

(** With the default configuration, which sets no [fill_na_val], the fill
    rank is [n_rec_unfilt + 1], as the specification has it. *)
Lemma default_fills_with_window_plus_one self user_ids item_ids n_rec_unfilt :
  fill_na_val self = None →
  fills_with_window_plus_one gmean self user_ids item_ids n_rec_unfilt.
Proof.
  intros Hdefault out Hout.
  destruct (rank_fusion_fill_rank_aux self user_ids item_ids n_rec_unfilt out Hout)
    as (combine_func & Hmode & Hfused).
  exists combine_func. split; [done|]. by rewrite Hdefault in Hfused.
Qed.

End rank_fusion_facts.

(** With the window 10 and no configured fill value, [a] (first for one
    member, unknown to the other) scores the mean of 1 and 1/11. *)
Example fused_pair_default :
  rank_get_recommendations_flat_unfilt no_gmean (fused_pair None) ["u"] [] 10
  = Ok [FlatRow "u" "a" (24 # 44); FlatRow "u" "b" (18 # 40);
        FlatRow "u" "c" (27 # 110); FlatRow "u" "d" (24 # 44)].
Proof. vm_compute. reflexivity. Qed.

(** With the fill value configured as 5 it scores the mean of 1 and 1/5. *)
Example fused_pair_configured :
  rank_get_recommendations_flat_unfilt no_gmean (fused_pair (Some 5%Q)) ["u"] [] 10
  = Ok [FlatRow "u" "a" (12 # 20); FlatRow "u" "b" (18 # 40);
        FlatRow "u" "c" (15 # 50); FlatRow "u" "d" (12 # 20)].
Proof. vm_compute. reflexivity. Qed.

(** C2, as amended, at the ensemble with the fill value 5. *)
Lemma rank_fusion_fill_rank_witness :
  ∃ combine_func,
    rank_combination_function no_gmean (rank_combination_mode (fused_pair (Some 5%Q)))
    = Ok combine_func
    ∧ (∀ multithreaded,
         calc_dfs_and_combine_scores
           (rank_calc_funcs (fused_pair (Some 5%Q)) ["u"] [] 10) combine_func
           (fill_val_of (fill_na_val (fused_pair (Some 5%Q))) 10) multithreaded
         = Ok [FlatRow "u" "a" (12 # 20); FlatRow "u" "b" (18 # 40);
               FlatRow "u" "c" (15 # 50); FlatRow "u" "d" (12 # 20)])
    ∧ fused_with_fill (fill_val_of (fill_na_val (fused_pair (Some 5%Q))) 10)
        (rank_member_frames (fused_pair (Some 5%Q)) ["u"] [] 10) combine_func
        [FlatRow "u" "a" (12 # 20); FlatRow "u" "b" (18 # 40);
         FlatRow "u" "c" (15 # 50); FlatRow "u" "d" (12 # 20)]
    ∧ (fill_na_val (fused_pair (Some 5%Q)) = None →
       fill_val_of (fill_na_val (fused_pair (Some 5%Q))) 10
       = inject_Z (Z.of_nat (10 + 1)))
    ∧ (∀ v, fill_na_val (fused_pair (Some 5%Q)) = Some v →
         fill_val_of (fill_na_val (fused_pair (Some 5%Q))) 10
         = if decide (v == 0)%Q then inject_Z (Z.of_nat (10 + 1)) else v).
Proof.
  apply (rank_fusion_fill_rank no_gmean (fused_pair (Some 5%Q)) ["u"] [] 10).
  vm_compute. reflexivity.
Defined.

(** C2 as the specification words it fails for an ensemble whose fill value
    is configured:
    with [fill_na_val = 5] and the window 10, the member that does not know
    [a] enters its score with rank 5, not 11. *)
Lemma configured_fill_is_not_window_plus_one :
  ¬ fills_with_window_plus_one no_gmean (fused_pair (Some 5%Q)) ["u"] [] 10.
Proof.
  intros Hclaim.
  destruct (Hclaim _ fused_pair_configured) as (combine_func & Hmode & _ & Hscores).
  injection Hmode as <-.
  destruct (Hscores (FlatRow "u" "a" (12 # 20))) as (ranks & Hlen & Hscore & Hranks);
    [by left|].
  destruct (Hranks 0 (likes_abc ["u"] [] 10) eq_refl) as [_ Hfirst].
  destruct (Hranks 1 (likes_bd ["u"] [] 10) eq_refl) as [Hsecond _].
  destruct Hfirst as (r & Hr & _ & Ht & Hr0).
  { exists (FlatRow "u" "a" 3). split; [by left|done]. }
  destruct Hsecond as [Hr1 _].
  { intros (r' & Hr' & _ & Ht'). simpl in Ht'.
    repeat (apply elem_of_cons in Hr' as [->|Hr']; [discriminate|]).
    by apply elem_of_nil in Hr'. }
  simpl in Ht.
  apply elem_of_cons in Hr as [->|Hr];
    [|repeat (apply elem_of_cons in Hr as [->|Hr]; [discriminate|]);
      by apply elem_of_nil in Hr].
  destruct ranks as [|x [|y [|z ranks]]]; try discriminate.
  injection Hr0 as ->. injection Hr1 as ->.
  vm_compute in Hscore. discriminate.
Qed.

(** The default fill rank at the example ensemble. *)
Lemma default_fills_with_window_plus_one_witness :
  fills_with_window_plus_one no_gmean (fused_pair None) ["u"] [] 10.
Proof.
  apply (default_fills_with_window_plus_one no_gmean (fused_pair None) ["u"] [] 10).
  reflexivity.
Defined.

(** *** Rank fusion: the combination modes *)

Lemma rank_desc_pos (df : list flat_row) (r : flat_row) : (0 < rank_desc df r)%Q.
Proof.
  unfold rank_desc.
  set (b := length _). set (t := length _).
  assert (∀ qb qt : Q, 0 <= qb → 0 <= qt → 0 < qb + (qt + 1) / 2)%Q as Hpos
    by (intros; unfold Qdiv; change (/ 2)%Q with (1 # 2)%Q; lra).
  apply Hpos; change 0%Q with (inject_Z 0); rewrite <- Zle_Qle; lia.
Qed.

#[export] Instance has_key_dec (df : list flat_row) (g i : string) :
  Decision (has_key df g i).
Proof.
  destruct (decide (Exists (λ r, src r = g ∧ tgt r = i) df)) as [H|H].
  - left. apply Exists_exists in H as (r & ? & ? & ?). by exists r.
  - right. intros (r & ? & ? & ?). apply H, Exists_exists. by exists r.
Defined.

Lemma member_ranks_pos fill frames o ranks :
  (0 < fill)%Q → member_ranks fill frames o ranks → Forall (Qlt 0) ranks.
Proof.
  intros Hfill [Hlen Hranks]. apply Forall_forall. intros x Hx.
  apply list_elem_of_lookup in Hx as [k Hk].
  assert (k < length frames) as Hlt by (rewrite <- Hlen; by eapply lookup_lt_Some).
  apply lookup_lt_is_Some in Hlt as [df Hdf].
  destruct (Hranks k df Hdf) as [Hno Hyes].
  destruct (decide (has_key df (src o) (tgt o))) as [Hkey|Hkey].
  - destruct (Hyes Hkey) as (r & _ & _ & _ & Hr). rewrite Hk in Hr.
    injection Hr as ->. apply rank_desc_pos.
  - rewrite (Hno Hkey) in Hk. by injection Hk as <-.
Qed.

Lemma fused_member_ranks fill frames combine_func out o :
  fused_with_fill fill frames combine_func out → o ∈ out →
  ∃ ranks, member_ranks fill frames o ranks
           ∧ score o = combine_func (Qinv <$> ranks).
Proof.
  intros [_ Hscores] Ho. destruct (Hscores o Ho) as (ranks & Hlen & Hscore & Hranks).
  exists ranks. split; [|done]. split; [done|].
  intros k df Hdf. destruct (Hranks k df Hdf) as [Hno Hyes]. split; [|done].
  intros Hkey. by destruct (Hno Hkey).
Qed.

Lemma Qsum_inv_inv (xs : list Q) : (Qsum (Qinv <$> (Qinv <$> xs)) == Qsum xs)%Q.
Proof.
  induction xs as [|x xs IH]; [done|].
  cbn. by rewrite IH, Qinv_involutive.
Qed.

Lemma hmean_inv (xs : list Q) : (hmean (Qinv <$> xs) == Qlen xs / Qsum xs)%Q.
Proof.
  unfold hmean, Qlen. by rewrite Qsum_inv_inv, length_fmap.
Qed.

Lemma Qinv_le_contravar (a b : Q) : (0 < a)%Q → (a <= b)%Q → (/ b <= / a)%Q.
Proof.
  intros Ha Hab. destruct (Qeq_dec a b) as [Heq|Hne].
  - rewrite Heq. apply Qle_refl.
  - assert (0 < b)%Q as Hb by (by eapply Qlt_le_trans).
    apply Qlt_le_weak, (proj1 (Qinv_lt_contravar a b Ha Hb)).
    apply Qle_lteq in Hab as [?|?]; [done|by destruct Hne].
Qed.

Lemma Qmax_inv (a b : Q) : (0 < a)%Q → (0 < b)%Q → (Qmax (/ a) (/ b) == / Qmin a b)%Q.
Proof.
  intros Ha Hb. destruct (Q.min_spec_le a b) as [[Hle ->]|[Hle ->]].
  - apply Q.max_l. by apply Qinv_le_contravar.
  - apply Q.max_r. by apply Qinv_le_contravar.
Qed.

Lemma Qmin_inv (a b : Q) : (0 < a)%Q → (0 < b)%Q → (Qmin (/ a) (/ b) == / Qmax a b)%Q.
Proof.
  intros Ha Hb. destruct (Q.max_spec_le a b) as [[Hle ->]|[Hle ->]].
  - apply Q.min_r. by apply Qinv_le_contravar.
  - apply Q.min_l. by apply Qinv_le_contravar.
Qed.

Lemma np_max_inv (xs : list Q) :
  Forall (Qlt 0) xs → (np_max (Qinv <$> xs) == / np_min xs)%Q.
Proof.
  destruct xs as [|x xs]; [done|]. intros Hpos.
  apply Forall_cons in Hpos as [Hx Hxs]. cbn [fmap list_fmap np_max np_min].
  assert ((foldr Qmax (/ x) (Qinv <$> xs) == / foldr Qmin x xs)%Q
          ∧ (0 < foldr Qmin x xs)%Q) as [H _]; [|done].
  induction Hxs as [|a xs Ha _ [IH IHpos]]; [done|].
  cbn [fmap list_fmap foldr]. split.
  - change (list_fmap Q Q Qinv xs) with (Qinv <$> xs). rewrite IH. by apply Qmax_inv.
  - destruct (Q.min_spec_le a (foldr Qmin x xs)) as [[_ ->]|[_ ->]]; done.
Qed.

Lemma np_min_inv (xs : list Q) :
  Forall (Qlt 0) xs → (np_min (Qinv <$> xs) == / np_max xs)%Q.
Proof.
  destruct xs as [|x xs]; [done|]. intros Hpos.
  apply Forall_cons in Hpos as [Hx Hxs]. cbn [fmap list_fmap np_max np_min].
  assert ((foldr Qmin (/ x) (Qinv <$> xs) == / foldr Qmax x xs)%Q
          ∧ (0 < foldr Qmax x xs)%Q) as [H _]; [|done].
  induction Hxs as [|a xs Ha _ [IH IHpos]]; [done|].
  cbn [fmap list_fmap foldr]. split.
  - change (list_fmap Q Q Qinv xs) with (Qinv <$> xs). rewrite IH. by apply Qmin_inv.
  - destruct (Q.max_spec_le a (foldr Qmax x xs)) as [[_ ->]|[_ ->]]; done.
Qed.

Section rank_modes.

Variable gmean : list Q → Q.

Lemma rank_combination_function_hmean :
  rank_combination_function gmean "hmean" = Ok hmean.
Proof. reflexivity. Qed.

(** X19. Under the mode [hmean] (the default) and a positive fill rank,
    the fused score of a pair is, in exact arithmetic, the number of members
    over the sum of the pair's ranks, that is the reciprocal of its mean
    rank; all the ranks are positive. *)
Theorem hmean_fuses_by_the_mean_rank (self : rank_ensemble)
    (user_ids item_ids : list string) (n_rec_unfilt : nat) (out : list flat_row)
    (o : flat_row) :
  rank_combination_mode self = "hmean" →
  (0 < fill_val_of (fill_na_val self) n_rec_unfilt)%Q →
  rank_get_recommendations_flat_unfilt gmean self user_ids item_ids n_rec_unfilt
  = Ok out →
  o ∈ out →
  ∃ ranks,
    member_ranks (fill_val_of (fill_na_val self) n_rec_unfilt)
      (rank_member_frames self user_ids item_ids n_rec_unfilt) o ranks
    ∧ Forall (Qlt 0) ranks
    ∧ (score o == Qlen ranks / Qsum ranks)%Q.
Proof.
  intros Hmode Hfill Hout Ho.
  destruct (rank_fusion_fill_rank_aux gmean self user_ids item_ids n_rec_unfilt out Hout)
    as (combine_func & Hcombine & Hfused).
  rewrite Hmode in Hcombine. injection Hcombine as <-.
  destruct (fused_member_ranks _ _ _ _ _ Hfused Ho) as (ranks & Hranks & Hscore).
  exists ranks. split; [done|]. split; [by eapply member_ranks_pos|].
  rewrite Hscore. apply hmean_inv.
Qed.

(** X20. Under a positive fill rank, the mode [max] scores a pair by the
    reciprocal of its best (smallest) rank among the members, and the mode
    [min] by the reciprocal of its worst. *)
Theorem max_and_min_fuse_by_the_extreme_ranks (self : rank_ensemble)
    (user_ids item_ids : list string) (n_rec_unfilt : nat) (out : list flat_row)
    (o : flat_row) :
  (0 < fill_val_of (fill_na_val self) n_rec_unfilt)%Q →
  rank_get_recommendations_flat_unfilt gmean self user_ids item_ids n_rec_unfilt
  = Ok out →
  o ∈ out →
  ∃ ranks,
    member_ranks (fill_val_of (fill_na_val self) n_rec_unfilt)
      (rank_member_frames self user_ids item_ids n_rec_unfilt) o ranks
    ∧ Forall (Qlt 0) ranks
    ∧ (rank_combination_mode self = "max" → (score o == / np_min ranks)%Q)
    ∧ (rank_combination_mode self = "min" → (score o == / np_max ranks)%Q).
Proof.
  intros Hfill Hout Ho.
  destruct (rank_fusion_fill_rank_aux gmean self user_ids item_ids n_rec_unfilt out Hout)
    as (combine_func & Hcombine & Hfused).
  destruct (fused_member_ranks _ _ _ _ _ Hfused Ho) as (ranks & Hranks & Hscore).
  pose proof (member_ranks_pos _ _ _ _ Hfill Hranks) as Hpos.
  exists ranks. split; [done|]. split; [done|]. split; intros Hmode;
    rewrite Hmode in Hcombine; injection Hcombine as <-; rewrite Hscore.
  - by apply np_max_inv.
  - by apply np_min_inv.
Qed.

End rank_modes.

Example fused_pair_hmean :
  rank_get_recommendations_flat_unfilt no_gmean (fused_pair_by "hmean") ["u"] [] 10
  = Ok [FlatRow "u" "a" (4 # 24); FlatRow "u" "b" (8 # 18);
        FlatRow "u" "c" (4 # 27); FlatRow "u" "d" (4 # 24)].
Proof. vm_compute. reflexivity. Qed.

Example fused_pair_max :
  rank_get_recommendations_flat_unfilt no_gmean (fused_pair_by "max") ["u"] [] 10
  = Ok [FlatRow "u" "a" (2 # 2); FlatRow "u" "b" (2 # 4);
        FlatRow "u" "c" (2 # 5); FlatRow "u" "d" (2 # 2)].
Proof. vm_compute. reflexivity. Qed.

(** X19 at the example ensemble. *)
Lemma hmean_fuses_by_the_mean_rank_witness :
  ∃ ranks,
    member_ranks (fill_val_of (fill_na_val (fused_pair_by "hmean")) 10)
      (rank_member_frames (fused_pair_by "hmean") ["u"] [] 10)
      (FlatRow "u" "b" (8 # 18)) ranks
    ∧ Forall (Qlt 0) ranks
    ∧ (score (FlatRow "u" "b" (8 # 18)) == Qlen ranks / Qsum ranks)%Q.
Proof.
  apply (hmean_fuses_by_the_mean_rank no_gmean (fused_pair_by "hmean") ["u"] [] 10
           [FlatRow "u" "a" (4 # 24); FlatRow "u" "b" (8 # 18);
            FlatRow "u" "c" (4 # 27); FlatRow "u" "d" (4 # 24)]).
  - reflexivity.
  - reflexivity.
  - vm_compute. reflexivity.
  - apply list_elem_of_further, list_elem_of_here.
Defined.

(** X20 at the example ensemble. *)
Lemma max_and_min_fuse_by_the_extreme_ranks_witness :
  ∃ ranks,
    member_ranks (fill_val_of (fill_na_val (fused_pair_by "max")) 10)
      (rank_member_frames (fused_pair_by "max") ["u"] [] 10)
      (FlatRow "u" "c" (2 # 5)) ranks
    ∧ Forall (Qlt 0) ranks
    ∧ (rank_combination_mode (fused_pair_by "max") = "max" →
       (score (FlatRow "u" "c" (2 # 5)) == / np_min ranks)%Q)
    ∧ (rank_combination_mode (fused_pair_by "max") = "min" →
       (score (FlatRow "u" "c" (2 # 5)) == / np_max ranks)%Q).
Proof.
  apply (max_and_min_fuse_by_the_extreme_ranks no_gmean (fused_pair_by "max") ["u"] [] 10
           [FlatRow "u" "a" (2 # 2); FlatRow "u" "b" (2 # 4);
            FlatRow "u" "c" (2 # 5); FlatRow "u" "d" (2 # 2)]).
  - reflexivity.
  - vm_compute. reflexivity.
  - do 2 apply list_elem_of_further. apply list_elem_of_here.
Defined.

(** X21. [calc_dfs_and_combine_scores] returns a frame whenever there is
    a member, with or without the thread pool; with no member it raises:
    [AttributeError] on the merged frame that is still [None], or, with the
    thread pool, the [ValueError] of a pool of no threads. *)
Theorem fusion_needs_a_member (calc_funcs : list (unit → list flat_row))
    (combine_func : list Q → Q) (fill_val : Q) :
  (calc_funcs ≠ [] →
   ∀ multithreaded,
     ∃ out, calc_dfs_and_combine_scores calc_funcs combine_func fill_val multithreaded
            = Ok out)
  ∧ calc_dfs_and_combine_scores [] combine_func fill_val false
    = Raise (AttributeError "'NoneType' object has no attribute 'fillna'")
  ∧ calc_dfs_and_combine_scores [] combine_func fill_val true
    = Raise (ValueError "Number of processes must be at least 1").
Proof.
  split; [|by split].
  intros Hne mt. by apply calc_dfs_and_combine_scores_returns.
Qed.

(** *** Rank fusion: one row per pair *)

Lemma same_key_keys (m : merged_row) (x : rank_row) : same_key m x ↔ m_key m = rk_key x.
Proof.
  unfold same_key, m_key, rk_key. split; [by intros [-> ->]|by intros [= -> ->]].
Qed.

Lemma filter_NoDup_key (k : string * string) (right : list rank_row) :
  NoDup (rk_key <$> right) → length (filter (λ x, rk_key x = k) right) ≤ 1.
Proof.
  induction right as [|x right IH]; [cbn; lia|].
  rewrite fmap_cons, NoDup_cons. intros [Hnot Hnd].
  rewrite filter_cons. destruct (decide (rk_key x = k)) as [Heq|Hne]; [|by apply IH].
  assert (filter (λ x, rk_key x = k) right = []) as ->; [|cbn; lia].
  destruct (filter (λ x, rk_key x = k) right) as [|y ys] eqn:Hf; [done|].
  assert (y ∈ filter (λ x, rk_key x = k) right) as Hy by (rewrite Hf; by left).
  apply list_elem_of_filter in Hy as [Hk Hy]. destruct Hnot.
  rewrite Heq, <- Hk. by apply list_elem_of_fmap_2.
Qed.

Lemma outer_merge_left_keys (left : list merged_row) (right : list rank_row) :
  NoDup (rk_key <$> right) →
  m_key <$> (left ≫= λ l,
               match filter (same_key l) right with
               | [] => [with_rank l None]
               | matches => (λ x, with_rank l (Some (rk_rank x))) <$> matches
               end)
  = m_key <$> left.
Proof.
  intros Hnd. induction left as [|l left IH]; [done|].
  rewrite bind_cons, fmap_app, IH, fmap_cons. f_equal. clear IH.
  pose proof (filter_NoDup_key (m_key l) right Hnd) as Hlen.
  rewrite (list_filter_iff _ (same_key l)) in Hlen
    by (intros x; rewrite same_key_keys; split; congruence).
  destruct (filter (same_key l) right) as [|x [|y rest]]; [done|done|].
  cbn in Hlen. lia.
Qed.

Lemma outer_merge_NoDup (n_cols : nat) (left : list merged_row) (right : list rank_row) :
  NoDup (m_key <$> left) → NoDup (rk_key <$> right) →
  NoDup (m_key <$> outer_merge n_cols left right).
Proof.
  intros Hleft Hright. unfold outer_merge.
  rewrite fmap_app, outer_merge_left_keys by done.
  apply NoDup_app. split; [done|]. split.
  - intros k Hk Hk'. apply list_elem_of_fmap in Hk as (l & -> & Hl).
    apply list_elem_of_fmap in Hk' as (m & Hm & Hin).
    apply list_elem_of_fmap in Hin as (x & -> & Hx).
    apply list_elem_of_filter in Hx as [Hnone Hx].
    eapply Forall_forall in Hnone; [|exact Hl]. apply Hnone.
    apply same_key_keys. by rewrite Hm.
  - rewrite <- list_fmap_compose.
    erewrite (list_fmap_ext _ rk_key) by done.
    apply NoDup_fmap_2_strong; [|apply NoDup_filter; by eapply NoDup_fmap_1].
    intros x y Hx Hy Heq.
    apply list_elem_of_filter in Hx as [_ Hx]. apply list_elem_of_filter in Hy as [_ Hy].
    apply list_elem_of_lookup in Hx as [i Hi]. apply list_elem_of_lookup in Hy as [j Hj].
    assert (i = j) as ->; [|congruence].
    eapply NoDup_lookup; [exact Hright| |]; rewrite list_lookup_fmap.
    + by rewrite Hi.
    + by rewrite Hj, Heq.
Qed.

Lemma rank_frame_keys (df : list flat_row) : rk_key <$> rank_frame df = pair_of <$> df.
Proof. unfold rank_frame. rewrite <- list_fmap_compose. done. Qed.

Lemma merge_members_NoDup (dfs : list (list flat_row)) :
  Forall (λ df, NoDup (pair_of <$> df)) dfs →
  ∀ i merged merged',
    NoDup (m_key <$> merged) →
    merge_members i (Some merged) dfs = Some merged' →
    NoDup (m_key <$> merged').
Proof.
  induction 1 as [|df dfs Hdf _ IH]; intros i merged merged' Hnd Hrun.
  - cbn in Hrun. by injection Hrun as <-.
  - cbn [merge_members] in Hrun. eapply IH; [|exact Hrun].
    apply outer_merge_NoDup; [done|]. by rewrite rank_frame_keys.
Qed.

(** X22. When no member frame holds a pair twice, the fused frame holds
    no pair twice. *)
Theorem every_pair_is_fused_once (calc_funcs : list (unit → list flat_row))
    (combine_func : list Q → Q) (fill_val : Q) (multithreaded : bool)
    (out : list flat_row) :
  Forall (λ f, NoDup (pair_of <$> f ())) calc_funcs →
  calc_dfs_and_combine_scores calc_funcs combine_func fill_val multithreaded = Ok out →
  NoDup (pair_of <$> out).
Proof.
  intros Hmembers. unfold calc_dfs_and_combine_scores.
  destruct (decide (calc_funcs = [])) as [->|Hne].
  { destruct (member_frames [] multithreaded) as [frames|e] eqn:Hf; [|done].
    apply member_frames_nil in Hf as ->. done. }
  rewrite (member_frames_Ok _ _ Hne). cbn [mbind result_bind].
  assert (Forall (λ df, NoDup (pair_of <$> df)) ((λ f, f ()) <$> calc_funcs)) as Hframes
    by (by apply Forall_fmap).
  destruct ((λ f, f ()) <$> calc_funcs) as [|df dfs]; [done|].
  apply Forall_cons in Hframes as [Hdf Hdfs]. cbn [merge_members].
  destruct (merge_members 1 _ dfs) as [merged|] eqn:Hrun; [|done].
  intros [= <-].
  apply merge_members_NoDup in Hrun; [|done|].
  - rewrite <- list_fmap_compose.
    by erewrite (list_fmap_ext _ m_key) by done.
  - rewrite <- list_fmap_compose.
    erewrite (list_fmap_ext _ rk_key) by done.
    by rewrite rank_frame_keys.
Qed.

(** X22 at the example ensemble. *)
Lemma every_pair_is_fused_once_witness :
  NoDup (pair_of <$> [FlatRow "u" "a" (24 # 44); FlatRow "u" "b" (18 # 40);
                      FlatRow "u" "c" (27 # 110); FlatRow "u" "d" (24 # 44)]).
Proof.
  apply (every_pair_is_fused_once
           (rank_calc_funcs (fused_pair None) ["u"] [] 10) np_mean
           (fill_val_of None 10) false).
  - repeat constructor; by_compute.
  - vm_compute. reflexivity.
Defined.

End EnsemblesFacts.

(** ** The control file and failing trials *)

Module SearchFacts.
Import Py Search.

(** *** The control file *)

(** C6. With a control file configured: if the file is absent the check does
    nothing; if its first line holds [stop] the check raises
    [InterruptedError]; if it holds [update] and neither [stop] nor [pause]
    the check raises [NotImplementedError] (after a warning); and if it holds
    none of the three words the check does nothing.  Doing nothing leaves the
    world as it was, and none of these cases needs fuel.  Without a configured
    file the check does nothing either. *)
Theorem check_interrupt_directives {values : Type} (fuel : nat) (file : string)
    (w : world values) :
  (control_file w (clock w) = None →
   _check_interrupt fuel (Some file) w = Some (Ok (), w))
  ∧ (∀ content,
       control_file w (clock w) = Some content →
       let message := readline content in
       (str_in "stop" message = true →
        ∃ msg, _check_interrupt fuel (Some file) w
               = Some (Raise (InterruptedError msg), w))
       ∧ (str_in "update" message = true →
          str_in "stop" message = false → str_in "pause" message = false →
          ∃ warning,
            _check_interrupt fuel (Some file) w
            = Some (Raise (NotImplementedError "not yet implemented"),
                    add_log (LogWarn warning) w))
       ∧ (str_in "stop" message = false → str_in "pause" message = false →
          str_in "update" message = false →
          _check_interrupt fuel (Some file) w = Some (Ok (), w)))
  ∧ _check_interrupt fuel None w = Some (Ok (), w).
Proof.
  split; [|split].
  - intros Habsent. destruct fuel; simpl; by rewrite Habsent.
  - intros content Hcontent message. repeat split.
    + intros Hstop. eexists. destruct fuel; simpl; by rewrite Hcontent; fold message;
        rewrite Hstop.
    + intros Hupdate Hstop Hpause. eexists.
      destruct fuel; simpl; by rewrite Hcontent; fold message;
        rewrite Hstop, Hpause, Hupdate.
    + intros Hstop Hpause Hupdate.
      destruct fuel; simpl; by rewrite Hcontent; fold message;
        rewrite Hstop, Hpause, Hupdate.
  - by destruct fuel.
Qed.

Example check_stop :
  _check_interrupt 0 (Some "ctl") (fixed_world (Some ("please stop" +:+ nl +:+ "now")))
  = Some (Raise (InterruptedError "interrupted by stop message in ctl"),
          fixed_world (Some ("please stop" +:+ nl +:+ "now"))).
Proof. reflexivity. Qed.

Example check_stop_on_second_line :
  _check_interrupt 0 (Some "ctl") (fixed_world (Some ("go on" +:+ nl +:+ "stop")))
  = Some (Ok (), fixed_world (Some ("go on" +:+ nl +:+ "stop"))).
Proof. reflexivity. Qed.

Example check_update :
  _check_interrupt 0 (Some "ctl") (fixed_world (Some "update"))
  = Some (Raise (NotImplementedError "not yet implemented"),
          add_log (LogWarn "Updating HP space due to update message in ctl")
            (fixed_world (Some "update"))).
Proof. reflexivity. Qed.

(** A pause is waited out: here the file is gone after two seconds, and the
    open in the loop raises. *)
Example check_pause_then_deleted :
  ∃ w, _check_interrupt 3 (Some "ctl") paused_for_two
       = Some (Raise (FileNotFoundError "ctl"), w) ∧ clock w = 2.
Proof. eexists. split; [vm_compute; reflexivity|reflexivity]. Qed.

(** While the file keeps saying [pause] the check does not return. *)
Lemma check_pause_forever fuel :
  _check_interrupt fuel (Some "ctl") (fixed_world (Some "pause")) = None.
Proof.
  assert (∀ fuel (w : world unit),
            control_file w = (λ _, Some "pause") →
            wait_while_paused fuel "ctl" w = None) as Hwait.
  { clear. induction fuel as [|fuel IH]; intros w Hw; [done|].
    assert (control_file (sleep1 w) = λ _, Some "pause") as Hw1 by exact Hw.
    cbn [wait_while_paused]. rewrite Hw1.
    change (str_in "pause" (readline "pause")) with true. cbn iota.
    by apply IH. }
  destruct fuel as [|fuel]; [done|].
  cbn [_check_interrupt fixed_world control_file clock].
  change (str_in "stop" (readline "pause")) with false.
  change (str_in "pause" (readline "pause")) with true. cbn iota.
  by rewrite Hwait.
Qed.

(** *** Failing trials *)

Section objective_facts.

Context {values pipeline report : Type}.
Context (init_pipeline : values → world values → result pipeline * world values).
Context (fit : pipeline → world values → result unit * world values).
Context (eval_on_test_by_ranking :
           pipeline → world values → result report * world values).
Context (report_metric : report → string → result Q).

Local Abbreviation trial' :=
  (trial init_pipeline fit eval_on_test_by_ranking report_metric).
Local Abbreviation objective_func' :=
  (objective_func init_pipeline fit eval_on_test_by_ranking report_metric).

(** An exception out of the body of the [try] becomes the loss 1.0. *)
Lemma objective_func_Raise fuel self v w e w' :
  trial' fuel self v w = Some (Raise e, w') →
  objective_func' fuel self v w = Some (1%Q, self, logged_failure e v w').
Proof. unfold objective_func. by intros ->. Qed.

(** A trial that goes through answers its loss and records it. *)
Lemma objective_func_Ok fuel self v w loss self' w' :
  trial' fuel self v w = Some (Ok (loss, self'), w') →
  objective_func' fuel self v w = Some (loss, self', w').
Proof. unfold objective_func. by intros ->. Qed.

(** C5. Whatever exception a trial raises, while the pipeline is
    instantiated, while it is fitted, while it is evaluated or when the
    metric is read from the report, [objective_func] returns the loss 1.0
    with the search object unchanged, and the logger has received the
    exception and then the sampled values; and once the interrupt check has
    come back, [objective_func] returns a loss in every case, so that nothing
    propagates to the caller. *)
Theorem objective_func_never_raises (fuel : nat) (self : search (values:=values) (report:=report))
    (v : values) (w : world values) :
  (∀ w0, _check_interrupt fuel (interrupt_message_file self) w = Some (Ok (), w0) →
     (∀ e w1, init_pipeline v w0 = (Raise e, w1) →
        objective_func' fuel self v w = Some (1%Q, self, logged_failure e v w1))
     ∧ (∀ p w1 e w2,
          init_pipeline v w0 = (Ok p, w1) → fit p w1 = (Raise e, w2) →
          objective_func' fuel self v w = Some (1%Q, self, logged_failure e v w2))
     ∧ (∀ p w1 u w2 e w3,
          init_pipeline v w0 = (Ok p, w1) → fit p w1 = (Ok u, w2) →
          eval_on_test_by_ranking p w2 = (Raise e, w3) →
          objective_func' fuel self v w = Some (1%Q, self, logged_failure e v w3))
     ∧ (∀ p w1 u w2 r w3 e,
          init_pipeline v w0 = (Ok p, w1) → fit p w1 = (Ok u, w2) →
          eval_on_test_by_ranking p w2 = (Ok r, w3) →
          report_metric r (metric self) = Raise e →
          objective_func' fuel self v w = Some (1%Q, self, logged_failure e v w3)))
  ∧ (∀ e w0, _check_interrupt fuel (interrupt_message_file self) w = Some (Raise e, w0) →
       objective_func' fuel self v w = Some (1%Q, self, logged_failure e v w0))
  ∧ (∀ r w0, _check_interrupt fuel (interrupt_message_file self) w = Some (r, w0) →
       ∃ loss self' w', objective_func' fuel self v w = Some (loss, self', w')).
Proof.
  split; [|split].
  - intros w0 Hcheck. repeat split.
    + intros e w1 Hinit. apply objective_func_Raise. unfold trial.
      by rewrite Hcheck, Hinit.
    + intros p w1 e w2 Hinit Hfit. apply objective_func_Raise. unfold trial.
      by rewrite Hcheck, Hinit, Hfit.
    + intros p w1 u w2 e w3 Hinit Hfit Heval. apply objective_func_Raise. unfold trial.
      by rewrite Hcheck, Hinit, Hfit, Heval.
    + intros p w1 u w2 r w3 e Hinit Hfit Heval Hmetric.
      apply objective_func_Raise. unfold trial.
      by rewrite Hcheck, Hinit, Hfit, Heval, Hmetric.
  - intros e w0 Hcheck. apply objective_func_Raise. unfold trial. by rewrite Hcheck.
  - intros r w0 Hcheck. unfold objective_func, trial. rewrite Hcheck.
    destruct r as [[]|e]; [|eauto].
    destruct (init_pipeline v w0) as [[p|e] w1]; [|eauto].
    destruct (fit p w1) as [[u|e] w2]; [|eauto].
    destruct (eval_on_test_by_ranking p w2) as [[r|e] w3]; [|eauto].
    destruct (report_metric r (metric self)) as [m|e]; eauto.
Qed.

(** A [stop] in the control file makes the check raise inside the [try]:
    [objective_func] catches the [InterruptedError] like any other exception
    and answers the loss 1.0. *)
Lemma stop_is_caught_by_objective_func fuel self v w file content :
  interrupt_message_file self = Some file →
  control_file w (clock w) = Some content →
  str_in "stop" (readline content) = true →
  ∃ msg, objective_func' fuel self v w
         = Some (1%Q, self, logged_failure (InterruptedError msg) v w).
Proof.
  intros Hfile Hcontent Hstop. eexists. apply objective_func_Raise.
  unfold trial. rewrite Hfile.
  destruct fuel; simpl; by rewrite Hcontent, Hstop.
Qed.

End objective_facts.

Example objective_func_fit_fails :
  objective_func init_example fit_example eval_example metric_example
    0 search_example 200 quiet
  = Some (1%Q, search_example,
          {| clock := 200; control_file := λ _, None;
             log := [LogException (Raised "MemoryError" ""); LogError 200] |}).
Proof. reflexivity. Qed.

Example objective_func_succeeds :
  objective_func init_example fit_example eval_example metric_example
    0 search_example 10 quiet
  = Some ((1 - (3 # 4))%Q,
          {| metric := "AUC"; interrupt_message_file := None;
             all_metrics := [{| trial_report := (3 # 4)%Q; trial_values := 10;
                                target_loss := (1 - (3 # 4))%Q;
                                time_taken := 10 |}] |},
          {| clock := 10; control_file := λ _, None; log := [] |}).
Proof. reflexivity. Qed.

(** A trial that finds [stop] in the control file. *)
Lemma stop_is_caught_by_objective_func_witness :
  ∃ msg,
    objective_func init_example fit_example eval_example metric_example
      0 search_with_control_file 10 told_to_stop
    = Some (1%Q, search_with_control_file,
            logged_failure (InterruptedError msg) 10 told_to_stop).
Proof.
  apply (stop_is_caught_by_objective_func init_example fit_example eval_example
           metric_example 0 search_with_control_file 10 told_to_stop "ctl" "stop");
    reflexivity.
Defined.

(** *** Pauses, and the summary of the trials *)

Lemma wait_while_paused_until {values : Type} (file : string) (content : string)
    (k0 : nat) :
  ∀ (fuel : nat) (w : world values),
    (∀ j, 0 < j < S k0 →
       ∃ c, control_file w (clock w + j) = Some c ∧ str_in "pause" (readline c) = true) →
    control_file w (clock w + S k0) = Some content →
    str_in "pause" (readline content) = false →
    S k0 ≤ fuel →
    wait_while_paused fuel file w = Some (Ok (readline content), later (S k0) [] w).
Proof.
  induction k0 as [|k0 IH]; intros fuel w Hpaused Hend Hgo Hfuel.
  all: destruct fuel as [|fuel]; [lia|]; cbn [wait_while_paused].
  - cbn [sleep1 clock control_file]. rewrite Nat.add_1_r in Hend. rewrite Hend, Hgo.
    do 2 f_equal. unfold later, sleep1. cbn. f_equal; [lia|by rewrite app_nil_r].
  - cbn [sleep1 clock control_file].
    destruct (Hpaused 1) as (c & Hc & Hp); [lia|].
    rewrite Nat.add_1_r in Hc. rewrite Hc, Hp.
    rewrite (IH fuel (sleep1 w)); cbn [sleep1 clock control_file].
    + do 2 f_equal. unfold later, sleep1. cbn. f_equal. lia.
    + intros j Hj. destruct (Hpaused (S j)) as (c' & Hc' & Hp'); [lia|].
      exists c'. split; [|done]. rewrite <- Hc'. f_equal. lia.
    + rewrite <- Hend. f_equal. lia.
    + done.
    + lia.
Qed.

(** X23. A pause is waited out: when the first line of the control file
    holds [pause] (and not [stop]) now and for the following [k - 1] seconds,
    and no longer after [k] seconds, the check, given enough fuel, sleeps [k]
    seconds, logs one warning and then treats the line found as a first
    check would: it raises [InterruptedError] on [stop] and returns on a line
    without a directive. *)
Theorem pause_is_waited_out {values : Type} (fuel k : nat) (file : string)
    (w : world values) (content0 content : string) :
  control_file w (clock w) = Some content0 →
  str_in "stop" (readline content0) = false →
  str_in "pause" (readline content0) = true →
  0 < k →
  (∀ j, 0 < j < k →
     ∃ c, control_file w (clock w + j) = Some c ∧ str_in "pause" (readline c) = true) →
  control_file w (clock w + k) = Some content →
  str_in "pause" (readline content) = false →
  k < fuel →
  let w' := later k [LogWarn ("Paused by pause message in " +:+ file)] w in
  _check_interrupt fuel (Some file) w = _check_interrupt 0 (Some file) w'
  ∧ (str_in "stop" (readline content) = true →
     _check_interrupt fuel (Some file) w
     = Some (Raise (InterruptedError ("interrupted by stop message in " +:+ file)), w'))
  ∧ (str_in "stop" (readline content) = false →
     str_in "update" (readline content) = false →
     _check_interrupt fuel (Some file) w = Some (Ok (), w')).
Proof.
  intros H0 Hstop Hpause Hk Hpaused Hend Hgo Hfuel w'.
  destruct k as [|k0]; [lia|]. destruct fuel as [|fuel]; [lia|].
  assert (_check_interrupt (S fuel) (Some file) w = _check_interrupt fuel (Some file) w')
    as Hrun.
  { cbn [_check_interrupt]. rewrite H0, Hstop, Hpause.
    rewrite (wait_while_paused_until file content k0);
      cbn [add_log clock control_file]; try done; [|lia].
    f_equal. subst w'. unfold later, add_log. cbn. by rewrite app_nil_r. }
  assert (control_file w' (clock w') = Some content) as Hnow by exact Hend.
  assert (∀ f, _check_interrupt f (Some file) w'
               = if str_in "stop" (readline content) then
                   Some (Raise (InterruptedError
                                  ("interrupted by stop message in " +:+ file)), w')
                 else if str_in "update" (readline content) then
                   Some (Raise (NotImplementedError "not yet implemented"),
                         add_log (LogWarn ("Updating HP space due to update message in "
                                           +:+ file)) w')
                 else Some (Ok (), w')) as Hcheck.
  { intros f. destruct f; cbn [_check_interrupt]; by rewrite Hnow, Hgo. }
  rewrite Hrun, !Hcheck. repeat split.
  - by intros ->.
  - by intros -> ->.
Qed.

(** X23 at a pause of three seconds. *)
Lemma pause_is_waited_out_witness :
  _check_interrupt 5 (Some "ctl") paused_for_three
  = _check_interrupt 0 (Some "ctl")
      (later 3 [LogWarn ("Paused by pause message in " +:+ "ctl")] paused_for_three)
  ∧ (str_in "stop" (readline "go on") = true →
     _check_interrupt 5 (Some "ctl") paused_for_three
     = Some (Raise (InterruptedError ("interrupted by stop message in " +:+ "ctl")),
             later 3 [LogWarn ("Paused by pause message in " +:+ "ctl")] paused_for_three))
  ∧ (str_in "stop" (readline "go on") = false →
     str_in "update" (readline "go on") = false →
     _check_interrupt 5 (Some "ctl") paused_for_three
     = Some (Ok (),
             later 3 [LogWarn ("Paused by pause message in " +:+ "ctl")] paused_for_three)).
Proof.
  apply (pause_is_waited_out 5 3 "ctl" paused_for_three "pause" "go on").
  - reflexivity.
  - reflexivity.
  - reflexivity.
  - lia.
  - intros j Hj. exists "pause". split; [|reflexivity].
    cbn. rewrite decide_True by lia. done.
  - reflexivity.
  - reflexivity.
  - lia.
Defined.

Section summary_facts.

Context {values pipeline report : Type}.
Context (init_pipeline : values → world values → result pipeline * world values).
Context (fit : pipeline → world values → result unit * world values).
Context (eval_on_test_by_ranking :
           pipeline → world values → result report * world values).
Context (report_metric : report → string → result Q).

Local Abbreviation trial' :=
  (trial init_pipeline fit eval_on_test_by_ranking report_metric).
Local Abbreviation objective_func' :=
  (objective_func init_pipeline fit eval_on_test_by_ranking report_metric).

#[local] Instance loss_le_trans : Transitive (loss_le (values:=values) (report:=report)).
Proof. intros x y z Hxy Hyz. unfold loss_le in *. by eapply Qle_trans. Qed.

#[local] Instance loss_le_total : Total (loss_le (values:=values) (report:=report)).
Proof.
  intros x y. unfold loss_le.
  destruct (Qlt_le_dec (target_loss y) (target_loss x)) as [H|H]; [right|by left].
  by apply Qlt_le_weak.
Qed.

Lemma trial_records fuel self v w loss self' w' :
  trial' fuel self v w = Some (Ok (loss, self'), w') →
  ∃ record : trial_record,
    all_metrics self' = (all_metrics self ++ [record])%list
    ∧ target_loss record = loss ∧ trial_values record = v.
Proof.
  unfold trial.
  destruct (_check_interrupt _ _ _) as [[[[]|e] w0]|]; try done.
  destruct (init_pipeline v w0) as [[p|e] w1]; [|done].
  destruct (fit p w1) as [[u|e] w2]; [|done].
  destruct (eval_on_test_by_ranking p w2) as [[r|e] w3]; [|done].
  destruct (report_metric r (metric self)) as [m|e]; [|done].
  intros [= <- <- <-]. eexists. split; [reflexivity|done].
Qed.

(** X24. After a trial that went through, [best_results_summary] lists
    the trials recorded before and the new one, whose loss is the one
    [objective_func] returned, by ascending loss.  After a trial that raised,
    the search object is as it was and the loss is 1; if no trial has been
    recorded yet, the summary raises [KeyError]. *)
Theorem summary_lists_the_trials_that_went_through {res : Type} (fuel : nat)
    (self self' : search (values:=values) (report:=report)) (v : values)
    (w w' : world values) (loss : Q) (res_bo : res) (percentile : Q) :
  objective_func' fuel self v w = Some (loss, self', w') →
  (∃ (record : trial_record) summary,
     trial' fuel self v w = Some (Ok (loss, self'), w')
     ∧ target_loss record = loss ∧ trial_values record = v
     ∧ best_results_summary self' res_bo percentile = Ok summary
     ∧ summary ≡ₚ record :: all_metrics self
     ∧ StronglySorted loss_le summary)
  ∨ (∃ e w0,
       trial' fuel self v w = Some (Raise e, w0)
       ∧ loss = 1%Q ∧ self' = self
       ∧ (all_metrics self = [] →
          best_results_summary self' res_bo percentile
          = Raise (Raised "KeyError" "target_loss"))).
Proof.
  intros Hrun. unfold objective_func in Hrun.
  destruct (trial' fuel self v w) as [[[[l s]|e] w0]|] eqn:Htrial; [| |done].
  - injection Hrun as -> -> ->. left.
    destruct (trial_records _ _ _ _ _ _ _ Htrial) as (record & Hall & Hloss & Hv).
    exists record, (merge_sort loss_le (all_metrics self')).
    repeat split; try done.
    + unfold best_results_summary. rewrite Hall.
      by destruct (all_metrics self).
    + rewrite merge_sort_Permutation, Hall. by rewrite Permutation_app_comm.
    + apply StronglySorted_merge_sort; apply _.
  - injection Hrun as <- <- <-. right. exists e, w0.
    repeat split; try done. unfold best_results_summary. by intros ->.
Qed.

End summary_facts.

(** X24 at the first trial of the example search. *)
Lemma summary_lists_the_trials_that_went_through_witness :
  (∃ (record : trial_record) summary,
     trial init_example fit_example eval_example metric_example
       0 search_example 10 quiet
     = Some (Ok ((1 - (3 # 4))%Q, first_trial_recorded),
             {| clock := 10; control_file := λ _, None; log := [] |})
     ∧ target_loss record = (1 - (3 # 4))%Q ∧ trial_values record = 10
     ∧ best_results_summary first_trial_recorded () 95%Q = Ok summary
     ∧ summary ≡ₚ record :: all_metrics search_example
     ∧ StronglySorted loss_le summary)
  ∨ (∃ e w0,
       trial init_example fit_example eval_example metric_example
         0 search_example 10 quiet = Some (Raise e, w0)
       ∧ (1 - (3 # 4))%Q = 1%Q ∧ first_trial_recorded = search_example
       ∧ (all_metrics search_example = [] →
          best_results_summary first_trial_recorded () 95%Q
          = Raise (Raised "KeyError" "target_loss"))).
Proof.
  apply (summary_lists_the_trials_that_went_through init_example fit_example
           eval_example metric_example 0 search_example first_trial_recorded
           10 quiet _ _ () 95%Q).
  reflexivity.
Defined.

End SearchFacts.

(** ** The zoom of an item set *)

Module GeoFacts.
Import Py Geo.

(** *** Double-precision arithmetic *)

(** No difference of a value with itself is greater than zero: it is a zero
    for a finite value and NaN for an infinity or NaN. *)
Lemma float_sub_diag_not_positive (x : float) : (0 <? x - x)%float = false.
Proof.
  rewrite ltb_spec, sub_spec.
  change (Prim2SF 0) with (S754_zero false).
  destruct (Prim2SF x) as [s|s| |s m e]; cbn -[binary_normalize].
  - by destruct s.
  - by destruct s.
  - done.
  - rewrite Z.sub_diag. done.
Qed.

Lemma float_value_zero_not_positive (x : float) (v : Q) :
  float_value x = Some v → (v == 0)%Q → (0 <? x)%float = false.
Proof.
  unfold float_value. rewrite ltb_spec.
  change (Prim2SF 0) with (S754_zero false).
  destruct (Prim2SF x) as [s|s| |s m e]; try done.
  intros [= <-] Hzero. exfalso.
  assert (0 < 2 ^ e)%Q as Hpow by (by apply Qpower_0_lt).
  apply Qmult_integral in Hzero as [Hm|He].
  - destruct s; by vm_compute in Hm.
  - rewrite He in Hpow. by apply Qlt_irrefl in Hpow.
Qed.

Lemma py_int_floor (x : Q) : (0 <= x)%Q → py_int x = Qfloor x.
Proof.
  intros Hx. unfold py_int, Qfloor. destruct x as [a b]. cbn [Qnum Qden].
  apply Z.quot_div_nonneg; [|lia].
  unfold Qle in Hx. cbn in Hx. lia.
Qed.

(** [int] of a value that is not negative is its floor. *)
Lemma float_to_int_floor (q : float) (v : Q) :
  float_value q = Some v → (0 <= v)%Q → float_to_int q = Ok (Qfloor v).
Proof. intros Hv Hnn. unfold float_to_int. by rewrite Hv, py_int_floor. Qed.

Lemma float_to_int_between (q : float) (v : Q) (k : Z) :
  float_value q = Some v → (0 <= k)%Z →
  (inject_Z k <= v)%Q → (v < inject_Z (k + 1))%Q → float_to_int q = Ok k.
Proof.
  intros Hv Hk Hlo Hhi.
  assert (0 <= v)%Q as Hnn.
  { apply Qle_trans with (inject_Z k); [|done].
    change 0%Q with (inject_Z 0). by rewrite <- Zle_Qle. }
  rewrite (float_to_int_floor q v Hv Hnn). f_equal.
  apply Z.le_antisymm.
  - apply Z.lt_succ_r. rewrite Zlt_Qlt.
    apply Qle_lt_trans with v; [apply Qfloor_le|done].
  - rewrite <- (Qfloor_Z k). by apply Qfloor_resp_le.
Qed.

Lemma float_to_int_raises (q : float) :
  float_value q = None → ∃ e, float_to_int q = Raise e.
Proof. intros Hv. unfold float_to_int. rewrite Hv. destruct (is_nan q); eauto. Qed.

Lemma col_min_single (x : float) : col_min [x] = if is_nan x then nan else x.
Proof. reflexivity. Qed.

Lemma col_max_single (x : float) : col_max [x] = if is_nan x then nan else x.
Proof. reflexivity. Qed.

(** A column that holds one value throughout has it as minimum and as
    maximum; NaN is the minimum and the maximum of a column of NaN and of
    an empty column. *)
Lemma col_min_max_const (x : float) (xs : list float) :
  Forall (λ y, y = x) xs →
  col_min xs = col_max xs
  ∧ col_min xs = if is_nan x then nan else match xs with [] => nan | _ => x end.
Proof.
  intros Hxs. unfold col_min, col_max.
  set (lower := λ acc y : float, if is_nan y then acc
                                 else if is_nan acc then y
                                 else if (y <? acc)%float then y else acc).
  set (upper := λ acc y : float, if is_nan y then acc
                                 else if is_nan acc then y
                                 else if (acc <? y)%float then y else acc).
  destruct (is_nan x) eqn:Hnan.
  - assert (∀ acc, foldl lower acc xs = acc ∧ foldl upper acc xs = acc) as Hacc.
    { induction Hxs as [|y ys -> _ IH]; intros acc; [done|].
      cbn [foldl]. unfold lower at 2, upper at 2. rewrite Hnan. apply IH. }
    destruct (Hacc nan) as [-> ->]. done.
  - assert (∀ acc, acc = nan ∨ acc = x → xs ≠ [] →
              foldl lower acc xs = x ∧ foldl upper acc xs = x) as Hacc.
    { induction Hxs as [|y ys -> _ IH]; intros acc Hin Hne; [done|].
      cbn [foldl].
      assert (lower acc x = x) as ->.
      { unfold lower. rewrite Hnan.
        destruct Hin as [-> | ->]; [done|]. rewrite Hnan. by destruct (x <? x)%float. }
      assert (upper acc x = x) as ->.
      { unfold upper. rewrite Hnan.
        destruct Hin as [-> | ->]; [done|]. rewrite Hnan. by destruct (x <? x)%float. }
      destruct ys as [|y' ys']; [done|]. apply IH; [by right|done]. }
    destruct xs as [|y ys]; [done|].
    destruct (Hacc nan) as [-> ->]; [by left|done|done].
Qed.

(** The floor of a binary logarithm is one number. *)
Lemma floor_log2_unique (x : Q) (j k : Z) :
  is_floor_log2 x j → is_floor_log2 x k → j = k.
Proof.
  assert (∀ a b, is_floor_log2 x a → is_floor_log2 x b → (a <= b)%Z) as Hle.
  { intros a b [Ha _] [_ Hb].
    destruct (decide (a <= b)%Z) as [|Hgt]; [done|].
    assert (2 ^ (b + 1) <= 2 ^ a)%Q as Hpow
      by (apply Qpower_le_compat_l; [lia|done]).
    exfalso. apply (Qlt_irrefl x).
    apply Qlt_le_trans with (2 ^ (b + 1))%Q; [done|].
    by apply Qle_trans with (2 ^ a)%Q. }
  intros Hj Hk. apply Z.le_antisymm; by apply Hle.
Qed.

(** *** The zoom of the axes *)

Section zoom_facts.

Variable np_log : float → float.

Lemma gm_heuristic_same (x : float) : gm_heuristic np_log x x = Ok 14%Z.
Proof. unfold gm_heuristic. by rewrite float_sub_diag_not_positive. Qed.

Lemma zoom_single_point (p : item) : _zoom_heuristic np_log [p] = Ok 14%Z.
Proof.
  unfold _zoom_heuristic. cbn [fmap list_fmap].
  rewrite !col_min_single, !col_max_single.
  destruct (is_nan (lat p)), (is_nan (long p)); by rewrite !gm_heuristic_same.
Qed.

Lemma gm_heuristic_const (x : float) (xs : list float) :
  Forall (λ y, y = x) xs → gm_heuristic np_log (col_min xs) (col_max xs) = Ok 14%Z.
Proof.
  intros Hxs. destruct (col_min_max_const x xs Hxs) as [<- _].
  apply gm_heuristic_same.
Qed.

Lemma gm_heuristic_one_degree (lo hi : float) (v : Q) :
  (hi - lo)%float = 1%float →
  float_value (np_log 0x1.5f9p+10 / np_log 2)%float = Some v →
  (10 <= v)%Q → (v < 11)%Q →
  gm_heuristic np_log lo hi = Ok 10%Z.
Proof.
  intros Hone Hv Hlo Hhi. unfold gm_heuristic. rewrite Hone.
  change (0 <? 1)%float with true.
  change (1000 * 360 / 1 / 256)%float with 0x1.5f9p+10%float.
  by apply (float_to_int_between _ v).
Qed.

(** C9, as amended.  Whatever [numpy.log] computes: the zoom is the minimum
    of the two axis results, and raises what the first axis that raises
    does; an axis whose range is greater than zero gives [int] of the
    double-precision quotient of the logarithm of
    [1000 * 360 / range / 256] by the logarithm of 2, which is the number
    that the quotient stands for cut toward zero, its floor when it is not
    negative, and an exception when the quotient is an infinity or NaN; an
    axis of zero range, and any whose range is not greater than zero, gives
    14, and so does an axis on which all the items have one coordinate.  A
    single point has zoom 14; and a range of one degree gives 10 on its
    axis, provided the quotient computed for 1406.25 lies between 10 and
    11. *)
Theorem zoom_heuristic_by_axis :
  (∀ df_items,
     _zoom_heuristic np_log df_items
     = (zoom_level_lat ← gm_heuristic np_log (col_min (lat <$> df_items))
                            (col_max (lat <$> df_items));
        zoom_level_long ← gm_heuristic np_log (col_min (long <$> df_items))
                             (col_max (long <$> df_items));
        Ok (Z.min zoom_level_lat zoom_level_long)))
  ∧ (∀ lo hi, (0 <? hi - lo)%float = true →
       gm_heuristic np_log lo hi
       = float_to_int (np_log (1000 * 360 / (hi - lo) / 256) / np_log 2)%float)
  ∧ (∀ q v, float_value q = Some v →
       float_to_int q = Ok (py_int v)
       ∧ ((0 <= v)%Q → float_to_int q = Ok (Qfloor v)))
  ∧ (∀ q, float_value q = None → ∃ e, float_to_int q = Raise e)
  ∧ (∀ lo hi v, float_value (hi - lo)%float = Some v → (v == 0)%Q →
       gm_heuristic np_log lo hi = Ok 14%Z)
  ∧ (∀ lo hi, (0 <? hi - lo)%float = false → gm_heuristic np_log lo hi = Ok 14%Z)
  ∧ (∀ x xs, Forall (λ y, y = x) xs →
       gm_heuristic np_log (col_min xs) (col_max xs) = Ok 14%Z)
  ∧ (∀ p, _zoom_heuristic np_log [p] = Ok 14%Z)
  ∧ (∀ lo hi v,
       (hi - lo)%float = 1%float →
       float_value (np_log 0x1.5f9p+10 / np_log 2)%float = Some v →
       (10 <= v)%Q → (v < 11)%Q →
       gm_heuristic np_log lo hi = Ok 10%Z).
Proof.
  split; [done|].
  split; [by intros lo hi Hpos; unfold gm_heuristic; rewrite Hpos|].
  split.
  { intros q v Hv. split; [by unfold float_to_int; rewrite Hv|].
    by apply float_to_int_floor. }
  split; [apply float_to_int_raises|].
  split.
  { intros lo hi v Hv Hzero. unfold gm_heuristic.
    by rewrite (float_value_zero_not_positive _ v). }
  split; [by intros lo hi Hpos; unfold gm_heuristic; rewrite Hpos|].
  split; [apply gm_heuristic_const|].
  split; [apply zoom_single_point|apply gm_heuristic_one_degree].
Qed.

End zoom_facts.

(** C9 as the specification words it fails for two items at the latitudes
    0.0 and 1.3732910156250002: the range is 1.3732910156250002, the binary
    logarithm of [1000 * 360 / range / 256] is below 10 and its floor is 9;
    in double precision the quotient of the logarithms is 10.0, and the zoom
    is 10. *)
Lemma zoom_below_a_power_of_two_not_as_specified :
  _zoom_heuristic np_log_observed below_a_power_of_two = Ok 10%Z
  ∧ float_value (col_max (lat <$> below_a_power_of_two)
                 - col_min (lat <$> below_a_power_of_two))%float
    = Some (6184752906240001 # 4503599627370496)%Q
  ∧ is_floor_log2 (tiles (6184752906240001 # 4503599627370496)) 9
  ∧ ¬ zoom_as_specified np_log_observed below_a_power_of_two.
Proof.
  split; [vm_compute; reflexivity|]. split; [vm_compute; reflexivity|].
  split; [split; by vm_compute|].
  intros (zoom_lat & zoom_long & Hlat & Hlong & Hzoom).
  unfold axis_as_specified in Hlat, Hlong.
  replace (float_value (col_min (lat <$> below_a_power_of_two)))
    with (Some 0%Q) in Hlat by (vm_compute; reflexivity).
  replace (float_value (col_max (lat <$> below_a_power_of_two)))
    with (Some (6184752906240001 # 4503599627370496)%Q) in Hlat
    by (vm_compute; reflexivity).
  replace (float_value (col_min (long <$> below_a_power_of_two)))
    with (Some 0%Q) in Hlong by (vm_compute; reflexivity).
  replace (float_value (col_max (long <$> below_a_power_of_two)))
    with (Some 0%Q) in Hlong by (vm_compute; reflexivity).
  destruct Hlat as [_ Hlat]. destruct Hlong as [Hlong _].
  assert (zoom_lat = 9%Z) as ->.
  { apply (floor_log2_unique (tiles ((6184752906240001 # 4503599627370496) - 0))).
    - apply Hlat. intros Hzero. by vm_compute in Hzero.
    - split; by vm_compute. }
  rewrite Hlong in Hzoom by done.
  vm_compute in Hzoom. discriminate.
Qed.

(** Two items a degree of latitude apart: the quotient of the logarithms is
    10.457637380991763, and the zoom is 10. *)
Example zoom_of_one_degree :
  _zoom_heuristic np_log_observed [Item 10 20; Item 11 20] = Ok 10%Z
  ∧ gm_heuristic np_log_observed 10 11 = Ok 10%Z
  ∧ float_value (np_log_observed 0x1.5f9p+10 / np_log_observed 2)%float
    = Some (5887126476526284 # 562949953421312)%Q.
Proof. repeat split; vm_compute; reflexivity. Qed.

(** *** The colours of the markers *)

Lemma py_int_bounds (x : Q) (a b : Z) :
  (0 <= x)%Q → (inject_Z a <= x)%Q → (x <= inject_Z b)%Q → (a ≤ py_int x ≤ b)%Z.
Proof.
  intros H0 Ha Hb. rewrite py_int_floor by done. split.
  - rewrite <- (Qfloor_Z a). by apply Qfloor_resp_le.
  - rewrite <- (Qfloor_Z b). by apply Qfloor_resp_le.
Qed.

Lemma fraction_bounds (x : Q) :
  (0 <= x)%Q → (0 <= x - inject_Z (py_int x) <= 1)%Q.
Proof.
  intros Hx. rewrite py_int_floor by done.
  pose proof (Qfloor_le x). pose proof (Qlt_floor x) as Hlt.
  rewrite inject_Z_plus in Hlt. change (inject_Z 1) with 1%Q in Hlt. split; lra.
Qed.

(** X27. [get_n_spaced_colors(n)] returns [n] colours; each has its three
    components between 0 and 204, one of them 204 and one of them 0 (full
    saturation at the value 0.8). *)
Theorem spaced_colors_are_saturated (n : nat) :
  length (get_n_spaced_colors n) = n
  ∧ ∀ r g b, (r, g, b) ∈ get_n_spaced_colors n →
      (0 ≤ r ≤ 204 ∧ 0 ≤ g ≤ 204 ∧ 0 ≤ b ≤ 204)%Z
      ∧ (r `max` (g `max` b) = 204)%Z
      ∧ (r `min` (g `min` b) = 0)%Z.
Proof.
  split; [unfold get_n_spaced_colors; by rewrite length_fmap, length_seq|].
  intros r g b Hin. unfold get_n_spaced_colors in Hin.
  apply list_elem_of_fmap in Hin as (x & Heq & Hx).
  apply elem_of_seq in Hx as [_ Hx]. cbn in Hx.
  set (h6 := (inject_Z (Z.of_nat x) * 1 / inject_Z (Z.of_nat n) * 6)%Q) in *.
  assert (0 <= h6)%Q as Hh6.
  { subst h6. apply Qmult_le_0_compat; [|done].
    apply Qle_shift_div_l.
    - change 0%Q with (inject_Z 0). rewrite <- Zlt_Qlt. lia.
    - rewrite Qmult_0_l, Qmult_1_r. change 0%Q with (inject_Z 0).
      rewrite <- Zle_Qle. lia. }
  pose proof (fraction_bounds h6 Hh6) as [Hf0 Hf1].
  unfold hsv_to_rgb in Heq. change (Qeq_bool 1 0) with false in Heq. cbn iota zeta in Heq.
  fold h6 in Heq.
  set (f := (h6 - inject_Z (py_int h6))%Q) in *.
  assert (py_int ((4 # 5) * 255) = 204%Z) as Hv by reflexivity.
  assert (py_int ((4 # 5) * (1 - 1) * 255) = 0%Z) as Hp by reflexivity.
  assert (0 ≤ py_int ((4 # 5) * (1 - 1 * f) * 255) ≤ 204)%Z as Hq.
  { apply py_int_bounds; change (inject_Z 0) with 0%Q;
      change (inject_Z 204) with 204%Q; lra. }
  assert (0 ≤ py_int ((4 # 5) * (1 - 1 * (1 - f)) * 255) ≤ 204)%Z as Ht.
  { apply py_int_bounds; change (inject_Z 0) with 0%Q;
      change (inject_Z 204) with 204%Q; lra. }
  destruct (py_int h6 mod 6)%Z as [|[[[]|[]|]|[[]|[]|]|]|];
    injection Heq as -> -> ->; rewrite ?Hv, ?Hp; lia.
Qed.

Example three_spaced_colors :
  get_n_spaced_colors 3 = [(204, 0, 0); (0, 204, 0); (0, 0, 204)]%Z.
Proof. reflexivity. Qed.

End GeoFacts.

(** ** What a decorated function returns *)

Module InstrumentationFacts.
Import Py Instrumentation.

(** X2. [timer_deco] hands on what the function returns or raises.  When
    the function returns, the world is the one the function left with one
    line more at the end of the log, the timing line of the function's name
    and the time that passed; when it raises, the world is the one the
    function left. *)
Theorem timer_deco_transparent fn call args w :
  (timer_deco fn call args w).1 = (call args w).1
  ∧ (∀ v, (call args w).1 = Ok v →
       (timer_deco fn call args w).2
       = add_log (Timer (name fn) (now (call args w).2 - now w)) (call args w).2
       ∧ log (timer_deco fn call args w).2
         = (log (call args w).2
            ++ [Timer (name fn) (now (call args w).2 - now w)])%list)
  ∧ (∀ e, (call args w).1 = Raise e →
       (timer_deco fn call args w).2 = (call args w).2).
Proof.
  unfold timer_deco. destruct (call args w) as [[v|e] w1]; cbn [fst snd].
  - split; [done|]. split; [|done]. by intros ? [= <-].
  - split; [done|]. by split.
Qed.


(** When the lookup raises, the call raises in place of returning. *)
Lemma log_time_and_shape_lookup_raises fn call args w v w1 ret_str e :
  call args w = (Ok v, w1) → variable_info v = Ok ret_str → class_name fn = Raise e →
  log_time_and_shape fn call args w = (Raise e, w1).
Proof.
  intros Hcall Hinfo Hcls. unfold log_time_and_shape. by rewrite Hcall, Hinfo, Hcls.
Qed.

(** Only the values that [variable_info] cannot inspect, alone or in a tuple
    of at most three, make it raise. *)
Lemma variable_info_describes (v : py_value) :
  match v with
  | Uninspectable _ => False
  | Tuple elems => 3 < length elems
  | _ => True
  end →
  ∃ ret_str, variable_info v = Ok ret_str.
Proof.
  destruct v as [? ?|elems|? ?|? ?|e]; cbn [variable_info]; intros Hv; eauto.
  - rewrite decide_False by lia. eauto.
  - done.
Qed.

(** The lookup succeeds for a function whose owner, the qualified name cut
    before the first [.<locals>] and then before its last dot, is an
    attribute of its module. *)
Lemma class_name_resolves fn namespace attr :
  kind fn = PyFunction (Some namespace) →
  namespace !! rsplit_dot_head (before_first ".<locals>" (qualname fn)) = Some attr →
  ∃ cls_str, class_name fn = Ok cls_str.
Proof.
  intros Hkind Hattr. unfold class_name, get_class_that_defined_method.
  rewrite Hkind, Hattr. destruct attr; eauto.
Qed.

(** C10, at the input where the code departs from it: [meth] returns 1
    and [timer_deco] hands that on, but under [log_time_and_shape] the call
    raises [AttributeError], because the owner [Outer.Inner] of the method is
    looked up as a single attribute of the module. *)
Theorem log_time_and_shape_nested_class_raises :
  (returns_one [] at_rest).1 = Ok (Plain "<class 'int'>" "1")
  ∧ (timer_deco nested_meth returns_one [] at_rest).1 = Ok (Plain "<class 'int'>" "1")
  ∧ (log_time_and_shape nested_meth returns_one [] at_rest).1
    = Raise (AttributeError "module has no attribute 'Outer.Inner'").
Proof. repeat split; vm_compute; reflexivity. Qed.

(** The same method on the outer class itself is decorated without harm. *)
Example log_time_and_shape_outer_class :
  log_time_and_shape outer_meth returns_one [] at_rest
  = (Ok (Plain "<class 'int'>" "1"),
     add_log (TimeAndShape 3 "Outer.meth" (0 + 2 - 0) "<class 'int'>, 1..." 40
                (Qmax (Qmax 0 41) 40))
       (returns_one [] at_rest).2).
Proof. reflexivity. Qed.

(** A function that returns the class [list]: under [timer_deco] the class
    is returned, under [log_time_and_shape] the call raises the [TypeError]
    of [len]. *)
Example log_time_and_shape_of_a_class :
  (timer_deco outer_meth returns_list_class [] at_rest).1 = Ok list_class
  ∧ (log_time_and_shape outer_meth returns_list_class [] at_rest).1
    = Raise (Raised "TypeError" "object of type 'type' has no len()").
Proof. split; reflexivity. Qed.


(** *** The named parameters of a class hierarchy *)

Section collect_facts.

Context {V : Type} `{EqDecision V}.
Context (empty_str : V).

Lemma defaults_of_lookup (named : list (parameter (V:=V))) (k : string) (v : V) :
  NoDup (p_name <$> named) →
  defaults_of empty_str named !! k = Some v ↔
  ∃ p, p ∈ named ∧ p_name p = k ∧ v = default empty_str (p_default p).
Proof.
  unfold defaults_of.
  assert (∀ (d : gmap string V),
            NoDup (p_name <$> named) →
            foldl (λ d p, <[p_name p := default empty_str (p_default p)]> d) d named !! k
            = Some v ↔
            (∃ p, p ∈ named ∧ p_name p = k ∧ v = default empty_str (p_default p))
            ∨ ((k ∉ p_name <$> named) ∧ d !! k = Some v)) as Hgen.
  { induction named as [|p named IH]; intros d Hnd.
    - cbn. split.
      + intros Hd. right. split; [apply not_elem_of_nil|done].
      + intros [(p & Hp%elem_of_nil & _)|[_ Hd]]; done.
    - rewrite fmap_cons in Hnd. apply NoDup_cons in Hnd as [Hnot Hnd].
      cbn [foldl]. rewrite (IH _ Hnd). split.
      + intros [(p' & Hp' & Hk & Hv)|[Hk Hd]].
        * left. exists p'. split; [by right|done].
        * destruct (decide (p_name p = k)) as [Heq|Hne].
          -- rewrite Heq, lookup_insert_eq in Hd. injection Hd as <-.
             left. exists p. split; [by left|done].
          -- rewrite lookup_insert_ne in Hd by done. right. split; [|done].
             rewrite fmap_cons, not_elem_of_cons. split; [done|done].
      + intros [(p' & Hp' & Hk & Hv)|[Hk Hd]].
        * apply elem_of_cons in Hp' as [->|Hp'].
          -- right. split; [by rewrite <- Hk|].
             by rewrite Hk, lookup_insert_eq, Hv.
          -- left. eauto.
        * rewrite fmap_cons, not_elem_of_cons in Hk. destruct Hk as [Hne Hk].
          right. split; [done|]. by rewrite lookup_insert_ne.
  }
  intros Hnd. rewrite (Hgen ∅ Hnd). split; [|by left].
  intros [?|[_ Hd]]; [done|]. by rewrite lookup_empty in Hd.
Qed.

Lemma collect_lookup (mro : list (py_class (V:=V))) (skip_empty : bool)
    (ignore_classes : list py_class) (name : string) (d : gmap string V) :
  NoDup (cls_name <$> mro) →
  collect_named_init_params empty_str mro skip_empty ignore_classes !! name = Some d ↔
  ∃ c, c ∈ mro ∧ (c ∉ ignore_classes) ∧ cls_name c = name
       ∧ (skip_empty = true → named_params c ≠ [])
       ∧ d = defaults_of empty_str (named_params c).
Proof.
  unfold collect_named_init_params.
  set (selected := λ c : py_class,
         (c ∉ ignore_classes) ∧ (skip_empty = true → named_params c ≠ [])).
  set (step := λ (params : gmap string (gmap string V)) c, _).
  assert (∀ acc c, selected c →
            step acc c = <[cls_name c := defaults_of empty_str (named_params c)]> acc)
    as Hyes.
  { intros acc c [Hig Hskip]. subst step. cbn beta. rewrite decide_False by done.
    destruct skip_empty; [|done]. cbn [andb].
    by rewrite bool_decide_eq_false_2 by (by apply Hskip). }
  assert (∀ acc c, ¬ selected c → step acc c = acc) as Hno.
  { intros acc c Hsel. subst step. cbn beta.
    destruct (decide (c ∈ ignore_classes)) as [Hig|Hig]; [done|].
    destruct skip_empty; cbn [andb].
    - destruct (bool_decide_reflect (named_params c = [])) as [Hemp|Hemp]; [done|].
      destruct Hsel. by split.
    - destruct Hsel. by split. }
  assert (∀ c, Decision (selected c)) as Hdec by (intros c; subst selected; apply _).
  clearbody step.
  assert (∀ (acc : gmap string (gmap string V)),
            NoDup (cls_name <$> mro) →
            foldl step acc mro !! name = Some d ↔
            (∃ c, c ∈ mro ∧ selected c ∧ cls_name c = name
                  ∧ d = defaults_of empty_str (named_params c))
            ∨ ((∀ c, c ∈ mro → cls_name c = name → ¬ selected c)
               ∧ acc !! name = Some d)) as Hgen.
  { induction mro as [|c mro IH]; intros acc Hnd.
    - cbn. split.
      + intros Hd. right. split; [by intros c ?%elem_of_nil|done].
      + intros [(c & Hc%elem_of_nil & _)|[_ Hd]]; done.
    - rewrite fmap_cons in Hnd. apply NoDup_cons in Hnd as [Hnot Hnd].
      cbn [foldl]. rewrite (IH _ Hnd). clear IH. split.
      + intros [(c' & Hc' & Hrest)|[Hothers Hacc]].
        * left. exists c'. split; [by right|done].
        * destruct (Hdec c) as [Hsel|Hsel].
          -- rewrite (Hyes _ _ Hsel) in Hacc.
             destruct (decide (cls_name c = name)) as [Heq|Hne].
             ++ rewrite Heq, lookup_insert_eq in Hacc. injection Hacc as <-.
                left. exists c. split; [by left|done].
             ++ rewrite lookup_insert_ne in Hacc by done. right. split; [|done].
                intros c' Hc' Hname. apply elem_of_cons in Hc' as [->|Hc'];
                  [done|by apply Hothers].
          -- rewrite (Hno _ _ Hsel) in Hacc. right. split; [|done].
             intros c' Hc' Hname. apply elem_of_cons in Hc' as [->|Hc'];
               [done|by apply Hothers].
      + intros [(c' & Hc' & Hsel & Hname & Hd)|[Hothers Hacc]].
        * apply elem_of_cons in Hc' as [->|Hc'].
          -- right. split.
             ++ intros c' Hc' Hname'. exfalso. apply Hnot. rewrite <- Hname' in Hname.
                rewrite Hname. by apply list_elem_of_fmap_2.
             ++ by rewrite (Hyes _ _ Hsel), Hname, lookup_insert_eq, Hd.
          -- left. exists c'. done.
        * right. split; [intros c' Hc'; apply Hothers; by right|].
          destruct (Hdec c) as [Hsel|Hsel].
          -- rewrite (Hyes _ _ Hsel), lookup_insert_ne; [done|].
             intros Hname. by apply (Hothers c); [left|..].
          -- by rewrite (Hno _ _ Hsel). }
  intros Hnd. rewrite (Hgen ∅ Hnd). subst selected. cbn beta. split.
  - intros [(c & Hc & [Hig Hskip] & Hname & Hd)|[_ Hd]].
    + exists c. done.
    + by rewrite lookup_empty in Hd.
  - intros (c & Hc & Hig & Hname & Hskip & Hd). left. exists c. done.
Qed.

(** X28. For classes of distinct names whose signatures name no parameter
    twice, [collect_named_init_params] holds the value [v] for the parameter
    [param] under the class name [name] exactly when a class of that name in
    the method resolution order, not among the ignored ones, has a parameter
    [param] other than [self] that is neither the variable positional nor
    the variable keyword one, and [v] is its default, or the empty string
    when it has none. *)
Theorem named_init_params_are_collected_by_class (mro : list (py_class (V:=V)))
    (skip_empty : bool) (ignore_classes : list py_class) (name param : string) (v : V) :
  NoDup (cls_name <$> mro) →
  (∀ c, c ∈ mro → NoDup (p_name <$> init_signature c)) →
  (∃ d, collect_named_init_params empty_str mro skip_empty ignore_classes !! name = Some d
        ∧ d !! param = Some v)
  ↔ ∃ c p,
      c ∈ mro ∧ (c ∉ ignore_classes) ∧ cls_name c = name
      ∧ p ∈ init_signature c ∧ p_name p = param
      ∧ param ≠ "self" ∧ p_kind p ≠ VAR_KEYWORD ∧ p_kind p ≠ VAR_POSITIONAL
      ∧ v = default empty_str (p_default p).
Proof.
  intros Hclasses Hparams.
  assert (∀ c, c ∈ mro → NoDup (p_name <$> named_params c)) as Hnamed.
  { intros c Hc. unfold named_params.
    apply (NoDup_fmap_2_strong); [|by apply NoDup_filter, (NoDup_fmap_1 p_name), Hparams].
    intros p1 p2 H1 H2 Heq. apply list_elem_of_filter in H1 as [_ H1].
    apply list_elem_of_filter in H2 as [_ H2].
    specialize (Hparams c Hc).
    apply list_elem_of_lookup in H1 as [i1 H1]. apply list_elem_of_lookup in H2 as [i2 H2].
    assert (i1 = i2) as ->.
    { eapply NoDup_lookup; [exact Hparams| |]; rewrite list_lookup_fmap.
      - by rewrite H1.
      - by rewrite H2, Heq. }
    congruence. }
  split.
  - intros (d & Hd & Hv). apply collect_lookup in Hd as (c & Hc & Hig & Hname & _ & ->);
      [|done].
    apply defaults_of_lookup in Hv as (p & Hp & Hk & Hv); [|by apply Hnamed].
    apply list_elem_of_filter in Hp as [(Hself & Hk1 & Hk2) Hp].
    exists c, p. rewrite <- Hk. done.
  - intros (c & p & Hc & Hig & Hname & Hp & Hk & Hself & Hk1 & Hk2 & Hv).
    assert (p ∈ named_params c) as Hin.
    { apply list_elem_of_filter. rewrite Hk. done. }
    exists (defaults_of empty_str (named_params c)). split.
    + apply collect_lookup; [done|]. exists c. repeat split; try done.
      intros _ Hemp. rewrite Hemp in Hin. by apply elem_of_nil in Hin.
    + apply defaults_of_lookup; [by apply Hnamed|]. eauto.
Qed.

End collect_facts.

Example collect_example :
  collect_named_init_params "" [sub_class; base_class; object_class] true [object_class]
  = {[ "Base" := {[ "user_col" := "userid"; "model_params" := "" ]} ]}.
Proof. vm_compute. reflexivity. Qed.

(** X28 at the example hierarchy. *)
Lemma named_init_params_are_collected_by_class_witness :
  (∃ d, collect_named_init_params "" [sub_class; base_class; object_class] true
          [object_class] !! "Base" = Some d
        ∧ d !! "user_col" = Some "userid")
  ↔ ∃ c p,
      c ∈ [sub_class; base_class; object_class] ∧ (c ∉ [object_class])
      ∧ cls_name c = "Base"
      ∧ p ∈ init_signature c ∧ p_name p = "user_col"
      ∧ "user_col" ≠ "self" ∧ p_kind p ≠ VAR_KEYWORD ∧ p_kind p ≠ VAR_POSITIONAL
      ∧ "userid" = default "" (p_default p).
Proof.
  apply (named_init_params_are_collected_by_class ""
           [sub_class; base_class; object_class] true [object_class]
           "Base" "user_col" "userid").
  - by_compute.
  - intros c Hc.
    repeat (apply elem_of_cons in Hc as [->|Hc]; [by_compute|]).
    by apply elem_of_nil in Hc.
Defined.

End InstrumentationFacts.
